(** * libredesk: SLA engine, conversation action executor, media handlers

    A shallow embedding of [internal/sla/sla.go],
    [internal/conversation/conversation.go] and [cmd/media.go].

    Go values are modelled as follows.
    - [int] is [Z]; a [time.Time] is the number of nanoseconds elapsed since
      the zero [time.Time] (so the zero value is [0]); a [time.Duration] is a
      number of nanoseconds; a [null.Time] is an [option].
    - An [error] carries its message; the message of a wrapped error
      ([%w], [%v]) contains the message of the inner one.
    - A method that talks to the database, the clock, the logger or the
      context runs in the monad [M] over [World]: the tables the code
      writes to, the trace of everything it did, and the environment
      (clock readings, which statements fail, when the context is done).
    - The collaborators a manager holds behind an interface are the fields
      of its [Manager] record.
    - A [float64] is a primitive float, which is IEEE 754 binary64. *)

From Stdlib Require Import ZArith String Ascii List Bool Lia.
From stdpp Require Import base option list gmap strings pretty.
From Stdlib Require Floats Uint63.

Local Open Scope string_scope.
Local Open Scope list_scope.
Local Open Scope Z_scope.

(** ** Go basics *)

Inductive ErrorType := GeneralError | InputError | PermissionError.

Inductive error :=
| GoError (msg : string)                         (* errors.New, fmt.Errorf *)
| EnvelopeError (etype : ErrorType) (msg : string) (* envelope.NewError *)
| ErrBusinessHoursNotFound                       (* businessHours.ErrBusinessHoursNotFound *)
| ContextCanceled.                               (* ctx.Err() *)

Definition Error (e : error) : string :=
  match e with
  | GoError msg => msg
  | EnvelopeError _ msg => msg
  | ErrBusinessHoursNotFound => "business hours not found"
  | ContextCanceled => "context canceled"
  end.

(** A Go pair [(T, error)] of which the caller reads the value only when the
    error is nil. *)
Inductive result (A : Type) :=
| Ok (a : A)
| Err (e : error).
Arguments Ok {A} a.
Arguments Err {A} e.

Definition Time := Z.
Definition Duration := Z.

Definition Nanosecond : Duration := 1.
Definition Second : Duration := 1000000000.
Definition Minute : Duration := 60 * Second.
Definition Hour : Duration := 60 * Minute.

(** The [Valid] flag of a [null.Time]. *)
Definition Valid (t : option Time) : bool :=
  match t with
  | Some _ => true
  | None => false
  end.

Definition zeroTime : Time := 0.
Definition IsZero (t : Time) : bool := t =? 0.
Definition After (t u : Time) : bool := u <? t.
Definition Add (t : Time) (d : Duration) : Time := t + d.

(** [strconv.Atoi]: an optional sign and decimal digits; on a syntax error
    the value is 0, on a range error the nearest int64. The boolean tells
    whether the error is nil. *)
Definition is_digit (c : ascii) : bool :=
  let n := Z.of_N (N_of_ascii c) in (48 <=? n) && (n <=? 57).

Fixpoint digits (s : string) (acc : Z) : option Z :=
  match s with
  | EmptyString => Some acc
  | String c r =>
      if is_digit c then digits r (acc * 10 + (Z.of_N (N_of_ascii c) - 48))
      else None
  end.

Definition Atoi (s : string) : Z * bool :=
  match s with
  | EmptyString => (0, false)
  | String c r =>
      let neg := Ascii.eqb c "-" in
      let body := if neg || Ascii.eqb c "+" then r else s in
      match body with
      | EmptyString => (0, false)
      | _ =>
          match digits body 0 with
          | None => (0, false)
          | Some n =>
              if neg then
                if 2 ^ 63 <? n then (- 2 ^ 63, false) else (- n, true)
              else
                if 2 ^ 63 <=? n then (2 ^ 63 - 1, false) else (n, true)
          end
      end
  end.

(** The part of package [time] and of the time-zone data the code relies
    on. [ParseDuration] is [time.ParseDuration]; [Minutes] is
    [int(d.Minutes())], a float64 computation truncated to an int;
    [zoneOffset] is the offset from UTC of a named location, when it
    loads. *)
Class TimePkg := {
  ParseDuration : string -> option Duration;
  Minutes : Duration -> Z;
  zoneOffset : string -> option Duration
}.

(** ** JSON settings, teams, policies, business hours *)

Inductive JSONValue :=
| JString (s : string)
| JOther.

(** [types.JSONText] seen through [json.Unmarshal] into a
    [map[string]interface{}]. *)
Inductive JSONText :=
| JSONInvalid (parseError : string)
| JSONObject (fields : gmap string JSONValue).

Definition json_Unmarshal (j : JSONText) : result (gmap string JSONValue) :=
  match j with
  | JSONInvalid msg => Err (GoError msg)
  | JSONObject fields => Ok fields
  end.

(** [out[key].(string)] with the comma-ok result dropped. *)
Definition asString (out : gmap string JSONValue) (key : string) : string :=
  match out !! key with
  | Some (JString s) => s
  | _ => ""
  end.

(** [tmodels.Team]: [BusinessHoursID] is the [.Int] payload of the
    [null.Int] column. *)
Record Team := {
  BusinessHoursID : Z;
  Timezone : string
}.

Record SLAPolicy := {
  Name : string;
  FirstResponseTime : string;
  ResolutionTime : string
}.

(** [bmodels.BusinessHours]: [Hours] gives, for a weekday (0 = Sunday), the
    opening and closing time of the window as nanoseconds after local
    midnight. *)
Record BusinessHours := {
  IsAlwaysOpen : bool;
  Hours : Z -> option (Duration * Duration)
}.

Record Deadlines := {
  FirstResponse : Time;
  Resolution : Time
}.

Definition SLATypeFirstResponse : string := "first_response".
Definition SLATypeResolution : string := "resolution".

(** [models.AppliedSLA] as [get-pending-slas] scans it: the row of
    [applied_slas] joined with the first-reply and resolved timestamps of
    its conversation. *)
Record AppliedSLA := {
  ID : Z;
  ConversationID : Z;
  FirstResponseDeadlineAt : Time;
  ResolutionDeadlineAt : Time;
  FirstResponseBreachedAt : option Time;
  FirstResponseMetAt : option Time;
  ResolutionBreachedAt : option Time;
  ResolutionMetAt : option Time;
  ConversationFirstResponseAt : option Time;
  ConversationResolvedAt : option Time
}.

(** [umodels.User], [models.Conversation] (the fields the code reads or
    the statements write), activity entries and messages. *)
Record User := {
  UserID : Z;
  FirstName : string;
  LastName : string
}.

Definition FullName (u : User) : string := FirstName u +:+ " " +:+ LastName u.

Record Conversation := {
  ConvID : Z;
  UUID : string;
  ReferenceNumber : string;
  Subject : string;
  Priority : string;
  Status : string;
  AssignedUserID : option Z;
  AssignedTeamID : option Z;
  SnoozedUntil : Time;
  FirstReplyAt : option Time;
  ResolvedAt : option Time;
  Tags : list string
}.

(** An [interface{}], as far as its value is observed. *)
Inductive Any :=
| VInt (n : Z)
| VString (s : string)
| VStrings (l : list string)
| VBool (b : bool)
| VTime (t : Time)
| VError (e : error)
| VOther.

Inductive ActivityKind :=
| ActAssignedUserChange
| ActAssignedTeamChange
| ActPriorityChange
| ActStatusChange
| ActSLASet.

Record Activity := {
  ActConversation : string;
  ActKind : ActivityKind;
  ActValue : Any;
  ActActor : Z
}.

Record Message := {
  MsgConversation : string;
  MsgPrivate : bool;
  MsgSender : Z;
  MsgContent : string
}.

Record NotifierMessage := {
  UserIDs : list Z;
  NSubject : string;
  NContent : string;
  Provider : string
}.

(** [notifier.ProviderEmail], of a package that is not among the
    sources. *)
Definition ProviderEmail : string := "email".

(** A row of [applied_slas]. *)
Record AppliedSLARow := {
  row_conversation_id : Z;
  row_sla_policy_id : Z;
  row_first_response_deadline_at : Time;
  row_resolution_deadline_at : Time;
  row_first_response_breached_at : option Time;
  row_first_response_met_at : option Time;
  row_resolution_breached_at : option Time;
  row_resolution_met_at : option Time
}.

(** ** The world: tables, environment, trace *)

Record DB := {
  sla_policies : gmap Z SLAPolicy;
  applied_slas : gmap Z AppliedSLARow;
  conversations : gmap string Conversation;   (* by uuid *)
  activities : list Activity;
  messages : list Message
}.

(** Every call that leaves the process: the prepared statements of the two
    [queries] structs, the transaction of [GetConversations], and the
    notifier. *)
Inductive Call :=
| GetSLA (id : Z)
| ApplySLAStmt (conversationID slaPolicyID : Z) (firstResponse resolution : Time)
| GetPendingSLAs
| UpdateBreach (id : Z) (slaType : string)
| UpdateMet (id : Z) (slaType : string)
| SetNextSLADeadline (conversationID : Z)
| UpdateSLAStatus (id : Z)
| GetConversationStmt (id : Z) (uuid : string)
| UpdateConversationAssignedUser (uuid : string) (assigneeID : Z)
| UpdateConversationAssignedTeam (uuid : string) (assigneeID : Z)
| UpdateConversationPriorityStmt (uuid priority : string)
| UpdateConversationStatusStmt (uuid status : string) (snoozeUntil : Time)
| UpsertConversationTagsStmt (uuid : string) (tagNames : list string)
| InsertActivity (a : Activity)
| InsertMessage (msg : Message)
| BeginTxx
| TxSelect (query : string) (qArgs : list Z)
| TxRollback
| NotifierSend (nm : NotifierMessage).

Inductive Level := Debug | Info | Warn | ErrorLevel.

Inductive Event :=
| EvCall (c : Call) (ok : bool)
| EvLog (lvl : Level) (msg : string) (fields : list (string * Any))
| EvBroadcast (uuid prop : string) (value : Any).

(** The environment answers, at each step, what [time.Now()] reads, whether
    a call fails, and whether the context is done. *)
Record Env := {
  clock : nat -> Time;
  fails : nat -> Call -> bool;
  ctxDone : nat -> bool
}.

Record World := {
  env : Env;
  step : nat;
  db : DB;
  trace : list Event
}.

Definition M (A : Type) : Type := World -> A * World.

Definition ret {A} (a : A) : M A := fun w => (a, w).

Definition bind {A B} (c : M A) (k : A -> M B) : M B :=
  fun w => let (a, w') := c w in k a w'.

Notation "'let!' x ':=' c 'in' k" := (bind c (fun x => k))
  (at level 10, x pattern, c at level 100, k at level 200).
Notation "c ';;' k" := (bind c (fun _ => k))
  (at level 100, k at level 200, right associativity).

Definition tick (w : World) : World :=
  {| env := env w; step := S (step w); db := db w; trace := trace w |}.

Definition emit (e : Event) : M unit :=
  fun w => (tt, {| env := env w; step := step w; db := db w;
                   trace := trace w ++ [e] |}).

Definition log (lvl : Level) (msg : string) (fields : list (string * Any))
  : M unit :=
  emit (EvLog lvl msg fields).

Definition Now : M Time := fun w => (clock (env w) (step w), tick w).

Definition ctx_Done : M bool := fun w => (ctxDone (env w) (step w), tick w).

(** *** What the statements do to the tables

    Modelled from the spec: the text of the statements is in the two
    [queries.sql] files, which are not among the sources. Each statement is
    given the effect the spec and the comments of its caller give it: a
    metric is marked breached or met by stamping its [breached_at] or
    [met_at] column; an assignment, priority, status or tag mutation is
    persisted on the conversation of that uuid (assigning a team sets the
    assigned user to NULL); an activity entry or a message is appended. The
    columns the statements derive ([status] of an applied SLA, the next SLA
    deadline of a conversation) are not columns of this model, neither are
    the reads. *)

Definition fresh_id {A} (m : gmap Z A) : Z :=
  1 + map_fold (fun k _ acc => Z.max k acc) 0 m.

Definition stamp_breached (slaType : string) (now : Time) (r : AppliedSLARow)
  : AppliedSLARow :=
  {| row_conversation_id := row_conversation_id r;
     row_sla_policy_id := row_sla_policy_id r;
     row_first_response_deadline_at := row_first_response_deadline_at r;
     row_resolution_deadline_at := row_resolution_deadline_at r;
     row_first_response_breached_at :=
       if String.eqb slaType SLATypeFirstResponse then Some now
       else row_first_response_breached_at r;
     row_first_response_met_at := row_first_response_met_at r;
     row_resolution_breached_at :=
       if String.eqb slaType SLATypeResolution then Some now
       else row_resolution_breached_at r;
     row_resolution_met_at := row_resolution_met_at r |}.

Definition stamp_met (slaType : string) (now : Time) (r : AppliedSLARow)
  : AppliedSLARow :=
  {| row_conversation_id := row_conversation_id r;
     row_sla_policy_id := row_sla_policy_id r;
     row_first_response_deadline_at := row_first_response_deadline_at r;
     row_resolution_deadline_at := row_resolution_deadline_at r;
     row_first_response_breached_at := row_first_response_breached_at r;
     row_first_response_met_at :=
       if String.eqb slaType SLATypeFirstResponse then Some now
       else row_first_response_met_at r;
     row_resolution_breached_at := row_resolution_breached_at r;
     row_resolution_met_at :=
       if String.eqb slaType SLATypeResolution then Some now
       else row_resolution_met_at r |}.

Definition with_applied_slas (f : gmap Z AppliedSLARow -> gmap Z AppliedSLARow)
  (d : DB) : DB :=
  {| sla_policies := sla_policies d; applied_slas := f (applied_slas d);
     conversations := conversations d; activities := activities d;
     messages := messages d |}.

Definition with_conversations
  (f : gmap string Conversation -> gmap string Conversation) (d : DB) : DB :=
  {| sla_policies := sla_policies d; applied_slas := applied_slas d;
     conversations := f (conversations d); activities := activities d;
     messages := messages d |}.

Definition set_assigned_user (id : Z) (c : Conversation) : Conversation :=
  {| ConvID := ConvID c; UUID := UUID c; ReferenceNumber := ReferenceNumber c;
     Subject := Subject c; Priority := Priority c; Status := Status c;
     AssignedUserID := Some id; AssignedTeamID := AssignedTeamID c;
     SnoozedUntil := SnoozedUntil c; FirstReplyAt := FirstReplyAt c;
     ResolvedAt := ResolvedAt c; Tags := Tags c |}.

Definition set_assigned_team (id : Z) (c : Conversation) : Conversation :=
  {| ConvID := ConvID c; UUID := UUID c; ReferenceNumber := ReferenceNumber c;
     Subject := Subject c; Priority := Priority c; Status := Status c;
     AssignedUserID := None; AssignedTeamID := Some id;
     SnoozedUntil := SnoozedUntil c; FirstReplyAt := FirstReplyAt c;
     ResolvedAt := ResolvedAt c; Tags := Tags c |}.

Definition set_priority (p : string) (c : Conversation) : Conversation :=
  {| ConvID := ConvID c; UUID := UUID c; ReferenceNumber := ReferenceNumber c;
     Subject := Subject c; Priority := p; Status := Status c;
     AssignedUserID := AssignedUserID c; AssignedTeamID := AssignedTeamID c;
     SnoozedUntil := SnoozedUntil c; FirstReplyAt := FirstReplyAt c;
     ResolvedAt := ResolvedAt c; Tags := Tags c |}.

Definition set_status (s : string) (snoozeUntil : Time) (c : Conversation)
  : Conversation :=
  {| ConvID := ConvID c; UUID := UUID c; ReferenceNumber := ReferenceNumber c;
     Subject := Subject c; Priority := Priority c; Status := s;
     AssignedUserID := AssignedUserID c; AssignedTeamID := AssignedTeamID c;
     SnoozedUntil := snoozeUntil; FirstReplyAt := FirstReplyAt c;
     ResolvedAt := ResolvedAt c; Tags := Tags c |}.

Definition set_tags (ts : list string) (c : Conversation) : Conversation :=
  {| ConvID := ConvID c; UUID := UUID c; ReferenceNumber := ReferenceNumber c;
     Subject := Subject c; Priority := Priority c; Status := Status c;
     AssignedUserID := AssignedUserID c; AssignedTeamID := AssignedTeamID c;
     SnoozedUntil := SnoozedUntil c; FirstReplyAt := FirstReplyAt c;
     ResolvedAt := ResolvedAt c; Tags := ts |}.

Definition perform (now : Time) (c : Call) (d : DB) : DB :=
  match c with
  | ApplySLAStmt conv pol fr res =>
      with_applied_slas
        (fun t => <[fresh_id t :=
           {| row_conversation_id := conv; row_sla_policy_id := pol;
              row_first_response_deadline_at := fr;
              row_resolution_deadline_at := res;
              row_first_response_breached_at := None;
              row_first_response_met_at := None;
              row_resolution_breached_at := None;
              row_resolution_met_at := None |}]> t) d
  | UpdateBreach id ty => with_applied_slas (alter (stamp_breached ty now) id) d
  | UpdateMet id ty => with_applied_slas (alter (stamp_met ty now) id) d
  | UpdateConversationAssignedUser uuid id =>
      with_conversations (alter (set_assigned_user id) uuid) d
  | UpdateConversationAssignedTeam uuid id =>
      with_conversations (alter (set_assigned_team id) uuid) d
  | UpdateConversationPriorityStmt uuid p =>
      with_conversations (alter (set_priority p) uuid) d
  | UpdateConversationStatusStmt uuid s until =>
      with_conversations (alter (set_status s until) uuid) d
  | UpsertConversationTagsStmt uuid ts =>
      with_conversations (alter (set_tags ts) uuid) d
  | InsertActivity a =>
      {| sla_policies := sla_policies d; applied_slas := applied_slas d;
         conversations := conversations d; activities := activities d ++ [a];
         messages := messages d |}
  | InsertMessage msg =>
      {| sla_policies := sla_policies d; applied_slas := applied_slas d;
         conversations := conversations d; activities := activities d;
         messages := messages d ++ [msg] |}
  | GetSLA _ | GetPendingSLAs | SetNextSLADeadline _ | UpdateSLAStatus _
  | GetConversationStmt _ _ | BeginTxx | TxSelect _ _ | TxRollback
  | NotifierSend _ => d
  end.

(** One call: the environment decides whether it fails; when it does not,
    it takes effect. Either way it is on the trace. The result is [true]
    when the error is nil. *)
Definition call (c : Call) : M bool :=
  fun w =>
    let ok := negb (fails (env w) (step w) c) in
    (ok, {| env := env w; step := S (step w);
            db := if ok then perform (clock (env w) (step w)) c (db w) else db w;
            trace := trace w ++ [EvCall c ok] |}).

(** The error the driver returns for a failed call, and [sql.ErrNoRows]. *)
Definition dbError : error := GoError "sql: database error".
Definition ErrNoRows : error := GoError "sql: no rows in result set".

(** One call that takes the context ([SelectContext]): once the context
    is done it fails with the error of the context and has no effect;
    otherwise it is a [call], which fails with the error of the driver. The
    result is the error. *)
Definition callContext (c : Call) : M (option error) :=
  fun w =>
    if ctxDone (env w) (step w) then
      (Some ContextCanceled,
       {| env := env w; step := S (step w); db := db w;
          trace := trace w ++ [EvCall c false] |})
    else
      let (ok, w') := call c w in
      (if ok then None else Some dbError, w').

(** The errors of a failed [notifier.Send] and of [time.ParseDuration]. *)
Definition sendError : error := GoError "notifier: send failed".
Definition parseError : error := GoError "time: invalid duration".

Definition getDB : M DB := fun w => (db w, w).

Definition conversation_by_id (d : DB) (id : Z) : option Conversation :=
  (fun x => snd (snd x))
    <$> list_find (fun kv => ConvID (snd kv) = id) (map_to_list (conversations d)).

(** ** Package sla *)

Module sla.

Section WithTime.
Context `{TimePkg}.

(** The collaborators of [sla.Manager]. *)
Record Manager := {
  teamStore_Get : Z -> result Team;
  appSettingsStore_GetByPrefix : string -> result JSONText;
  businessHrsStore_Get : Z -> result BusinessHours
}.

Definition Day : Duration := 24 * Hour.

(** Day 0 of the time scale, January 1 of year 1, is a Monday. *)
Definition weekday (local : Time) : Z := (local / Day + 1) mod 7.

(** Modelled from the spec: the day walk of the business-hours resolver
    (section 4.1), which lives in a file of package [sla] that is not among
    the sources. From [from], day by day, the open time of each weekday's
    window is consumed until [remaining] fits in what is left of a window;
    the walk is capped. *)
Fixpoint walk (hours : Z -> option (Duration * Duration)) (days : nat)
  (dayStart from : Time) (remaining : Duration) : option Time :=
  match days with
  | O => None
  | S days' =>
      let next := walk hours days' (dayStart + Day) (dayStart + Day) in
      match hours (weekday dayStart) with
      | Some (opens, closes) =>
          let s := Z.max from (dayStart + opens) in
          let e := dayStart + closes in
          if s <? e then
            if remaining <=? e - s then Some (s + remaining)
            else next (remaining - (e - s))
          else next remaining
      | None => next remaining
      end
  end.

(** Modelled from the spec: [Manager.CalculateDeadline], the
    [ComputeDeadline] of section 4.1, which [CalculateDeadlines] calls and
    which is not among the sources. An always-open calendar gives
    [start + minutes] with no calendar walk; otherwise the walk runs in the
    calendar's time zone for at most 365 days and fails with a
    configuration error when no window is found. *)
Definition CalculateDeadline (start : Time) (slaMinutes : Z)
  (businessHours : BusinessHours) (timeZone : string) : result Time :=
  if IsAlwaysOpen businessHours then Ok (Add start (slaMinutes * Minute))
  else
    match zoneOffset timeZone with
    | None => Err (GoError "unknown time zone")
    | Some off =>
        let local := start + off in
        match walk (Hours businessHours) 365 (local / Day * Day) local
                (slaMinutes * Minute) with
        | Some t => Ok (t - off)
        | None => Err (GoError "no business hours window found")
        end
    end.

(** [Manager.Get] *)
Definition Get (id : Z) : M (result SLAPolicy) :=
  let! ok := call (GetSLA id) in
  let! d := getDB in
  match (if ok then sla_policies d !! id else None) with
  | Some sla => ret (Ok sla)
  | None =>
      log ErrorLevel "error fetching SLA"
        [("error", VError (if ok then ErrNoRows else dbError))] ;;
      ret (Err (EnvelopeError GeneralError "Error fetching SLA"))
  end.

(** [Manager.getBusinessHoursAndTimezone] *)
Definition getBusinessHoursAndTimezone (m : Manager) (assignedTeamID : Z)
  : M (result (BusinessHours * string)) :=
  (* Fetch from team if assignedTeamID is provided. *)
  match (if assignedTeamID =? 0 then Ok (0, "")
         else match teamStore_Get m assignedTeamID with
              | Err e => Err e
              | Ok team => Ok (BusinessHoursID team, Timezone team)
              end) with
  | Err e => ret (Err e)
  | Ok (businessHrsID, timezone) =>
      (* Else fetch from app settings, this is System default. *)
      match (if (businessHrsID =? 0) || String.eqb timezone "" then
               match appSettingsStore_GetByPrefix m "app" with
               | Err e => Err e
               | Ok settingsJ =>
                   match json_Unmarshal settingsJ with
                   | Err e => Err (GoError ("parsing settings: " +:+ Error e))
                   | Ok out =>
                       Ok (fst (Atoi (asString out "app.business_hours_id")),
                           asString out "app.timezone")
                   end
               end
             else Ok (businessHrsID, timezone)) with
      | Err e => ret (Err e)
      | Ok (businessHrsID, timezone) =>
          (* If still not found, return error. *)
          if (businessHrsID =? 0) || String.eqb timezone "" then
            ret (Err (GoError "business hours or timezone not configured"))
          else
            match businessHrsStore_Get m businessHrsID with
            | Err ErrBusinessHoursNotFound =>
                log Warn "business hours not found"
                  [("team_id", VInt assignedTeamID)] ;;
                ret (Err (GoError "business hours not found"))
            | Err e =>
                log ErrorLevel "error fetching business hours for SLA"
                  [("error", VError e)] ;;
                ret (Err e)
            | Ok bh => ret (Ok (bh, timezone))
            end
      end
  end.

(** The closure [calculateDeadline] of [CalculateDeadlines]. *)
Definition calculateDeadline (startTime : Time) (businessHrs : BusinessHours)
  (timezone : string) (durationStr : string) : result Time :=
  if String.eqb durationStr "" then Ok zeroTime
  else
    match ParseDuration durationStr with
    | None => Err (GoError ("parsing SLA duration: " +:+ Error parseError))
    | Some dur => CalculateDeadline startTime (Minutes dur) businessHrs timezone
    end.

(** [Manager.CalculateDeadlines] *)
Definition CalculateDeadlines (m : Manager) (startTime : Time)
  (slaPolicyID assignedTeamID : Z) : M (result Deadlines) :=
  let! r := getBusinessHoursAndTimezone m assignedTeamID in
  match r with
  | Err e => ret (Err e)
  | Ok (businessHrs, timezone) =>
      log Info "calculating deadlines"
        [("timezone", VString timezone);
         ("business_hours_always_open", VBool (IsAlwaysOpen businessHrs));
         ("business_hours", VOther)] ;;
      let! r := Get slaPolicyID in
      match r with
      | Err e => ret (Err e)
      | Ok sla =>
          match calculateDeadline startTime businessHrs timezone
                  (FirstResponseTime sla) with
          | Err e => ret (Err e)
          | Ok firstResponse =>
              match calculateDeadline startTime businessHrs timezone
                      (ResolutionTime sla) with
              | Err e => ret (Err e)
              | Ok resolution =>
                  ret (Ok {| FirstResponse := firstResponse;
                             Resolution := resolution |})
              end
          end
      end
  end.

(** [Manager.ApplySLA] *)
Definition ApplySLA (m : Manager) (startTime : Time)
  (conversationID assignedTeamID slaPolicyID : Z) : M (result SLAPolicy) :=
  let! r := CalculateDeadlines m startTime slaPolicyID assignedTeamID in
  match r with
  | Err e => ret (Err e)
  | Ok deadlines =>
      let! ok := call (ApplySLAStmt conversationID slaPolicyID
                         (FirstResponse deadlines) (Resolution deadlines)) in
      if ok then Get slaPolicyID
      else
        log ErrorLevel "error applying SLA" [("error", VError dbError)] ;;
        ret (Err (EnvelopeError GeneralError "Error applying SLA"))
  end.

End WithTime.

(** The closure [checkDeadline] of [evaluateSLA]. *)
Definition checkDeadline (sla : AppliedSLA) (deadline : Time)
  (metAt : option Time) (slaType : string) : M (option error) :=
  if IsZero deadline then
    log Debug "deadline zero, skipping checking the deadline" [] ;;
    ret None
  else
    let! now := Now in
    if negb (Valid metAt) && After now deadline then
      log Debug "SLA breached as current time is after deadline"
        [("deadline", VTime deadline); ("now", VTime now);
         ("sla_type", VString slaType)] ;;
      let! ok := call (UpdateBreach (ID sla) slaType) in
      if ok then ret None
      else ret (Some (GoError ("updating SLA breach: " +:+ Error dbError)))
    else
      match metAt with
      | Some metAtTime =>
          if After metAtTime deadline then
            log Debug "SLA breached as met_at is after deadline"
              [("deadline", VTime deadline); ("met_at", VTime metAtTime);
               ("sla_type", VString slaType)] ;;
            let! ok := call (UpdateBreach (ID sla) slaType) in
            if ok then ret None
            else ret (Some (GoError ("updating SLA breach: " +:+ Error dbError)))
          else
            log Debug "SLA type met"
              [("deadline", VTime deadline); ("met_at", VTime metAtTime);
               ("sla_type", VString slaType)] ;;
            let! ok := call (UpdateMet (ID sla) slaType) in
            if ok then ret None
            else ret (Some (GoError ("updating SLA met: " +:+ Error dbError)))
      | None => ret None
      end.

(** [Manager.evaluateSLA] *)
Definition evaluateSLA (sla : AppliedSLA) : M (option error) :=
  log Debug "evaluating SLA"
    [("conversation_id", VInt (ConversationID sla));
     ("applied_sla_id", VInt (ID sla))] ;;
  (* If first response is not breached and not met, check the deadline and
     set them. *)
  let! err :=
    (if negb (Valid (FirstResponseBreachedAt sla))
        && negb (Valid (FirstResponseMetAt sla)) then
       log Debug "checking deadline"
         [("deadline", VTime (FirstResponseDeadlineAt sla));
          ("met_at", VTime (default zeroTime (ConversationFirstResponseAt sla)));
          ("sla_type", VString SLATypeFirstResponse)] ;;
       checkDeadline sla (FirstResponseDeadlineAt sla)
         (ConversationFirstResponseAt sla) SLATypeFirstResponse
     else ret None) in
  match err with
  | Some e => ret (Some e)
  | None =>
      (* If resolution is not breached and not met, check the deadine and
         set them. *)
      let! err :=
        (if negb (Valid (ResolutionBreachedAt sla))
            && negb (Valid (ResolutionMetAt sla)) then
           log Debug "checking deadline"
             [("deadline", VTime (ResolutionDeadlineAt sla));
              ("met_at", VTime (default zeroTime (ConversationResolvedAt sla)));
              ("sla_type", VString SLATypeResolution)] ;;
           checkDeadline sla (ResolutionDeadlineAt sla)
             (ConversationResolvedAt sla) SLATypeResolution
         else ret None) in
      match err with
      | Some e => ret (Some e)
      | None =>
          (* Update the conversation next SLA deadline. *)
          let! ok := call (SetNextSLADeadline (ConversationID sla)) in
          if negb ok then
            ret (Some (GoError ("setting conversation next SLA deadline: "
                                +:+ Error dbError)))
          else
            (* Update status of applied SLA. *)
            let! ok := call (UpdateSLAStatus (ID sla)) in
            if negb ok then
              ret (Some (GoError ("updating applied SLA status: "
                                  +:+ Error dbError)))
            else ret None
      end
  end.

(** Modelled from the spec: what [get-pending-slas] selects, every applied
    SLA still pending on at least one metric, joined with its
    conversation. *)
Definition pending (r : AppliedSLARow) : bool :=
  (negb (Valid (row_first_response_breached_at r))
   && negb (Valid (row_first_response_met_at r)))
  || (negb (Valid (row_resolution_breached_at r))
      && negb (Valid (row_resolution_met_at r))).

Definition snapshot (id : Z) (r : AppliedSLARow) (c : Conversation) : AppliedSLA :=
  {| ID := id;
     ConversationID := row_conversation_id r;
     FirstResponseDeadlineAt := row_first_response_deadline_at r;
     ResolutionDeadlineAt := row_resolution_deadline_at r;
     FirstResponseBreachedAt := row_first_response_breached_at r;
     FirstResponseMetAt := row_first_response_met_at r;
     ResolutionBreachedAt := row_resolution_breached_at r;
     ResolutionMetAt := row_resolution_met_at r;
     ConversationFirstResponseAt := FirstReplyAt c;
     ConversationResolvedAt := ResolvedAt c |}.

Definition pendingSLAs (d : DB) : list AppliedSLA :=
  omap (fun kv : Z * AppliedSLARow =>
          if pending (snd kv) then
            snapshot (fst kv) (snd kv)
              <$> conversation_by_id d (row_conversation_id (snd kv))
          else None)
       (map_to_list (applied_slas d)).

(** The loop of [evaluatePendingSLAs] over the fetched rows. *)
Fixpoint evaluateEach (slas : list AppliedSLA) : M (option error) :=
  match slas with
  | [] => ret None
  | sla :: rest =>
      let! done := ctx_Done in
      if done then ret (Some ContextCanceled)
      else
        let! err := evaluateSLA sla in
        (match err with
         | Some e => log ErrorLevel "error evaluating SLA" [("error", VError e)]
         | None => ret tt
         end) ;;
        evaluateEach rest
  end.

(** [Manager.evaluatePendingSLAs] *)
Definition evaluatePendingSLAs : M (option error) :=
  let! err := callContext GetPendingSLAs in
  match err with
  | Some e =>
      log ErrorLevel "error fetching pending SLAs" [("error", VError e)] ;;
      ret (Some e)
  | None =>
      let! d := getDB in
      let pendingSLAs := pendingSLAs d in
      log Info "evaluating pending SLAs"
        [("count", VInt (Z.of_nat (length pendingSLAs)))] ;;
      let! err := evaluateEach pendingSLAs in
      match err with
      | Some e => ret (Some e)
      | None =>
          log Info "evaluated pending SLAs"
            [("count", VInt (Z.of_nat (length pendingSLAs)))] ;;
          ret None
      end
  end.

(** What the [select] of [Run] receives, in order. *)
Inductive Signal := Tick | Done.

(** [Manager.Run], over the signals that arrive. *)
Fixpoint Run (signals : list Signal) : M unit :=
  match signals with
  | [] => ret tt
  | Done :: _ => ret tt
  | Tick :: rest =>
      let! err := evaluatePendingSLAs in
      (match err with
       | Some e => log ErrorLevel "error processing pending SLAs"
                     [("error", VError e)]
       | None => ret tt
       end) ;;
      Run rest
  end.

End sla.

(** ** Package conversation *)

Module conversation.

(** Modelled from the spec: the constants of [conversation/models],
    [automation/models] and [template], which are not among the sources.
    The code only compares them; the action types are pairwise distinct. *)
Definition StatusSnoozed : string := "Snoozed".
Definition AssigneeTypeUser : string := "user".
Definition AssigneeTypeTeam : string := "team".
Definition AssignedConversations : string := "assigned".
Definition UnassignedConversations : string := "unassigned".
Definition TeamUnassignedConversations : string := "team_unassigned".
Definition AllConversations : string := "all".
Definition ActionAssignTeam : string := "assign_team".
Definition ActionAssignUser : string := "assign_user".
Definition ActionSetPriority : string := "set_priority".
Definition ActionSetStatus : string := "set_status".
Definition ActionSendPrivateNote : string := "send_private_note".
Definition ActionReply : string := "send_reply".
Definition ActionSetSLA : string := "set_sla".
Definition ActionSetTags : string := "set_tags".
Definition TmplConversationAssigned : string := "Conversation assigned".

Definition conversationsListMaxPageSize : Z := 100.

(** [amodels.RuleAction] *)
Record RuleAction := {
  Type_ : string;
  Value : list string
}.

(** A run-time panic, or a normal return. *)
Inductive outcome (A : Type) :=
| Returns (a : A)
| Panics.
Arguments Returns {A} a.
Arguments Panics {A}.

Section WithTime.
Context `{TimePkg}.

(** The collaborators of [conversation.Manager]. [GetConversations] is the
    query text of that name, split at its [%s] verb; [errorFetching] is the
    message [i18n.Ts] renders in [GetConversations]. *)
Record Manager := {
  userStore_Get : Z -> result User;
  userStore_GetSystemUser : result User;
  statusStore_Get : Z -> result string;      (* the Name of the status *)
  priorityStore_Get : Z -> result string;    (* the Name of the priority *)
  slaStore_ApplySLA : Z -> Z -> Z -> M (result SLAPolicy);
  template_RenderNamedTemplate :
    string -> Conversation -> string -> result (string * string);
  q_GetConversations : string * string;
  errorFetching : string
}.

(** Modelled from the spec: [BroadcastConversationUpdate], defined in a file
    of the package that is not among the sources; it sends the property
    name and its new value to the subscribers of the conversation. *)
Definition BroadcastConversationUpdate (uuid prop : string) (value : Any)
  : M unit :=
  emit (EvBroadcast uuid prop value).

(** Modelled from the spec: the [Record...] methods, defined in a file of
    the package that is not among the sources; each appends one activity
    entry attributed to the acting identity. *)
Definition recordActivity (a : Activity) : M (option error) :=
  let! ok := call (InsertActivity a) in
  if ok then ret None else ret (Some (GoError "inserting activity message")).

Definition RecordAssigneeUserChange (uuid : string) (assigneeID : Z)
  (actor : User) : M (option error) :=
  recordActivity {| ActConversation := uuid; ActKind := ActAssignedUserChange;
                    ActValue := VInt assigneeID; ActActor := UserID actor |}.

Definition RecordAssigneeTeamChange (uuid : string) (teamID : Z)
  (actor : User) : M (option error) :=
  recordActivity {| ActConversation := uuid; ActKind := ActAssignedTeamChange;
                    ActValue := VInt teamID; ActActor := UserID actor |}.

Definition RecordPriorityChange (priority uuid : string) (actor : User)
  : M (option error) :=
  recordActivity {| ActConversation := uuid; ActKind := ActPriorityChange;
                    ActValue := VString priority; ActActor := UserID actor |}.

Definition RecordStatusChange (status uuid : string) (actor : User)
  : M (option error) :=
  recordActivity {| ActConversation := uuid; ActKind := ActStatusChange;
                    ActValue := VString status; ActActor := UserID actor |}.

Definition RecordSLASet (uuid name : string) (actor : User) : M (option error) :=
  recordActivity {| ActConversation := uuid; ActKind := ActSLASet;
                    ActValue := VString name; ActActor := UserID actor |}.

(** Modelled from the spec: [SendPrivateNote] and [SendReply], defined in a
    file of the package that is not among the sources; each persists one
    message of the sender in the conversation. *)
Definition SendPrivateNote (senderID : Z) (uuid content : string)
  : M (option error) :=
  let! ok := call (InsertMessage {| MsgConversation := uuid; MsgPrivate := true;
                                    MsgSender := senderID;
                                    MsgContent := content |}) in
  if ok then ret None else ret (Some (GoError "sending private note")).

Definition SendReply (senderID : Z) (uuid content : string) : M (option error) :=
  let! ok := call (InsertMessage {| MsgConversation := uuid; MsgPrivate := false;
                                    MsgSender := senderID;
                                    MsgContent := content |}) in
  if ok then ret None else ret (Some (GoError "sending reply")).

(** [Manager.GetConversation]. Modelled from the spec: [get-conversation]
    selects by id when the id is positive and by uuid otherwise, as
    [get-user] of [internal/user/queries.sql] does. *)
Definition GetConversation (id : Z) (uuid : string) : M (result Conversation) :=
  let! ok := call (GetConversationStmt id uuid) in
  let! d := getDB in
  if ok then
    match (if 0 <? id then conversation_by_id d id else conversations d !! uuid) with
    | Some c => ret (Ok c)
    | None => ret (Err (EnvelopeError InputError "Conversation not found"))
    end
  else
    log ErrorLevel "error fetching conversation" [("error", VError dbError)] ;;
    ret (Err (EnvelopeError GeneralError "Error fetching conversation")).

(** [Manager.SendAssignedConversationEmail]. [userIDs[0]] panics on an
    empty slice; the one caller passes one id, and the empty case is given
    an error here. *)
Definition SendAssignedConversationEmail (m : Manager) (userIDs : list Z)
  (conversation : Conversation) : M (option error) :=
  match userIDs with
  | [] => ret (Some (GoError "index out of range [0] with length 0"))
  | userID :: _ =>
      match userStore_Get m userID with
      | Err e =>
          log ErrorLevel "error fetching agent" [("error", VError e)] ;;
          ret (Some (GoError ("fetching agent: " +:+ Error e)))
      | Ok agent =>
          match template_RenderNamedTemplate m TmplConversationAssigned
                  conversation (FullName agent) with
          | Err e =>
              log ErrorLevel "error rendering template"
                [("template", VString TmplConversationAssigned);
                 ("conversation_uuid", VString (UUID conversation));
                 ("error", VError e)] ;;
              ret (Some (GoError ("rendering template: " +:+ Error e)))
          | Ok (content, subject) =>
              let nm := {| UserIDs := userIDs; NSubject := subject;
                           NContent := content; Provider := ProviderEmail |} in
              let! ok := call (NotifierSend nm) in
              if ok then ret None
              else
                log ErrorLevel "error sending notification message"
                  [("error", VError sendError)] ;;
                ret (Some (GoError ("sending notification message: "
                                    +:+ Error sendError)))
          end
      end
  end.

(** [Manager.UpdateAssignee] *)
Definition UpdateAssignee (uuid : string) (assigneeID : Z) (assigneeType : string)
  : M (option error) :=
  if String.eqb assigneeType AssigneeTypeUser then
    let! ok := call (UpdateConversationAssignedUser uuid assigneeID) in
    if ok then
      (* Broadcast update to all subscribers. *)
      BroadcastConversationUpdate uuid "assigned_user_id" (VInt assigneeID) ;;
      ret None
    else
      log ErrorLevel "error updating conversation assignee"
        [("error", VError dbError)] ;;
      ret (Some (GoError ("updating assignee: " +:+ Error dbError)))
  else if String.eqb assigneeType AssigneeTypeTeam then
    let! ok := call (UpdateConversationAssignedTeam uuid assigneeID) in
    if ok then
      BroadcastConversationUpdate uuid "assigned_team_id" (VInt assigneeID) ;;
      ret None
    else
      log ErrorLevel "error updating conversation assignee"
        [("error", VError dbError)] ;;
      ret (Some (GoError ("updating assignee: " +:+ Error dbError)))
  else ret (Some (GoError ("invalid assignee type: " +:+ assigneeType))).

(** [Manager.UpdateConversationUserAssignee] *)
Definition UpdateConversationUserAssignee (m : Manager) (uuid : string)
  (assigneeID : Z) (actor : User) : M (option error) :=
  let! err := UpdateAssignee uuid assigneeID AssigneeTypeUser in
  match err with
  | Some _ => ret (Some (EnvelopeError GeneralError "Error updating assignee"))
  | None =>
      let! r := GetConversation 0 uuid in
      match r with
      | Err e => ret (Some e)
      | Ok conversation =>
          (* Send email to assignee. *)
          let! err := SendAssignedConversationEmail m [assigneeID] conversation in
          (match err with
           | Some e => log ErrorLevel "error sending assigned conversation email"
                         [("error", VError e)]
           | None => ret tt
           end) ;;
          let! err := RecordAssigneeUserChange uuid assigneeID actor in
          match err with
          | Some _ =>
              ret (Some (EnvelopeError GeneralError
                           "Error recording assignee change"))
          | None => ret None
          end
      end
  end.

(** [Manager.UpdateConversationTeamAssignee] *)
Definition UpdateConversationTeamAssignee (uuid : string) (teamID : Z)
  (actor : User) : M (option error) :=
  let! err := UpdateAssignee uuid teamID AssigneeTypeTeam in
  match err with
  | Some _ => ret (Some (EnvelopeError GeneralError "Error updating assignee"))
  | None =>
      let! err := RecordAssigneeTeamChange uuid teamID actor in
      match err with
      | Some _ =>
          ret (Some (EnvelopeError GeneralError "Error recording assignee change"))
      | None => ret None
      end
  end.

(** [Manager.UpdateConversationPriority] *)
Definition UpdateConversationPriority (m : Manager) (uuid : string)
  (priorityID : Z) (priority : string) (actor : User) : M (option error) :=
  (* Fetch the priority name if priority ID is provided. *)
  match (if 0 <? priorityID then priorityStore_Get m priorityID
         else Ok priority) with
  | Err e => ret (Some (EnvelopeError InputError (Error e)))
  | Ok priority =>
      let! ok := call (UpdateConversationPriorityStmt uuid priority) in
      if negb ok then
        log ErrorLevel "error updating conversation priority"
          [("error", VError dbError)] ;;
        ret (Some (EnvelopeError GeneralError "Error updating priority"))
      else
        let! err := RecordPriorityChange priority uuid actor in
        match err with
        | Some _ =>
            ret (Some (EnvelopeError GeneralError
                         "Error recording priority change"))
        | None =>
            BroadcastConversationUpdate uuid "priority" (VString priority) ;;
            ret None
        end
  end.

(** [Manager.UpdateConversationStatus] *)
Definition UpdateConversationStatus (m : Manager) (uuid : string)
  (statusID : Z) (status snoozeDur : string) (actor : User) : M (option error) :=
  (* Fetch the status name if status ID is provided. *)
  match (if 0 <? statusID then statusStore_Get m statusID else Ok status) with
  | Err e => ret (Some (EnvelopeError InputError (Error e)))
  | Ok status =>
      if String.eqb status StatusSnoozed && String.eqb snoozeDur "" then
        ret (Some (EnvelopeError InputError "Snooze duration is required"))
      else
        (* Parse the snooze duration if status is snoozed. *)
        let continue (snoozeUntil : Time) : M (option error) :=
          (* Update the conversation status. *)
          let! ok := call (UpdateConversationStatusStmt uuid status snoozeUntil) in
          if negb ok then
            log ErrorLevel "error updating conversation status"
              [("error", VError dbError)] ;;
            ret (Some (EnvelopeError GeneralError "Error updating status"))
          else
            (* Record the status change as an activity. *)
            let! err := RecordStatusChange status uuid actor in
            match err with
            | Some _ =>
                ret (Some (EnvelopeError GeneralError
                             "Error recording status change"))
            | None =>
                (* Send WS update to all subscribers. *)
                BroadcastConversationUpdate uuid "status" (VString status) ;;
                ret None
            end in
        if String.eqb status StatusSnoozed then
          match ParseDuration snoozeDur with
          | None =>
              log ErrorLevel "error parsing snooze duration"
                [("error", VError parseError)] ;;
              ret (Some (EnvelopeError InputError "Invalid snooze duration format"))
          | Some duration =>
              let! now := Now in
              continue (Add now duration)
          end
        else continue zeroTime
  end.

(** [Manager.UpsertConversationTags] *)
Definition UpsertConversationTags (uuid : string) (tagNames : list string)
  : M (option error) :=
  let! ok := call (UpsertConversationTagsStmt uuid tagNames) in
  if ok then ret None
  else
    log ErrorLevel "error upserting conversation tags"
      [("error", VError dbError)] ;;
    ret (Some (EnvelopeError GeneralError "Error upserting tags")).

(** [Manager.ApplySLA] *)
Definition ApplySLA (m : Manager) (conversationUUID : string)
  (conversationID policyID : Z) (actor : User) : M (option error) :=
  let! r := slaStore_ApplySLA m conversationID 0 policyID in
  match r with
  | Err _ => ret (Some (EnvelopeError GeneralError "Error applying SLA"))
  | Ok policy =>
      (* Record the SLA application as an activity. *)
      let! err := RecordSLASet conversationUUID (Name policy) actor in
      match err with
      | Some _ =>
          ret (Some (EnvelopeError GeneralError "Error recording SLA application"))
      | None => ret None
      end
  end.

(** [Manager.ApplyAction] *)
Definition ApplyAction (m : Manager) (action : RuleAction)
  (conversation : Conversation) (user : User) : M (option error) :=
  match Value action with
  | [] =>
      log Warn "no value provided for action"
        [("action", VString (Type_ action));
         ("conversation_uuid", VString (UUID conversation))] ;;
      ret (Some (GoError ("no value provided for action " +:+ Type_ action)))
  | value0 :: _ =>
      (* If user is not provided, use system user. *)
      match (if UserID user =? 0 then userStore_GetSystemUser m else Ok user) with
      | Err e =>
          ret (Some (GoError ("could not apply " +:+ Type_ action
                              +:+ " action. could not fetch system user: "
                              +:+ Error e)))
      | Ok user =>
          let wrap (c : M (option error)) : M (option error) :=
            let! err := c in
            match err with
            | Some e =>
                ret (Some (GoError ("could not apply " +:+ Type_ action
                                    +:+ " action: " +:+ Error e)))
            | None => ret None
            end in
          if String.eqb (Type_ action) ActionAssignTeam then
            log Debug "executing assign team action"
              [("value", VString value0);
               ("conversation_uuid", VString (UUID conversation))] ;;
            wrap (UpdateConversationTeamAssignee (UUID conversation)
                    (fst (Atoi value0)) user)
          else if String.eqb (Type_ action) ActionAssignUser then
            log Debug "executing assign user action"
              [("value", VString value0);
               ("conversation_uuid", VString (UUID conversation))] ;;
            wrap (UpdateConversationUserAssignee m (UUID conversation)
                    (fst (Atoi value0)) user)
          else if String.eqb (Type_ action) ActionSetPriority then
            log Debug "executing set priority action"
              [("value", VString value0);
               ("conversation_uuid", VString (UUID conversation))] ;;
            wrap (UpdateConversationPriority m (UUID conversation)
                    (fst (Atoi value0)) "" user)
          else if String.eqb (Type_ action) ActionSetStatus then
            log Debug "executing set status action"
              [("value", VString value0);
               ("conversation_uuid", VString (UUID conversation))] ;;
            wrap (UpdateConversationStatus m (UUID conversation)
                    (fst (Atoi value0)) "" "" user)
          else if String.eqb (Type_ action) ActionSendPrivateNote then
            log Debug "executing send private note action"
              [("value", VString value0);
               ("conversation_uuid", VString (UUID conversation))] ;;
            wrap (SendPrivateNote (UserID user) (UUID conversation) value0)
          else if String.eqb (Type_ action) ActionReply then
            log Debug "executing reply action"
              [("value", VString value0);
               ("conversation_uuid", VString (UUID conversation))] ;;
            wrap (SendReply (UserID user) (UUID conversation) value0)
          else if String.eqb (Type_ action) ActionSetSLA then
            log Debug "executing apply SLA action"
              [("value", VString value0);
               ("conversation_uuid", VString (UUID conversation))] ;;
            wrap (ApplySLA m (UUID conversation) (ConvID conversation)
                    (fst (Atoi value0)) user)
          else if String.eqb (Type_ action) ActionSetTags then
            log Debug "executing set tags action"
              [("value", VStrings (Value action));
               ("conversation_uuid", VString (UUID conversation))] ;;
            wrap (UpsertConversationTags (UUID conversation) (Value action))
          else
            ret (Some (GoError ("unrecognized action type " +:+ Type_ action)))
      end
  end.

(** *** The conversations list *)

Definition ConversationsListAllowedFilterFields : list string :=
  ["status_id"; "priority_id"; "assigned_team_id"; "assigned_user_id"; "inbox_id"].
Definition ConversationStatusesFilterFields : list string := ["id"; "name"].

(** [dbutil.PaginationOptions] *)
Record PaginationOptions := {
  Order : string;
  OrderBy : string;
  Page : Z;
  PageSize : Z
}.

Fixpoint Join (elems : list string) (sep : string) : string :=
  match elems with
  | [] => ""
  | [e] => e
  | e :: rest => e +:+ sep +:+ Join rest sep
  end.

Section WithDbutil.

(** [dbutil.BuildPaginatedQuery], of a package that is not among the
    sources, and the rows the database selects for a query. *)
Variable BuildPaginatedQuery :
  string -> list Z -> PaginationOptions -> string ->
  list (string * list string) -> result (string * list Z).
Variable selectRows : string -> list Z -> DB -> list Conversation.

(** The loop of [makeConversationsListQuery] over the list types. *)
Fixpoint listConditions (userID : Z) (teamIDs : list Z) (listTypes : list string)
  (conditions : list string) (qArgs : list Z)
  : result (list string * list Z) :=
  match listTypes with
  | [] => Ok (conditions, qArgs)
  | lt :: rest =>
      if String.eqb lt AssignedConversations then
        listConditions userID teamIDs rest
          (conditions ++ ["conversations.assigned_user_id = $"
                          +:+ pretty (Z.of_nat (length qArgs) + 1)])
          (qArgs ++ [userID])
      else if String.eqb lt UnassignedConversations then
        listConditions userID teamIDs rest
          (conditions ++ ["conversations.assigned_user_id IS NULL AND conversations.assigned_team_id IS NULL"])
          qArgs
      else if String.eqb lt TeamUnassignedConversations then
        let placeholders :=
          imap (fun i _ => "$" +:+ pretty (Z.of_nat (length qArgs)
                                           + Z.of_nat i + 1)) teamIDs in
        listConditions userID teamIDs rest
          (conditions ++ ["(conversations.assigned_team_id IN ("
                          +:+ Join placeholders ","
                          +:+ ") AND conversations.assigned_user_id IS NULL)"])
          (qArgs ++ teamIDs)
      else if String.eqb lt AllConversations then
        (* No conditions needed for all conversations. *)
        listConditions userID teamIDs rest conditions qArgs
      else Err (GoError ("unknown conversation type: " +:+ lt))
  end.

(** [Manager.makeConversationsListQuery] *)
Definition makeConversationsListQuery (userID : Z) (teamIDs : list Z)
  (listTypes : list string) (baseQuery : string * string)
  (order orderBy : string) (page pageSize : Z) (filtersJSON : string)
  : result (string * list Z) :=
  (* Set defaults *)
  let orderBy := if String.eqb orderBy "" then "last_message_at" else orderBy in
  let order := if String.eqb order "" then "DESC" else order in
  let filtersJSON := if String.eqb filtersJSON "" then "[]" else filtersJSON in
  (* Validate inputs *)
  if (conversationsListMaxPageSize <? pageSize) || (pageSize <? 1) then
    Err (GoError ("invalid page size: must be between 1 and "
                  +:+ pretty conversationsListMaxPageSize))
  else if page <? 1 then Err (GoError "page must be greater than 0")
  else
    match listTypes with
    | [] => Err (GoError "no conversation list types specified")
    | _ =>
        (* Prepare the conditions based on the list types. *)
        match listConditions userID teamIDs listTypes [] [] with
        | Err e => Err e
        | Ok (conditions, qArgs) =>
            let query :=
              match conditions with
              | [] =>
                  (* Replace the `%s` in the base query with an empty string. *)
                  fst baseQuery +:+ snd baseQuery
              | _ =>
                  fst baseQuery +:+ "AND (" +:+ Join conditions " OR " +:+ ")"
                  +:+ snd baseQuery
              end in
            BuildPaginatedQuery query qArgs
              {| Order := order; OrderBy := orderBy; Page := page;
                 PageSize := pageSize |}
              filtersJSON
              [("conversations", ConversationsListAllowedFilterFields);
               ("conversation_statuses", ConversationStatusesFilterFields)]
        end
    end.

(** [Manager.GetConversations]. When [BeginTxx] fails [tx] is nil, and
    [defer tx.Rollback()] panics on it. *)
Definition GetConversations (m : Manager) (userID : Z) (teamIDs : list Z)
  (listTypes : list string) (order orderBy filters : string) (page pageSize : Z)
  : M (outcome (result (list Conversation))) :=
  (* Make the query. *)
  match makeConversationsListQuery userID teamIDs listTypes
          (q_GetConversations m) order orderBy page pageSize filters with
  | Err e =>
      log ErrorLevel "error making conversations query" [("error", VError e)] ;;
      ret (Returns (Err (EnvelopeError GeneralError (errorFetching m))))
  | Ok (query, qArgs) =>
      let! ok := call BeginTxx in
      if negb ok then ret Panics
      else
        let! ok := call (TxSelect query qArgs) in
        let! d := getDB in
        if negb ok then
          log ErrorLevel "error fetching conversations"
            [("error", VError dbError)] ;;
          call TxRollback ;;
          ret (Returns (Err (EnvelopeError GeneralError (errorFetching m))))
        else
          call TxRollback ;;
          ret (Returns (Ok (selectRows query qArgs d)))
  end.

(** [Manager.GetAllConversationsList] *)
Definition GetAllConversationsList (m : Manager) (order orderBy filters : string)
  (page pageSize : Z) : M (outcome (result (list Conversation))) :=
  GetConversations m 0 [] [AllConversations] order orderBy filters page pageSize.

(** [Manager.GetAssignedConversationsList] *)
Definition GetAssignedConversationsList (m : Manager) (userID : Z)
  (order orderBy filters : string) (page pageSize : Z)
  : M (outcome (result (list Conversation))) :=
  GetConversations m userID [] [AssignedConversations] order orderBy filters
    page pageSize.

(** [Manager.GetUnassignedConversationsList] *)
Definition GetUnassignedConversationsList (m : Manager)
  (order orderBy filters : string) (page pageSize : Z)
  : M (outcome (result (list Conversation))) :=
  GetConversations m 0 [] [UnassignedConversations] order orderBy filters
    page pageSize.

(** [Manager.GetTeamUnassignedConversationsList] *)
Definition GetTeamUnassignedConversationsList (m : Manager) (teamID : Z)
  (order orderBy filters : string) (page pageSize : Z)
  : M (outcome (result (list Conversation))) :=
  GetConversations m 0 [teamID] [TeamUnassignedConversations] order orderBy
    filters page pageSize.

(** [Manager.GetViewConversationsList] *)
Definition GetViewConversationsList (m : Manager) (userID : Z)
  (teamIDs : list Z) (listType : list string) (order orderBy filters : string)
  (page pageSize : Z) : M (outcome (result (list Conversation))) :=
  GetConversations m userID teamIDs listType order orderBy filters page
    pageSize.

End WithDbutil.

End WithTime.

End conversation.

(** ** Command: the media handlers of [cmd/media.go] *)

Module cmd.

Definition thumbPrefix : string := "thumb_".
Definition thumbnailSize : Z := 150.

Definition StatusFound : Z := 302.
Definition StatusBadRequest : Z := 400.
Definition StatusUnauthorized : Z := 401.
Definition StatusRequestEntityTooLarge : Z := 413.
Definition StatusInternalServerError : Z := 500.

(** [strings.HasPrefix] and [strings.TrimPrefix] *)
Definition HasPrefix (s prefix : string) : bool := String.prefix prefix s.

Definition TrimPrefix (s prefix : string) : string :=
  if HasPrefix s prefix then
    String.substring (String.length prefix)
      (String.length s - String.length prefix) s
  else s.

(** [mmodels.Media], the fields the handlers read: [Model.String] and
    [ModelID.Int]. *)
Record Media := {
  Model : string;
  ModelID : Z
}.

(** What a handler asks of the request before it returns:
    [sendErrorEnvelope(r, err)], a helper of the package that is not among
    the sources, [r.SendErrorEnvelope], [r.SendEnvelope],
    [fasthttp.ServeFile], [r.RequestCtx.Redirect], or nothing. *)
Inductive Response :=
| sendErrorEnvelope (err : error)
| SendErrorEnvelope (code : Z) (message : string) (etype : ErrorType)
| SendEnvelope (media : Media)
| ServeFile (path : string)
| Redirect (uri : string) (statusCode : Z)
| NoResponse.

(** The collaborators of [App] the media handlers use, and the
    configuration [ko]. *)
Record App := {
  media_GetByUUID : string -> result Media;
  media_GetURL : string -> string;
  authz_EnforceMediaAccess : User -> string -> result bool;
  authz_EnforceConversationAccess : User -> Conversation -> result bool;
  conversation_GetConversationByMessageID : Z -> result Conversation;
  ko_String : string -> string
}.

Section WithFilepath.

(** [filepath.Join] *)
Variable filepath_Join : string -> string -> string.

(** [handleServeMedia], for the [user] and the [uuid] of the request. *)
Definition handleServeMedia (app : App) (user : User) (uuid : string)
  : M Response :=
  (* Fetch media from DB. *)
  match media_GetByUUID app (TrimPrefix uuid thumbPrefix) with
  | Err err => ret (sendErrorEnvelope err)
  | Ok media =>
      (* Check if the user has permission to access the linked model. *)
      match authz_EnforceMediaAccess app user (Model media) with
      | Err err =>
          log ErrorLevel "error checking media permission"
            [("error", VError err); ("model", VString (Model media));
             ("model_id", VOther)] ;;
          ret (sendErrorEnvelope err)
      | Ok allowed =>
          (* For messages, check access to the conversation this message is
             part of. *)
          match (if String.eqb (Model media) "messages" then
                   match conversation_GetConversationByMessageID app
                           (ModelID media) with
                   | Err err => Err err
                   | Ok conversation =>
                       authz_EnforceConversationAccess app user conversation
                   end
                 else Ok allowed) with
          | Err err => ret (sendErrorEnvelope err)
          | Ok allowed =>
              if negb allowed then
                ret (SendErrorEnvelope StatusUnauthorized "Permission denied"
                       PermissionError)
              else
                let provider := ko_String app "upload.provider" in
                if String.eqb provider "fs" then
                  ret (ServeFile
                         (filepath_Join (ko_String app "upload.fs.upload_path")
                            uuid))
                else if String.eqb provider "s3" then
                  ret (Redirect (media_GetURL app uuid) StatusFound)
                else ret NoResponse
          end
      end
  end.

End WithFilepath.

(** *** Uploads *)

Definition float64 : Set := PrimFloat.float.

(** [float64(x)] of an [int64]: the nearest float, ties to even. *)
Definition float64_of_int (x : Z) : float64 :=
  if x <? 0 then
    PrimFloat.opp
      (PrimFloat.of_uint63 (Uint63.of_Z (Z.min (- x) (2 ^ 63 - 1))))
  else PrimFloat.of_uint63 (Uint63.of_Z x).

(** [bytesToMegabytes] *)
Definition bytesToMegabytes (bytes : Z) : float64 :=
  PrimFloat.div (PrimFloat.div (float64_of_int bytes) (float64_of_int 1024))
    (float64_of_int 1024).

(** [slices.Contains] *)
Definition Contains (s : list string) (v : string) : bool :=
  existsb (String.eqb v) s.

(** [attachment.DispositionAttachment] and [attachment.DispositionInline] *)
Inductive Disposition := DispositionAttachment | DispositionInline.

(** What [handleMediaUpload] does besides answering, in order: the error
    lines it logs, the calls to the media store ([Upload] with the name it
    returns, [Insert], [Delete]) and the closing of the uploaded file. *)
Inductive MediaOp :=
| OpLog (msg : string)
| OpUpload (name contentType : string) (stored : result string)
| OpInsert (fileName contentType contentID modelType : string)
    (disposition : Disposition) (uuid : string) (modelID size : Z)
    (meta : Z * Z) (ok : bool)
| OpDelete (name : string)
| OpClose.

Section WithFiles.

(** An open [multipart.File]; every reader of it is preceded by
    [file.Seek(0, 0)] and so reads it whole. *)
Variable File : Type.

(** [fmt.Sprintf] of the size message, [stringutil.SanitizeFilename],
    [filepath.Ext], [strings.ToLower], and of package [image] the list
    [Exts], [CreateThumb] and [GetDimensions]. *)
Variable Sprintf_tooLarge : float64 -> string.
Variable stringutil_SanitizeFilename : string -> string.
Variable filepath_Ext : string -> string.
Variable strings_ToLower : string -> string.
Variable image_Exts : list string.
Variable image_CreateThumb : Z -> File -> result File.
Variable image_GetDimensions : File -> result (Z * Z).

(** [multipart.FileHeader] and [multipart.Form], as the handler reads
    them: [Header.Get("Content-Type")], [Open()], [form.File["files"]] and
    [form.Value["inline"]]. *)
Record FileHeader := {
  Filename : string;
  Header_ContentType : string;
  Size : Z;
  Open : result File
}.

Record Form := {
  File_files : option (list FileHeader);
  Value_inline : option (list string)
}.

(** The constants and the media store of [App]. [meta] is the JSON
    object of a width and a height. *)
Record Uploader := {
  constant_MaxFileUploadSizeMB : float64;
  constant_AllowedUploadFileExtensions : list string;
  media_Upload : string -> string -> File -> result string;
  media_Insert :
    string -> string -> string -> string -> Disposition -> string -> Z -> Z ->
    Z * Z -> result Media
}.

(** [handleMediaUpload] from the thumbnail on. The result carries the
    [cleanUp] flag and the [thumbName] the deferred function reads when the
    handler returns. *)
Definition storeMedia (app : Uploader) (file : File)
  (srcFileName srcContentType srcExt : string) (srcFileSize : Z)
  (disposition : Disposition) (uuid : string)
  : Response * bool * string * list MediaOp :=
  let thumbName := thumbPrefix +:+ uuid in
  (* Generate and upload thumbnail if it's an image. *)
  match (if Contains image_Exts srcExt then
           match image_CreateThumb thumbnailSize file with
           | Err err =>
               inl (SendErrorEnvelope StatusInternalServerError
                      "Error creating image thumbnail" GeneralError,
                    [OpLog "error creating thumb image"])
           | Ok thumbFile =>
               match media_Upload app thumbName srcContentType thumbFile with
               | Err err =>
                   inl (sendErrorEnvelope err,
                        [OpUpload thumbName srcContentType (Err err);
                         OpLog "error uploading thumbnail"])
               | Ok stored =>
                   inr (stored, [OpUpload thumbName srcContentType (Ok stored)])
               end
           end
         else inr (thumbName, [])) with
  | inl (response, ops) =>
      (* [cleanUp] is false: [thumbName] is not read. *)
      (response, false, thumbName, ops)
  | inr (thumbName, ops) =>
      (* Store image dimensions in the media meta. *)
      match image_GetDimensions file with
      | Err err =>
          (SendErrorEnvelope StatusInternalServerError "Error uploading file"
             GeneralError,
           true, thumbName, ops ++ [OpLog "error getting image dimensions"])
      | Ok (width, height) =>
          let meta := (width, height) in
          match media_Upload app uuid srcContentType file with
          | Err err =>
              (SendErrorEnvelope StatusInternalServerError
                 "Error uploading file" GeneralError,
               true, thumbName,
               ops ++ [OpUpload uuid srcContentType (Err err);
                       OpLog "error uploading file"])
          | Ok stored =>
              (* Insert in DB. *)
              match media_Insert app srcFileName srcContentType "" ""
                      disposition uuid 0 srcFileSize meta with
              | Err err =>
                  (SendErrorEnvelope StatusInternalServerError
                     "Error inserting media" GeneralError,
                   true, thumbName,
                   ops ++ [OpUpload uuid srcContentType (Ok stored);
                           OpInsert srcFileName srcContentType "" ""
                             disposition uuid 0 srcFileSize meta false;
                           OpLog "error inserting metadata into database"])
              | Ok media =>
                  (SendEnvelope media, false, thumbName,
                   ops ++ [OpUpload uuid srcContentType (Ok stored);
                           OpInsert srcFileName srcContentType "" ""
                             disposition uuid 0 srcFileSize meta true])
              end
          end
      end
  end.

(** [handleMediaUpload], for the multipart form of the request and the
    uuid [uuid.New()] gives. *)
Definition handleMediaUpload (app : Uploader) (form : result Form)
  (uuid : string) : Response * list MediaOp :=
  match form with
  | Err err =>
      (SendErrorEnvelope StatusInternalServerError "Error parsing data"
         GeneralError,
       [OpLog "error parsing form data."])
  | Ok form =>
      match File_files form with
      | None | Some [] =>
          (SendErrorEnvelope StatusBadRequest "File not found" InputError, [])
      | Some (fileHeader :: _) =>
          match Open fileHeader with
          | Err err =>
              (SendErrorEnvelope StatusInternalServerError "Error reading file"
                 GeneralError,
               [OpLog "error reading uploaded file"])
          | Ok file =>
              let (response, ops) :=
                (* Inline? *)
                let disposition :=
                  match Value_inline form with
                  | Some (first :: _) =>
                      if String.eqb first "true" then DispositionInline
                      else DispositionAttachment
                  | _ => DispositionAttachment
                  end in
                (* Sanitize filename. *)
                let srcFileName := stringutil_SanitizeFilename (Filename fileHeader) in
                let srcContentType := Header_ContentType fileHeader in
                let srcFileSize := Size fileHeader in
                let srcExt :=
                  TrimPrefix (strings_ToLower (filepath_Ext srcFileName)) "." in
                (* Check file size *)
                if PrimFloat.ltb (constant_MaxFileUploadSizeMB app)
                     (bytesToMegabytes srcFileSize) then
                  (SendErrorEnvelope StatusRequestEntityTooLarge
                     (Sprintf_tooLarge (constant_MaxFileUploadSizeMB app))
                     GeneralError,
                   [OpLog "error: uploaded file size is larger than max allowed"])
                else if negb (Contains (constant_AllowedUploadFileExtensions app)
                                "*")
                        && negb (Contains (constant_AllowedUploadFileExtensions app)
                                   srcExt) then
                  (SendErrorEnvelope StatusBadRequest "Unsupported file type"
                     InputError, [])
                else
                  (* Delete files on any error. *)
                  let '(response, cleanUp, thumbName, ops) :=
                    storeMedia app file srcFileName srcContentType srcExt
                      srcFileSize disposition uuid in
                  (response,
                   ops ++ (if cleanUp then [OpDelete uuid; OpDelete thumbName]
                           else [])) in
              (* defer file.Close() *)
              (response, ops ++ [OpClose])
          end
      end
  end.

End WithFiles.

Arguments Filename {File} _.
Arguments Header_ContentType {File} _.
Arguments Size {File} _.
Arguments Open {File} _.
Arguments File_files {File} _.
Arguments Value_inline {File} _.
Arguments constant_MaxFileUploadSizeMB {File} _.
Arguments constant_AllowedUploadFileExtensions {File} _.
Arguments media_Upload {File} _ _ _ _.
Arguments media_Insert {File} _ _ _ _ _ _ _ _ _ _.
Arguments storeMedia {File} _ _ _ _ _ _ _ _ _ _ _.
Arguments handleMediaUpload {File} _ _ _ _ _ _ _ _ _ _.

End cmd.

(** * Vocabulary of the properties *)

(** [keeps P c]: running [c] preserves the property [P] of the tables. *)
Definition keeps (P : DB -> Prop) {A} (c : M A) : Prop :=
  forall w, P (db w) -> P (db (snd (c w))).

(** ** The two metrics of an applied SLA *)

Inductive Metric := FirstResponseMetric | ResolutionMetric.

Definition slaTypeOf (mt : Metric) : string :=
  match mt with
  | FirstResponseMetric => SLATypeFirstResponse
  | ResolutionMetric => SLATypeResolution
  end.

Definition deadlineOf (mt : Metric) (sla : AppliedSLA) : Time :=
  match mt with
  | FirstResponseMetric => FirstResponseDeadlineAt sla
  | ResolutionMetric => ResolutionDeadlineAt sla
  end.

(** The actual-completion timestamp of the metric. *)
Definition actualOf (mt : Metric) (sla : AppliedSLA) : option Time :=
  match mt with
  | FirstResponseMetric => ConversationFirstResponseAt sla
  | ResolutionMetric => ConversationResolvedAt sla
  end.

Definition metAtOf (mt : Metric) (sla : AppliedSLA) : option Time :=
  match mt with
  | FirstResponseMetric => FirstResponseMetAt sla
  | ResolutionMetric => ResolutionMetAt sla
  end.

Definition breachedAtOf (mt : Metric) (sla : AppliedSLA) : option Time :=
  match mt with
  | FirstResponseMetric => FirstResponseBreachedAt sla
  | ResolutionMetric => ResolutionBreachedAt sla
  end.

(** A metric is terminal once its [met_at] or its [breached_at] is set. *)
Definition terminalOf (mt : Metric) (sla : AppliedSLA) : bool :=
  Valid (breachedAtOf mt sla) || Valid (metAtOf mt sla).

Definition row_met_at (mt : Metric) (r : AppliedSLARow) : option Time :=
  match mt with
  | FirstResponseMetric => row_first_response_met_at r
  | ResolutionMetric => row_resolution_met_at r
  end.

Definition row_breached_at (mt : Metric) (r : AppliedSLARow) : option Time :=
  match mt with
  | FirstResponseMetric => row_first_response_breached_at r
  | ResolutionMetric => row_resolution_breached_at r
  end.

Definition row_terminal (mt : Metric) (r : AppliedSLARow) : bool :=
  Valid (row_breached_at mt r) || Valid (row_met_at mt r).

(** What an evaluation did to a metric, read off the trace: the
    [update-met] and [update-breach] statements executed for it. *)
Inductive Mark := Met | Breached.

Definition mark_of (id : Z) (slaType : string) (e : Event) : option Mark :=
  match e with
  | EvCall (UpdateMet i ty) _ =>
      if (i =? id) && String.eqb ty slaType then Some Met else None
  | EvCall (UpdateBreach i ty) _ =>
      if (i =? id) && String.eqb ty slaType then Some Breached else None
  | _ => None
  end.

Definition marks (id : Z) (slaType : string) (tr : list Event) : list Mark :=
  omap (mark_of id slaType) tr.

(** The row [id] holds these two timestamps for the metric. *)
Definition holds (id : Z) (mt : Metric) (met breached : option Time) (d : DB)
  : Prop :=
  exists r, applied_slas d !! id = Some r
            /\ row_met_at mt r = met /\ row_breached_at mt r = breached.

(** The two halves of [evaluateSLA] and its end, named so that the
    evaluation can be followed metric by metric
    (see [evaluateSLA_by_metric]). *)
Definition checkMetric (mt : Metric) (sla : AppliedSLA) : M (option error) :=
  if negb (Valid (breachedAtOf mt sla)) && negb (Valid (metAtOf mt sla)) then
    log Debug "checking deadline"
      [("deadline", VTime (deadlineOf mt sla));
       ("met_at", VTime (default zeroTime (actualOf mt sla)));
       ("sla_type", VString (slaTypeOf mt))] ;;
    sla.checkDeadline sla (deadlineOf mt sla) (actualOf mt sla) (slaTypeOf mt)
  else ret None.

Definition finishEvaluation (sla : AppliedSLA) : M (option error) :=
  let! ok := call (SetNextSLADeadline (ConversationID sla)) in
  if negb ok then
    ret (Some (GoError ("setting conversation next SLA deadline: "
                        +:+ Error dbError)))
  else
    let! ok := call (UpdateSLAStatus (ID sla)) in
    if negb ok then
      ret (Some (GoError ("updating applied SLA status: " +:+ Error dbError)))
    else ret None.

(** What [checkDeadline] does to a metric, given the clock reading. *)
Definition expected_marks (deadline : Time) (actual : option Time) (now : Time)
  : list Mark :=
  if IsZero deadline then []
  else
    match actual with
    | Some t => if After t deadline then [Breached] else [Met]
    | None => if After now deadline then [Breached] else []
    end.

(** [silent id ty c]: [c] keeps the environment, only moves forward, and
    executes no [update-met] or [update-breach] for the metric. *)
Definition silent (id : Z) (ty : string) {A} (c : M A) : Prop :=
  forall w,
    env (snd (c w)) = env w
    /\ (step w <= step (snd (c w)))%nat
    /\ exists delta : list Event, trace (snd (c w)) = trace w ++ delta
                     /\ marks id ty delta = [].

(** The four cases of the sweep for one metric, on the events [delta] of
    an evaluation that starts in [w]. *)
Definition marked_as_specified (mt : Metric) (sla : AppliedSLA) (w : World)
  (delta : list Event) : Prop :=
  let m := marks (ID sla) (slaTypeOf mt) delta in
  (IsZero (deadlineOf mt sla) = true -> m = [])
  /\ (IsZero (deadlineOf mt sla) = false ->
      forall t, actualOf mt sla = Some t -> t <= deadlineOf mt sla -> m = [Met])
  /\ (IsZero (deadlineOf mt sla) = false ->
      forall t, actualOf mt sla = Some t -> deadlineOf mt sla < t ->
                m = [Breached])
  /\ (IsZero (deadlineOf mt sla) = false ->
      actualOf mt sla = None ->
      (forall n, (step w <= n)%nat -> deadlineOf mt sla < clock (env w) n) ->
      m = [Breached]).

(** What the marks mean for the row: from [r] to [r'], the metric is left
    as it was, or its [met_at], or its [breached_at], is stamped. *)
Definition stamped (mt : Metric) (r r' : AppliedSLARow) (ms : list Mark) : Prop :=
  match ms with
  | [] => row_met_at mt r' = row_met_at mt r
          /\ row_breached_at mt r' = row_breached_at mt r
  | [Met] => is_Some (row_met_at mt r')
             /\ row_breached_at mt r' = row_breached_at mt r
  | [Breached] => row_met_at mt r' = row_met_at mt r
                  /\ is_Some (row_breached_at mt r')
  | _ => False
  end.

(** The store fails no call. *)
Definition storeUp (w : World) : Prop :=
  forall n c, fails (env w) n c = false.

(** The four cases of the sweep for one metric, on the row before ([r])
    and after ([r']) an evaluation that starts in [w]. *)
Definition stamped_as_specified (mt : Metric) (sla : AppliedSLA) (w : World)
  (r r' : AppliedSLARow) : Prop :=
  (IsZero (deadlineOf mt sla) = true -> stamped mt r r' [])
  /\ (IsZero (deadlineOf mt sla) = false ->
      forall t, actualOf mt sla = Some t -> t <= deadlineOf mt sla ->
                stamped mt r r' [Met])
  /\ (IsZero (deadlineOf mt sla) = false ->
      forall t, actualOf mt sla = Some t -> deadlineOf mt sla < t ->
                stamped mt r r' [Breached])
  /\ (IsZero (deadlineOf mt sla) = false ->
      actualOf mt sla = None ->
      (forall n, (step w <= n)%nat -> deadlineOf mt sla < clock (env w) n) ->
      stamped mt r r' [Breached]).

(** The check of a metric is reached: the store does not fail the update
    of the metric checked before it. *)
Definition reached (mt : Metric) (sla : AppliedSLA) (w : World) : Prop :=
  match mt with
  | FirstResponseMetric => True
  | ResolutionMetric =>
      forall n,
        fails (env w) n (UpdateBreach (ID sla) SLATypeFirstResponse) = false
        /\ fails (env w) n (UpdateMet (ID sla) SLATypeFirstResponse) = false
  end.

(** The sweep rule read for every metric of every evaluated row, terminal
    or not. *)
Definition every_metric_marked : Prop :=
  forall (sla : AppliedSLA) (mt : Metric) (w : World),
    exists delta : list Event,
      trace (snd (sla.evaluateSLA sla w)) = trace w ++ delta
      /\ marked_as_specified mt sla w delta.

(** The same rule, read on the row of every metric of every evaluated row,
    terminal or not, the store being up. *)
Definition every_metric_stamped : Prop :=
  forall (sla : AppliedSLA) (mt : Metric) (w : World) (r : AppliedSLARow),
    applied_slas (db w) !! ID sla = Some r ->
    storeUp w ->
    exists r' : AppliedSLARow,
      applied_slas (db (snd (sla.evaluateSLA sla w))) !! ID sla = Some r'
      /\ stamped_as_specified mt sla w r r'.

(** A row whose first response was recorded as breached (at 20), although
    the first reply (at 5) came before the deadline (10). *)
Definition breachedEarlyReply : AppliedSLA :=
  {| ID := 1; ConversationID := 7;
     FirstResponseDeadlineAt := 10; ResolutionDeadlineAt := 50;
     FirstResponseBreachedAt := Some 20; FirstResponseMetAt := None;
     ResolutionBreachedAt := None; ResolutionMetAt := None;
     ConversationFirstResponseAt := Some 5; ConversationResolvedAt := None |}.

(** A row with both metrics open, past its first-response deadline (10),
    with no first reply. *)
Definition overdueSnapshot : AppliedSLA :=
  {| ID := 1; ConversationID := 7;
     FirstResponseDeadlineAt := 10; ResolutionDeadlineAt := 5000;
     FirstResponseBreachedAt := None; FirstResponseMetAt := None;
     ResolutionBreachedAt := None; ResolutionMetAt := None;
     ConversationFirstResponseAt := None; ConversationResolvedAt := None |}.

(** An environment in which nothing fails and the context is never done;
    the clock reads [t0 + n] at step [n]. *)
Definition calmEnv (t0 : Time) : Env :=
  {| clock := fun n => t0 + Z.of_nat n;
     fails := fun _ _ => false;
     ctxDone := fun _ => false |}.

Definition emptyDB : DB :=
  {| sla_policies := ∅; applied_slas := ∅; conversations := ∅;
     activities := []; messages := [] |}.

Definition startWorld (e : Env) (d : DB) : World :=
  {| env := e; step := 0; db := d; trace := [] |}.

(** A table with one applied SLA whose first response was breached at 20
    and whose resolution is open, on conversation 7. *)
Definition breachedRow : AppliedSLARow :=
  {| row_conversation_id := 7; row_sla_policy_id := 1;
     row_first_response_deadline_at := 10; row_resolution_deadline_at := 50;
     row_first_response_breached_at := Some 20;
     row_first_response_met_at := None;
     row_resolution_breached_at := None; row_resolution_met_at := None |}.

Definition conversation7 : Conversation :=
  {| ConvID := 7; UUID := "c-7"; ReferenceNumber := "107"; Subject := "Help";
     Priority := ""; Status := "Open"; AssignedUserID := None;
     AssignedTeamID := None; SnoozedUntil := zeroTime; FirstReplyAt := Some 5;
     ResolvedAt := None; Tags := [] |}.

Definition sweepDB : DB :=
  {| sla_policies := ∅; applied_slas := {[ 1 := breachedRow ]};
     conversations := {[ "c-7" := conversation7 ]};
     activities := []; messages := [] |}.

(** ** The two-tier lookup of business hours and time zone, as the spec
    words it *)

Definition notConfigured : error :=
  GoError "business hours or timezone not configured".

(** A business-hours id and a time zone are both there. *)
Definition configured (c : Z * string) : bool :=
  negb (fst c =? 0) && negb (String.eqb (snd c) "").

(** The app-settings default. *)
Definition appDefault (m : sla.Manager) : result (Z * string) :=
  match sla.appSettingsStore_GetByPrefix m "app" with
  | Err e => Err e
  | Ok settingsJ =>
      match json_Unmarshal settingsJ with
      | Err e => Err (GoError ("parsing settings: " +:+ Error e))
      | Ok out =>
          Ok (fst (Atoi (asString out "app.business_hours_id")),
              asString out "app.timezone")
      end
  end.

(** Team first, when a team id is given and the team has both settings;
    otherwise the app-settings default. *)
Definition twoTier (m : sla.Manager) (assignedTeamID : Z) : result (Z * string) :=
  if assignedTeamID =? 0 then appDefault m
  else
    match sla.teamStore_Get m assignedTeamID with
    | Err e => Err e
    | Ok team =>
        if configured (BusinessHoursID team, Timezone team)
        then Ok (BusinessHoursID team, Timezone team)
        else appDefault m
    end.

(** Fetching the calendar of a resolved id. *)
Definition fetchCalendar (m : sla.Manager) (c : Z * string)
  : result (BusinessHours * string) :=
  match sla.businessHrsStore_Get m (fst c) with
  | Ok bh => Ok (bh, snd c)
  | Err ErrBusinessHoursNotFound => Err (GoError "business hours not found")
  | Err e => Err e
  end.

(** No collaborator of the manager returns the "not configured" error
    itself. *)
Definition foreignErrors (m : sla.Manager) : Prop :=
  (forall id, sla.teamStore_Get m id <> Err notConfigured)
  /\ (forall p, sla.appSettingsStore_GetByPrefix m p <> Err notConfigured)
  /\ (forall id, sla.businessHrsStore_Get m id <> Err notConfigured).

(** A manager whose team 3 has its own calendar (2, open on weekdays from
    09:00 to 17:00) and zone, whose team 4 has none, and whose app settings
    name the always-open calendar 1 in UTC. *)
Definition alwaysOpen : BusinessHours :=
  {| IsAlwaysOpen := true; Hours := fun _ => None |}.

Definition weekdays9to17 : BusinessHours :=
  {| IsAlwaysOpen := false;
     Hours := fun d =>
       if (1 <=? d) && (d <=? 5) then Some (9 * Hour, 17 * Hour) else None |}.

Definition neverOpen : BusinessHours :=
  {| IsAlwaysOpen := false; Hours := fun _ => None |}.

Definition exampleSettings : JSONText :=
  JSONObject {[ "app.business_hours_id" := JString "1";
                "app.timezone" := JString "UTC" ]}.

Definition exampleSLAManager : sla.Manager :=
  {| sla.teamStore_Get := fun id =>
       if id =? 3 then Ok {| BusinessHoursID := 2; Timezone := "Asia/Kolkata" |}
       else if id =? 4 then Ok {| BusinessHoursID := 0; Timezone := "" |}
       else Err (GoError "team not found");
     sla.appSettingsStore_GetByPrefix := fun _ => Ok exampleSettings;
     sla.businessHrsStore_Get := fun id =>
       if id =? 1 then Ok alwaysOpen
       else if id =? 2 then Ok weekdays9to17
       else Err ErrBusinessHoursNotFound |}.

(** A manager whose team 4 has no settings of its own and whose app
    settings are empty. *)
Definition bareSLAManager : sla.Manager :=
  {| sla.teamStore_Get := fun id =>
       if id =? 4 then Ok {| BusinessHoursID := 0; Timezone := "" |}
       else Err (GoError "team not found");
     sla.appSettingsStore_GetByPrefix := fun _ => Ok (JSONObject ∅);
     sla.businessHrsStore_Get := fun _ => Err ErrBusinessHoursNotFound |}.

(** ** The SLA engine behind the conversation manager

    [conversation.slaStore] has [ApplySLA(conversationID, assignedTeamID,
    slaID)]; [sla.Manager.ApplySLA] takes the start time first. The engine
    is plugged in with a start time read by [start]. *)
Definition slaStoreOf `{TimePkg} (sm : sla.Manager) (start : M Time)
  : Z -> Z -> Z -> M (result SLAPolicy) :=
  fun conversationID assignedTeamID slaID =>
    let! startTime := start in
    sla.ApplySLA sm startTime conversationID assignedTeamID slaID.

Definition withSLAStore (cm : conversation.Manager)
  (store : Z -> Z -> Z -> M (result SLAPolicy)) : conversation.Manager :=
  {| conversation.userStore_Get := conversation.userStore_Get cm;
     conversation.userStore_GetSystemUser :=
       conversation.userStore_GetSystemUser cm;
     conversation.statusStore_Get := conversation.statusStore_Get cm;
     conversation.priorityStore_Get := conversation.priorityStore_Get cm;
     conversation.slaStore_ApplySLA := store;
     conversation.template_RenderNamedTemplate :=
       conversation.template_RenderNamedTemplate cm;
     conversation.q_GetConversations := conversation.q_GetConversations cm;
     conversation.errorFetching := conversation.errorFetching cm |}.

Definition withTeamStore (sm : sla.Manager) (teams : Z -> result Team)
  : sla.Manager :=
  {| sla.teamStore_Get := teams;
     sla.appSettingsStore_GetByPrefix := sla.appSettingsStore_GetByPrefix sm;
     sla.businessHrsStore_Get := sla.businessHrsStore_Get sm |}.

(** ** An instance of [TimePkg] for the examples

    [time.ParseDuration] on durations written without a fractional part
    (a duration with a [.] is rejected here; Go computes its fraction in
    float64), [int(d.Minutes())] as the truncated quotient, and the one
    location UTC. *)

Fixpoint leadingInt (s : string) (x : Z) : option (Z * string) :=
  match s with
  | EmptyString => Some (x, s)
  | String c r =>
      if is_digit c then
        if 2 ^ 63 / 10 <? x then None
        else
          let x' := x * 10 + (Z.of_N (N_of_ascii c) - 48) in
          if 2 ^ 63 <? x' then None else leadingInt r x'
      else Some (x, s)
  end.

Fixpoint unitSpan (s : string) : string * string :=
  match s with
  | EmptyString => ("", "")
  | String c r =>
      if Ascii.eqb c "." || is_digit c then ("", s)
      else let (u, rest) := unitSpan r in (String c u, rest)
  end.

Definition micro : string :=
  String (ascii_of_nat 194) (String (ascii_of_nat 181) "s").   (* U+00B5 *)
Definition mu : string :=
  String (ascii_of_nat 206) (String (ascii_of_nat 188) "s").   (* U+03BC *)

Definition unitMap (u : string) : option Duration :=
  if String.eqb u "ns" then Some Nanosecond
  else if String.eqb u "us" || String.eqb u micro || String.eqb u mu
       then Some (1000 * Nanosecond)
  else if String.eqb u "ms" then Some (1000000 * Nanosecond)
  else if String.eqb u "s" then Some Second
  else if String.eqb u "m" then Some Minute
  else if String.eqb u "h" then Some Hour
  else None.

Fixpoint parseUnits (fuel : nat) (s : string) (d : Z) : option Z :=
  match fuel with
  | O => None
  | S fuel' =>
      match s with
      | EmptyString => Some d
      | String c _ =>
          if negb (is_digit c) then None
          else
            match leadingInt s 0 with
            | None => None
            | Some (v, rest) =>
                let (u, rest') := unitSpan rest in
                match unitMap u with
                | None => None
                | Some unit =>
                    if 2 ^ 63 / unit <? v then None
                    else
                      let d' := d + v * unit in
                      if 2 ^ 63 <? d' then None
                      else parseUnits fuel' rest' d'
                end
            end
      end
  end.

Definition parseWholeDuration (s : string) : option Duration :=
  let neg := match s with String c _ => Ascii.eqb c "-" | _ => false end in
  let body :=
    match s with
    | String c r => if Ascii.eqb c "-" || Ascii.eqb c "+" then r else s
    | EmptyString => s
    end in
  if String.eqb body "0" then Some 0
  else if String.eqb body "" then None
  else
    match parseUnits (S (String.length body)) body 0 with
    | None => None
    | Some d =>
        if neg then Some (- d)
        else if 2 ^ 63 - 1 <? d then None else Some d
    end.

#[local] Instance wholeTime : TimePkg :=
  {| ParseDuration := parseWholeDuration;
     Minutes := fun d => Z.quot d Minute;
     zoneOffset := fun name => if String.eqb name "UTC" then Some 0 else None |}.

(** ** Reading a sweep off the trace *)

(** The row whose evaluation an event starts. *)
Definition starts_evaluation (e : Event) : option Z :=
  match e with
  | EvLog Debug msg [(_, _); (_, VInt id)] =>
      if String.eqb msg "evaluating SLA" then Some id else None
  | _ => None
  end.

(** The rows evaluated, in order. *)
Definition evaluated (tr : list Event) : list Z := omap starts_evaluation tr.

Definition is_row_error_log (e : Event) : bool :=
  match e with
  | EvLog ErrorLevel msg _ => String.eqb msg "error evaluating SLA"
  | _ => false
  end.

Definition is_failed_call (e : Event) : bool :=
  match e with
  | EvCall _ false => true
  | _ => false
  end.




(** An environment in which the store fails every update of first-response
    metrics. *)
Definition failingEnv (t0 : Time) : Env :=
  {| clock := fun n => t0 + Z.of_nat n;
     fails := fun _ c =>
       match c with
       | UpdateBreach _ ty | UpdateMet _ ty => String.eqb ty SLATypeFirstResponse
       | _ => false
       end;
     ctxDone := fun _ => false |}.

(** Two open applied SLAs, on conversations 7 and 8, past their
    first-response deadline. *)
Definition openRow (conversationID : Z) : AppliedSLARow :=
  {| row_conversation_id := conversationID; row_sla_policy_id := 1;
     row_first_response_deadline_at := 10; row_resolution_deadline_at := 5000;
     row_first_response_breached_at := None;
     row_first_response_met_at := None;
     row_resolution_breached_at := None; row_resolution_met_at := None |}.

Definition conversation8 : Conversation :=
  {| ConvID := 8; UUID := "c-8"; ReferenceNumber := "108"; Subject := "Hi";
     Priority := ""; Status := "Open"; AssignedUserID := None;
     AssignedTeamID := None; SnoozedUntil := zeroTime; FirstReplyAt := None;
     ResolvedAt := None; Tags := [] |}.

Definition twoOpenDB : DB :=
  {| sla_policies := ∅;
     applied_slas := {[ 1 := openRow 7; 2 := openRow 8 ]};
     conversations := {[ "c-7" := conversation7; "c-8" := conversation8 ]};
     activities := []; messages := [] |}.

(** ** The action executor *)

(** The action types [ApplyAction] knows. *)
Definition knownActionTypes : list string :=
  [conversation.ActionAssignTeam; conversation.ActionAssignUser;
   conversation.ActionSetPriority; conversation.ActionSetStatus;
   conversation.ActionSendPrivateNote; conversation.ActionReply;
   conversation.ActionSetSLA; conversation.ActionSetTags].

(** The message names the action type. *)
Definition names (ty msg : string) : Prop :=
  exists pre post, msg = pre +:+ ty +:+ post.

Definition is_log (e : Event) : bool :=
  match e with
  | EvLog _ _ _ => true
  | _ => false
  end.

(** A manager of conversations whose stores know the system user (id 1),
    the agent 42, the statuses 1 (Open) and 2 (Snoozed), and whose SLA
    engine is [exampleSLAManager]. *)
Definition systemUser : User :=
  {| UserID := 1; FirstName := "System"; LastName := "" |}.

Definition agent42 : User :=
  {| UserID := 42; FirstName := "Ada"; LastName := "Agent" |}.

Definition noUser : User := {| UserID := 0; FirstName := ""; LastName := "" |}.

Definition exampleManager : conversation.Manager :=
  {| conversation.userStore_Get := fun id =>
       if id =? 42 then Ok agent42
       else if id =? 1 then Ok systemUser
       else Err (GoError "user not found");
     conversation.userStore_GetSystemUser := Ok systemUser;
     conversation.statusStore_Get := fun id =>
       if id =? 1 then Ok "Open"
       else if id =? 2 then Ok conversation.StatusSnoozed
       else Err (GoError "status not found");
     conversation.priorityStore_Get := fun _ => Err (GoError "priority not found");
     conversation.slaStore_ApplySLA := slaStoreOf exampleSLAManager Now;
     conversation.template_RenderNamedTemplate := fun name c agent =>
       Ok ("You have been assigned " +:+ ReferenceNumber c, name);
     conversation.q_GetConversations :=
       ("SELECT * FROM conversations WHERE 1=1 ", " ");
     conversation.errorFetching := "Error fetching conversations" |}.

Definition assignUser42 : conversation.RuleAction :=
  {| conversation.Type_ := conversation.ActionAssignUser;
     conversation.Value := ["42"] |}.

(** Conversation 9, assigned to team 3, and the policy 1 with a first
    response time of one hour. *)
Definition conversation9 : Conversation :=
  {| ConvID := 9; UUID := "c-9"; ReferenceNumber := "109"; Subject := "SLA";
     Priority := ""; Status := "Open"; AssignedUserID := None;
     AssignedTeamID := Some 3; SnoozedUntil := zeroTime; FirstReplyAt := None;
     ResolvedAt := None; Tags := [] |}.

Definition policyDB : DB :=
  {| sla_policies := {[ 1 := {| Name := "Gold"; FirstResponseTime := "1h";
                                ResolutionTime := "" |} ]};
     applied_slas := ∅;
     conversations := {[ "c-9" := conversation9 ]};
     activities := []; messages := [] |}.

Definition setSLA1 : conversation.RuleAction :=
  {| conversation.Type_ := conversation.ActionSetSLA;
     conversation.Value := ["1"] |}.

(** An environment in which only the notifier fails. *)
Definition notifierDownEnv (t0 : Time) : Env :=
  {| clock := fun n => t0 + Z.of_nat n;
     fails := fun _ c => match c with NotifierSend _ => true | _ => false end;
     ctxDone := fun _ => false |}.

Definition is_notifier_send (e : Event) : bool :=
  match e with
  | EvCall (NotifierSend _) _ => true
  | _ => false
  end.

(** Every call but those of the notifier succeeds. *)
Definition onlyNotifierMayFail (w : World) : Prop :=
  forall n c, (forall nm, c <> NotifierSend nm) -> fails (env w) n c = false.

(** ** Status changes *)

(** The status a call of [UpdateConversationStatus] sets: the name of the
    status of the given id when an id is given, else the given name. *)
Definition effectiveStatus (m : conversation.Manager) (statusID : Z)
  (status : string) : result string :=
  if 0 <? statusID then conversation.statusStore_Get m statusID else Ok status.

(** The store accepts the status update. *)
Definition statusUpdateAccepted (w : World) (uuid status : string)
  (snoozeUntil : Time) : Prop :=
  forall n,
    fails (env w) n (UpdateConversationStatusStmt uuid status snoozeUntil)
    = false.

(** The conversation [uuid] now has this status and this [snoozed_until],
    set by a status update on the trace. *)
Definition statusSet (w' : World) (uuid status : string) (snoozeUntil : Time)
  : Prop :=
  In (EvCall (UpdateConversationStatusStmt uuid status snoozeUntil) true)
     (trace w')
  /\ exists c', conversations (db w') !! uuid = Some c'
                /\ Status c' = status /\ SnoozedUntil c' = snoozeUntil.

(** Conversation 7, snoozed until 5000. *)
Definition snoozedDB : DB :=
  {| sla_policies := ∅; applied_slas := ∅;
     conversations :=
       {[ "c-7" := set_status conversation.StatusSnoozed 5000 conversation7 ]};
     activities := []; messages := [] |}.

(** ** The conversations list *)

(** The defaults [makeConversationsListQuery] sets. *)
Definition defaultOrderBy (orderBy : string) : string :=
  if String.eqb orderBy "" then "last_message_at" else orderBy.
Definition defaultOrder (order : string) : string :=
  if String.eqb order "" then "DESC" else order.
Definition defaultFilters (filtersJSON : string) : string :=
  if String.eqb filtersJSON "" then "[]" else filtersJSON.

(** What [makeConversationsListQuery] goes on to do once page and page
    size are validated: the conditions of the list types, then the
    paginated query (see [GetConversations_validates_paging]). *)
Definition buildListQuery
  (BuildPaginatedQuery :
     string -> list Z -> conversation.PaginationOptions -> string ->
     list (string * list string) -> result (string * list Z))
  (userID : Z) (teamIDs : list Z) (listTypes : list string)
  (baseQuery : string * string) (order orderBy : string) (page pageSize : Z)
  (filtersJSON : string) : result (string * list Z) :=
  match listTypes with
  | [] => Err (GoError "no conversation list types specified")
  | _ =>
      match conversation.listConditions userID teamIDs listTypes [] [] with
      | Err e => Err e
      | Ok (conditions, qArgs) =>
          let query :=
            match conditions with
            | [] => fst baseQuery +:+ snd baseQuery
            | _ => fst baseQuery +:+ "AND ("
                   +:+ conversation.Join conditions " OR " +:+ ")"
                   +:+ snd baseQuery
            end in
          BuildPaginatedQuery query qArgs
            {| conversation.Order := order; conversation.OrderBy := orderBy;
               conversation.Page := page; conversation.PageSize := pageSize |}
            filtersJSON
            [("conversations", conversation.ConversationsListAllowedFilterFields);
             ("conversation_statuses",
              conversation.ConversationStatusesFilterFields)]
      end
  end.

(** A query builder that paginates with LIMIT and OFFSET and takes no
    filters, and a database that answers every query with all its
    conversations. *)
Definition paginate (query : string) (qArgs : list Z)
  (opts : conversation.PaginationOptions) (filtersJSON : string)
  (allowed : list (string * list string)) : result (string * list Z) :=
  if String.eqb filtersJSON "[]" then
    Ok (query +:+ "ORDER BY " +:+ conversation.OrderBy opts +:+ " "
        +:+ conversation.Order opts +:+ " LIMIT "
        +:+ pretty (conversation.PageSize opts) +:+ " OFFSET "
        +:+ pretty ((conversation.Page opts - 1) * conversation.PageSize opts),
        qArgs)
  else Err (GoError "invalid filters").

Definition allRows (query : string) (qArgs : list Z) (d : DB)
  : list Conversation :=
  snd <$> map_to_list (conversations d).

(** * Vocabulary of the further properties *)

(** What a mark on the trace tells about the row that was evaluated. *)
Definition mark_justified (mt : Metric) (sla : AppliedSLA) (w : World)
  (ms : list Mark) : Prop :=
  match ms with
  | [] => True
  | [Met] =>
      terminalOf mt sla = false
      /\ IsZero (deadlineOf mt sla) = false
      /\ exists t, actualOf mt sla = Some t /\ t <= deadlineOf mt sla
  | [Breached] =>
      terminalOf mt sla = false
      /\ IsZero (deadlineOf mt sla) = false
      /\ match actualOf mt sla with
         | Some t => deadlineOf mt sla < t
         | None => exists n, (step w <= n)%nat
                             /\ deadlineOf mt sla < clock (env w) n
         end
  | _ => False
  end.

(** [stops_at_failure c]: [c] returns an error exactly when its last event
    is a failed call, and no call of it failed before. *)
Definition stops_at_failure (c : M (option error)) : Prop :=
  forall w, exists delta : list Event,
    trace (snd (c w)) = trace w ++ delta
    /\ match fst (c w) with
       | None => List.filter is_failed_call delta = []
       | Some _ =>
           exists (pre : list Event) (c0 : Call),
             delta = pre ++ [EvCall c0 false]
             /\ List.filter is_failed_call pre = []
       end.

(** The end of an evaluation: the next SLA deadline of the conversation
    is derived first, the status of the applied SLA second, and only both
    together give no error. *)
Definition refreshes (sla : AppliedSLA) (delta : list Event) : Prop :=
  exists pre : list Event,
    delta = pre ++ [EvCall (SetNextSLADeadline (ConversationID sla)) true;
                    EvCall (UpdateSLAStatus (ID sla)) true].

Definition is_status_refresh (e : Event) : bool :=
  match e with
  | EvCall (UpdateSLAStatus _) _ => true
  | _ => false
  end.

(** [steady c]: [c] keeps the environment. *)
Definition steady {A} (c : M A) : Prop := forall w, env (snd (c w)) = env w.

Definition is_insert (e : Event) : bool :=
  match e with
  | EvCall (ApplySLAStmt _ _ _ _) _ => true
  | _ => false
  end.

Definition frozenEnv (t0 : Time) : Env :=
  {| clock := fun _ => t0; fails := fun _ _ => false; ctxDone := fun _ => false |}.

(** [quiet P c]: [c] only adds to the trace, and nothing that [P]
    selects. *)
Definition quiet (P : Event -> bool) {A} (c : M A) : Prop :=
  forall w, exists delta : list Event,
    trace (snd (c w)) = trace w ++ delta /\ List.filter P delta = [].

(** An environment in which one call fails: the one made at step [n]. *)
Definition failsAt (t0 : Time) (n : nat) : Env :=
  {| clock := fun k => t0 + Z.of_nat k;
     fails := fun k _ => (k =? n)%nat;
     ctxDone := fun _ => false |}.


(** The duration a policy gives a metric, and the deadline computed for
    it. *)
Definition durationOf (mt : Metric) (p : SLAPolicy) : string :=
  match mt with
  | FirstResponseMetric => FirstResponseTime p
  | ResolutionMetric => ResolutionTime p
  end.

Definition deadlineIn (mt : Metric) (d : Deadlines) : Time :=
  match mt with
  | FirstResponseMetric => FirstResponse d
  | ResolutionMetric => Resolution d
  end.

Definition withAppSettings (sm : sla.Manager)
  (settings : string -> result JSONText) : sla.Manager :=
  {| sla.teamStore_Get := sla.teamStore_Get sm;
     sla.appSettingsStore_GetByPrefix := settings;
     sla.businessHrsStore_Get := sla.businessHrsStore_Get sm |}.


(** ** Reading calls and broadcasts off the trace *)
Definition call_of (e : Event) : option (Call * bool) :=
  match e with
  | EvCall c ok => Some (c, ok)
  | _ => None
  end.

(** The calls made, in order, each with whether it succeeded. *)
Definition calls (tr : list Event) : list (Call * bool) := omap call_of tr.

Definition broadcast_of (e : Event) : option (string * string * Any) :=
  match e with
  | EvBroadcast uuid prop value => Some (uuid, prop, value)
  | _ => None
  end.

(** The updates broadcast to the subscribers, in order. *)
Definition broadcasts (tr : list Event) : list (string * string * Any) :=
  omap broadcast_of tr.

Definition is_send (c : Call * bool) : bool :=
  match fst c with
  | NotifierSend _ => true
  | _ => false
  end.

(** The calls made to the database: every call but those of the
    notifier. *)
Definition dbCalls (tr : list Event) : list (Call * bool) :=
  List.filter (fun c => negb (is_send c)) (calls tr).

(** The notifications handed to the notifier. *)
Definition sent (tr : list Event) : list NotifierMessage :=
  omap (fun e => match e with
                 | EvCall (NotifierSend nm) _ => Some nm
                 | _ => None
                 end) tr.

Definition assigneeStmt (assigneeType uuid : string) (assigneeID : Z)
  : option (Call * string) :=
  if String.eqb assigneeType conversation.AssigneeTypeUser then
    Some (UpdateConversationAssignedUser uuid assigneeID, "assigned_user_id")
  else if String.eqb assigneeType conversation.AssigneeTypeTeam then
    Some (UpdateConversationAssignedTeam uuid assigneeID, "assigned_team_id")
  else None.

(** The priority a call of [UpdateConversationPriority] sets: the name of
    the priority of the given id when an id is given, else the given
    name. *)
Definition effectivePriority (m : conversation.Manager) (priorityID : Z)
  (priority : string) : result string :=
  if 0 <? priorityID then conversation.priorityStore_Get m priorityID
  else Ok priority.

(** [enveloped c]: every error [c] returns is an envelope error. *)
Definition enveloped (c : M (option error)) : Prop :=
  forall w e, fst (c w) = Some e -> exists ty msg, e = EnvelopeError ty msg.


Definition withSystemUser (cm : conversation.Manager) (sys : result User)
  : conversation.Manager :=
  {| conversation.userStore_Get := conversation.userStore_Get cm;
     conversation.userStore_GetSystemUser := sys;
     conversation.statusStore_Get := conversation.statusStore_Get cm;
     conversation.priorityStore_Get := conversation.priorityStore_Get cm;
     conversation.slaStore_ApplySLA := conversation.slaStore_ApplySLA cm;
     conversation.template_RenderNamedTemplate :=
       conversation.template_RenderNamedTemplate cm;
     conversation.q_GetConversations := conversation.q_GetConversations cm;
     conversation.errorFetching := conversation.errorFetching cm |}.

(** Status 2 of [exampleManager], Snoozed, as the value of a rule action. *)
Definition setStatusSnoozed : conversation.RuleAction :=
  {| conversation.Type_ := conversation.ActionSetStatus;
     conversation.Value := ["2"] |}.

(** The acting identity of [ApplyAction]: the given user, or the system
    user when no user is given. *)
Definition actorOf (m : conversation.Manager) (user : User) : result User :=
  if UserID user =? 0 then conversation.userStore_GetSystemUser m else Ok user.

(** An action whose value is a status name rather than a status id. *)
Definition setStatusByName : conversation.RuleAction :=
  {| conversation.Type_ := conversation.ActionSetStatus;
     conversation.Value := ["Closed"] |}.

Definition setTagsTwo : conversation.RuleAction :=
  {| conversation.Type_ := conversation.ActionSetTags;
     conversation.Value := ["billing"; "urgent"] |}.

(** The statement an id-taking action executes first for the id [n]. *)
Definition firstStatement (ty uuid : string) (n : Z) : option Call :=
  if String.eqb ty conversation.ActionAssignTeam then
    Some (UpdateConversationAssignedTeam uuid n)
  else if String.eqb ty conversation.ActionAssignUser then
    Some (UpdateConversationAssignedUser uuid n)
  else if String.eqb ty conversation.ActionSetPriority then
    if 0 <? n then None else Some (UpdateConversationPriorityStmt uuid "")
  else if String.eqb ty conversation.ActionSetStatus then
    if 0 <? n then None else Some (UpdateConversationStatusStmt uuid "" zeroTime)
  else None.

(** [starts_with c comp]: the first thing [comp] puts on the trace is the
    call [c]. *)
Definition starts_with (c : Call) {A} (comp : M A) : Prop :=
  forall w, exists (ok : bool) (delta : list Event),
    trace (snd (comp w)) = trace w ++ EvCall c ok :: delta.

(** [extends comp]: [comp] only adds to the trace. *)
Definition extends {A} (comp : M A) : Prop := quiet (fun _ => false) comp.


(** ** The conversations list, from the list types to the transaction *)
Definition knownListTypes : list string :=
  [conversation.AssignedConversations; conversation.UnassignedConversations;
   conversation.TeamUnassignedConversations; conversation.AllConversations].

(** The arguments a list type binds. *)
Definition listTypeArgs (userID : Z) (teamIDs : list Z) (lt : string) : list Z :=
  if String.eqb lt conversation.AssignedConversations then [userID]
  else if String.eqb lt conversation.TeamUnassignedConversations then teamIDs
  else [].

(** The list types that add a condition: all but [all]. *)
Definition addsCondition (lt : string) : bool :=
  negb (String.eqb lt conversation.AllConversations).

(** The options and the filter tables [makeConversationsListQuery] hands
    to the query builder. *)
Definition listOptions (order orderBy : string) (page pageSize : Z)
  : conversation.PaginationOptions :=
  {| conversation.Order := defaultOrder order;
     conversation.OrderBy := defaultOrderBy orderBy;
     conversation.Page := page; conversation.PageSize := pageSize |}.

Definition listFilterFields : list (string * list string) :=
  [("conversations", conversation.ConversationsListAllowedFilterFields);
   ("conversation_statuses", conversation.ConversationStatusesFilterFields)].

(** [GetConversations] once its query is made. *)
Definition fetchList (selectRows : string -> list Z -> DB -> list Conversation)
  (m : conversation.Manager) (made : result (string * list Z))
  : M (conversation.outcome (result (list Conversation))) :=
  match made with
  | Err e =>
      log ErrorLevel "error making conversations query" [("error", VError e)] ;;
      ret (conversation.Returns
             (Err (EnvelopeError GeneralError (conversation.errorFetching m))))
  | Ok (query, qArgs) =>
      let! ok := call BeginTxx in
      if negb ok then ret conversation.Panics
      else
        let! ok := call (TxSelect query qArgs) in
        let! d := getDB in
        if negb ok then
          log ErrorLevel "error fetching conversations"
            [("error", VError dbError)] ;;
          call TxRollback ;;
          ret (conversation.Returns
                 (Err (EnvelopeError GeneralError (conversation.errorFetching m))))
        else
          call TxRollback ;;
          ret (conversation.Returns (Ok (selectRows query qArgs d)))
  end.


(** ** Serving media *)
(** The handler hands the file out: it serves it or redirects to it. *)
Definition delivers (r : cmd.Response) : bool :=
  match r with
  | cmd.ServeFile _ | cmd.Redirect _ _ => true
  | _ => false
  end.

(** The same response, for the file [name]. *)
Definition retarget (filepath_Join : string -> string -> string) (app : cmd.App)
  (name : string) (r : cmd.Response) : cmd.Response :=
  match r with
  | cmd.ServeFile _ =>
      cmd.ServeFile
        (filepath_Join (cmd.ko_String app "upload.fs.upload_path") name)
  | cmd.Redirect _ statusCode =>
      cmd.Redirect (cmd.media_GetURL app name) statusCode
  | _ => r
  end.

Definition withMediaAccess (app : cmd.App)
  (enforce : User -> string -> result bool) : cmd.App :=
  {| cmd.media_GetByUUID := cmd.media_GetByUUID app;
     cmd.media_GetURL := cmd.media_GetURL app;
     cmd.authz_EnforceMediaAccess := enforce;
     cmd.authz_EnforceConversationAccess :=
       cmd.authz_EnforceConversationAccess app;
     cmd.conversation_GetConversationByMessageID :=
       cmd.conversation_GetConversationByMessageID app;
     cmd.ko_String := cmd.ko_String app |}.

(** An application that stores uploads on disk under [/uploads]. Media
    [m-1] is attached to message 11 of conversation 7 and [m-2] to the
    contact 5; agent 42 may read contacts but not messages, and may read
    conversation 7. *)
Definition exampleApp : cmd.App :=
  {| cmd.media_GetByUUID := fun uuid =>
       if String.eqb uuid "m-1" then
         Ok {| cmd.Model := "messages"; cmd.ModelID := 11 |}
       else if String.eqb uuid "m-2" then
         Ok {| cmd.Model := "contacts"; cmd.ModelID := 5 |}
       else Err (EnvelopeError InputError "Media not found");
     cmd.media_GetURL := fun name => "https://cdn.example/" +:+ name;
     cmd.authz_EnforceMediaAccess := fun user model =>
       Ok ((UserID user =? 42) && String.eqb model "contacts");
     cmd.authz_EnforceConversationAccess := fun user c =>
       Ok ((UserID user =? 42) && (ConvID c =? 7));
     cmd.conversation_GetConversationByMessageID := fun id =>
       if id =? 11 then Ok conversation7
       else Err (EnvelopeError InputError "Conversation not found");
     cmd.ko_String := fun key =>
       if String.eqb key "upload.provider" then "fs"
       else if String.eqb key "upload.fs.upload_path" then "/uploads"
       else "" |}.

Definition joinSlash (dir name : string) : string := dir +:+ "/" +:+ name.


(** ** Uploading media *)
(** The operation reaches the media store. *)
Definition touchesStore (op : cmd.MediaOp) : bool :=
  match op with
  | cmd.OpUpload _ _ _ | cmd.OpInsert _ _ _ _ _ _ _ _ _ _ | cmd.OpDelete _ => true
  | _ => false
  end.

(** The names deleted from the media store, in order. *)
Definition deleted (ops : list cmd.MediaOp) : list string :=
  omap (fun op => match op with
                  | cmd.OpDelete name => Some name
                  | _ => None
                  end) ops.

(** The extension [handleMediaUpload] checks: of the sanitized file name,
    in lower case, without its dot. *)
Definition extensionOf {File : Type}
  (stringutil_SanitizeFilename filepath_Ext strings_ToLower : string -> string)
  (fileHeader : cmd.FileHeader File) : string :=
  cmd.TrimPrefix
    (strings_ToLower
       (filepath_Ext (stringutil_SanitizeFilename (cmd.Filename fileHeader))))
    ".".

(** The upload passes the checks of size and of extension. *)
Definition accepted {File : Type} (app : cmd.Uploader File)
  (stringutil_SanitizeFilename filepath_Ext strings_ToLower : string -> string)
  (fileHeader : cmd.FileHeader File) : bool :=
  negb (PrimFloat.ltb (cmd.constant_MaxFileUploadSizeMB app)
          (cmd.bytesToMegabytes (cmd.Size fileHeader)))
  && (cmd.Contains (cmd.constant_AllowedUploadFileExtensions app) "*"
      || cmd.Contains (cmd.constant_AllowedUploadFileExtensions app)
           (extensionOf stringutil_SanitizeFilename filepath_Ext
              strings_ToLower fileHeader)).

(** An uploader that allows [pdf] and [png] files of at most 10 MB, whose
    store keeps a thumbnail under the name it is given followed by [.jpg],
    and whose database is down when [dbUp] is false. Files are their
    content; an image is a file that starts with [P]. *)
Definition exampleUploader (dbUp : bool) : cmd.Uploader string :=
  {| cmd.constant_MaxFileUploadSizeMB := cmd.float64_of_int 10;
     cmd.constant_AllowedUploadFileExtensions := ["pdf"; "png"];
     cmd.media_Upload := fun name contentType file =>
       if cmd.HasPrefix name cmd.thumbPrefix then Ok (name +:+ ".jpg")
       else Ok name;
     cmd.media_Insert := fun fileName contentType contentID modelType
                             disposition uuid modelID size meta =>
       if dbUp then Ok {| cmd.Model := modelType; cmd.ModelID := modelID |}
       else Err (GoError "database is down") |}.

Definition exampleSprintf (max : cmd.float64) : string :=
  "File size is too large. Please upload file lesser than 10.000000 MB".

(** The extension of a file name without directories. *)
Fixpoint exampleExt (name : string) : string :=
  match name with
  | EmptyString => ""
  | String c rest =>
      match exampleExt rest with
      | EmptyString => if Ascii.eqb c "." then String c rest else ""
      | ext => ext
      end
  end.

Definition exampleCreateThumb (size : Z) (file : string) : result string :=
  if cmd.HasPrefix file "P" then Ok ("thumb of " +:+ file)
  else Err (GoError "image: unknown format").

Definition exampleGetDimensions (file : string) : result (Z * Z) :=
  if cmd.HasPrefix file "P" then Ok (640, 480)
  else Err (GoError "image: unknown format").

Definition exampleForm (name : string) (size : Z) (content : string)
  : result (cmd.Form string) :=
  Ok {| cmd.File_files :=
          Some [{| cmd.Filename := name;
                   cmd.Header_ContentType := "application/octet-stream";
                   cmd.Size := size; cmd.Open := Ok content |}];
        cmd.Value_inline := None |}.

(** [handleMediaUpload] with the helpers of the examples. *)
Definition exampleUpload (dbUp : bool) (name : string) (size : Z)
  (content uuid : string) : cmd.Response * list cmd.MediaOp :=
  cmd.handleMediaUpload exampleSprintf (fun s => s) exampleExt (fun s => s)
    ["png"; "jpg"] exampleCreateThumb exampleGetDimensions
    (exampleUploader dbUp) (exampleForm name size content) uuid.

(** ** The set-SLA path, from the conversation manager to the applied SLA *)

(** What [conversation.ApplySLA] goes on to do with the answer of the SLA
    engine. *)
Definition recordApplied (uuid : string) (actor : User) (r : result SLAPolicy)
  : M (option error) :=
  match r with
  | Err _ => ret (Some (EnvelopeError GeneralError "Error applying SLA"))
  | Ok policy =>
      let! err := conversation.RecordSLASet uuid (Name policy) actor in
      match err with
      | Some _ =>
          ret (Some (EnvelopeError GeneralError "Error recording SLA application"))
      | None => ret None
      end
  end.

(** The two deadlines of a policy from [start], computed in the business
    hours and the time zone of the app-settings default. *)
Definition appDefaultDeadlines `{TimePkg} (sm : sla.Manager) (start : Time)
  (p : SLAPolicy) : result Deadlines :=
  match appDefault sm with
  | Err e => Err e
  | Ok c =>
      if configured c then
        match fetchCalendar sm c with
        | Err e => Err e
        | Ok (businessHrs, timezone) =>
            match sla.calculateDeadline start businessHrs timezone
                    (FirstResponseTime p) with
            | Err e => Err e
            | Ok firstResponse =>
                match sla.calculateDeadline start businessHrs timezone
                        (ResolutionTime p) with
                | Err e => Err e
                | Ok resolution =>
                    Ok {| FirstResponse := firstResponse;
                          Resolution := resolution |}
                end
            end
        end
      else Err notConfigured
  end.

(** The activity entry of an applied SLA. *)
Definition slaSetActivity (uuid : string) (p : SLAPolicy) (actor : User)
  : Activity :=
  {| ActConversation := uuid; ActKind := ActSLASet;
     ActValue := VString (Name p); ActActor := UserID actor |}.

(** A team store in which every team has the weekday calendar 2. *)
Definition weekdayTeams (id : Z) : result Team :=
  Ok {| BusinessHoursID := 2; Timezone := "UTC" |}.

(** An insert of an applied SLA for the conversation and the policy whose
    deadlines are those of the app-settings default, from [start], of the
    policy as the tables [d] have it. *)
Definition carriesAppDefault `{TimePkg} (sm : sla.Manager) (start : Time)
  (d : DB) (conversationID slaPolicyID : Z) (e : Event) : Prop :=
  exists (p : SLAPolicy) (deadlines : Deadlines) (ok : bool),
    sla_policies d !! slaPolicyID = Some p
    /\ appDefaultDeadlines sm start p = Ok deadlines
    /\ e = EvCall (ApplySLAStmt conversationID slaPolicyID
                     (FirstResponse deadlines) (Resolution deadlines)) ok.

(** The log line of the set-SLA action. *)
Definition logSetSLA (value0 : string) (conv : Conversation) : M unit :=
  log Debug "executing apply SLA action"
    [("value", VString value0); ("conversation_uuid", VString (UUID conv))].


(** * Properties *)

(** ** Reasoning about runs *)

Lemma keeps_ret (P : DB -> Prop) {A} (a : A) : keeps P (ret a).
Proof. intros w Hw. exact Hw. Qed.

Lemma keeps_bind (P : DB -> Prop) {A B} (c : M A) (k : A -> M B) :
  keeps P c -> (forall a, keeps P (k a)) -> keeps P (bind c k).
Proof.
  intros Hc Hk w Hw. unfold bind.
  specialize (Hc w Hw). destruct (c w) as [a w1]. exact (Hk a w1 Hc).
Qed.

Lemma keeps_log (P : DB -> Prop) lvl msg fields : keeps P (log lvl msg fields).
Proof. intros w Hw. exact Hw. Qed.

Lemma keeps_emit (P : DB -> Prop) e : keeps P (emit e).
Proof. intros w Hw. exact Hw. Qed.

Lemma keeps_Now (P : DB -> Prop) : keeps P Now.
Proof. intros w Hw. exact Hw. Qed.

Lemma keeps_ctx_Done (P : DB -> Prop) : keeps P ctx_Done.
Proof. intros w Hw. exact Hw. Qed.

Lemma keeps_getDB (P : DB -> Prop) : keeps P getDB.
Proof. intros w Hw. exact Hw. Qed.

Lemma keeps_call (P : DB -> Prop) (c : Call) :
  (forall now d, P d -> P (perform now c d)) -> keeps P (call c).
Proof.
  intros Hc w Hw. unfold call. simpl.
  destruct (negb (fails (env w) (step w) c)); [apply Hc|]; exact Hw.
Qed.

Create HintDb keeps.

#[local] Hint Resolve keeps_ret keeps_log keeps_emit keeps_Now keeps_ctx_Done
  keeps_getDB : keeps.

(** Splits a [keeps] goal along the structure of the program. *)
Ltac keeps_step :=
  match goal with
  | |- keeps _ (bind _ _) => apply keeps_bind; [| intros ?]
  | |- keeps _ (if ?b then _ else _) => destruct b eqn:?
  | |- keeps _ (match ?x with _ => _ end) => destruct x eqn:?
  | |- keeps _ _ => solve [auto with keeps]
  end.


(** ** The sweep and the terminal timestamps *)

Lemma holds_alter_other id mt a b (f : AppliedSLARow -> AppliedSLARow) i d :
  (i = id -> forall r, row_met_at mt (f r) = row_met_at mt r
                       /\ row_breached_at mt (f r) = row_breached_at mt r) ->
  holds id mt a b d -> holds id mt a b (with_applied_slas (alter f i) d).
Proof.
  intros Hf (r & Hr & Hm & Hb). unfold holds. simpl.
  destruct (decide (i = id)) as [->|Hne].
  - exists (f r). rewrite lookup_alter_eq, Hr. simpl.
    destruct (Hf eq_refl r) as [-> ->]. auto.
  - exists r. rewrite lookup_alter_ne by done. auto.
Qed.

Lemma stamp_breached_other mt mt' now r :
  mt <> mt' ->
  row_met_at mt (stamp_breached (slaTypeOf mt') now r) = row_met_at mt r
  /\ row_breached_at mt (stamp_breached (slaTypeOf mt') now r)
     = row_breached_at mt r.
Proof. destruct mt, mt'; intros Hne; try congruence; split; reflexivity. Qed.

Lemma stamp_met_other mt mt' now r :
  mt <> mt' ->
  row_met_at mt (stamp_met (slaTypeOf mt') now r) = row_met_at mt r
  /\ row_breached_at mt (stamp_met (slaTypeOf mt') now r)
     = row_breached_at mt r.
Proof. destruct mt, mt'; intros Hne; try congruence; split; reflexivity. Qed.

Lemma keeps_checkDeadline id mt a b sla deadline metAt mt' :
  (ID sla = id -> mt <> mt') ->
  keeps (holds id mt a b) (sla.checkDeadline sla deadline metAt (slaTypeOf mt')).
Proof.
  intros Hne. unfold sla.checkDeadline.
  repeat keeps_step;
    apply keeps_call; intros now d Hd; simpl;
    apply holds_alter_other; auto;
    intros Hid r; [apply stamp_breached_other | apply stamp_breached_other
                  | apply stamp_met_other]; auto.
Qed.

Lemma keeps_evaluateSLA id mt a b sla :
  (ID sla = id -> terminalOf mt sla = true) ->
  keeps (holds id mt a b) (sla.evaluateSLA sla).
Proof.
  intros Hterm. unfold sla.evaluateSLA.
  repeat keeps_step;
    try (apply keeps_call; intros now d Hd; exact Hd).
  - apply (keeps_checkDeadline id mt a b sla _ _ FirstResponseMetric).
    intros Hid ->. specialize (Hterm Hid). unfold terminalOf in Hterm. simpl in Hterm.
    destruct (Valid (FirstResponseBreachedAt sla)),
      (Valid (FirstResponseMetAt sla)); discriminate.
  - apply (keeps_checkDeadline id mt a b sla _ _ ResolutionMetric).
    intros Hid ->. specialize (Hterm Hid). unfold terminalOf in Hterm. simpl in Hterm.
    destruct (Valid (ResolutionBreachedAt sla)),
      (Valid (ResolutionMetAt sla)); discriminate.
Qed.

Lemma keeps_evaluateEach id mt a b slas :
  Forall (fun sla => ID sla = id -> terminalOf mt sla = true) slas ->
  keeps (holds id mt a b) (sla.evaluateEach slas).
Proof.
  induction 1 as [|sla rest Hsla _ IH]; simpl.
  - auto with keeps.
  - repeat keeps_step; auto using keeps_evaluateSLA.
Qed.

Lemma pendingSLAs_terminal id mt a b d :
  Valid b || Valid a = true ->
  holds id mt a b d ->
  Forall (fun sla => ID sla = id -> terminalOf mt sla = true) (sla.pendingSLAs d).
Proof.
  intros Hab (r & Hr & Hm & Hb). apply Forall_forall. intros sla Hin Hid.
  unfold sla.pendingSLAs in Hin. apply list_elem_of_omap in Hin.
  destruct Hin as ([k row] & Hkv & Hsla). simpl in Hsla.
  apply elem_of_map_to_list in Hkv.
  destruct (sla.pending row); [|discriminate].
  destruct (conversation_by_id d (row_conversation_id row)) as [c|];
    [|discriminate].
  simpl in Hsla. injection Hsla as <-. simpl in Hid. subst k.
  rewrite Hr in Hkv. injection Hkv as <-.
  unfold terminalOf. destruct mt; simpl in *; subst; exact Hab.
Qed.

Lemma keeps_evaluatePendingSLAs id mt a b :
  Valid b || Valid a = true ->
  keeps (holds id mt a b) sla.evaluatePendingSLAs.
Proof.
  intros Hab w Hw.
  unfold sla.evaluatePendingSLAs, bind, callContext, call, getDB. simpl.
  destruct (ctxDone (env w) (step w)); simpl; [exact Hw|].
  destruct (negb (fails (env w) (step w) GetPendingSLAs)); simpl; [|exact Hw].
  match goal with
  | |- context [sla.evaluateEach ?l ?w1] =>
      pose proof (keeps_evaluateEach id mt a b l
                    (pendingSLAs_terminal id mt a b _ Hab Hw) w1 Hw) as Hk;
      destruct (sla.evaluateEach l w1) as [[e|] w2]; simpl in *; exact Hk
  end.
Qed.

Lemma keeps_Run id mt a b signals :
  Valid b || Valid a = true ->
  keeps (holds id mt a b) (sla.Run signals).
Proof.
  intros Hab. induction signals as [|[|] rest IH]; simpl; auto with keeps.
  repeat keeps_step; auto using keeps_evaluatePendingSLAs with keeps.
Qed.

(** ** The sweep, metric by metric *)

Lemma evaluateSLA_by_metric sla :
  sla.evaluateSLA sla =
  (log Debug "evaluating SLA"
     [("conversation_id", VInt (ConversationID sla));
      ("applied_sla_id", VInt (ID sla))] ;;
   let! err := checkMetric FirstResponseMetric sla in
   match err with
   | Some e => ret (Some e)
   | None =>
       let! err := checkMetric ResolutionMetric sla in
       match err with
       | Some e => ret (Some e)
       | None => finishEvaluation sla
       end
   end).
Proof. reflexivity. Qed.

Lemma marks_app id ty l1 l2 :
  marks id ty (l1 ++ l2) = marks id ty l1 ++ marks id ty l2.
Proof. apply omap_app. Qed.

Lemma silent_ret id ty {A} (a : A) : silent id ty (ret a).
Proof.
  intros w. simpl. repeat split; [lia|]. exists []. by rewrite app_nil_r.
Qed.

Lemma silent_bind id ty {A B} (c : M A) (k : A -> M B) :
  silent id ty c -> (forall a, silent id ty (k a)) -> silent id ty (bind c k).
Proof.
  intros Hc Hk w. unfold bind.
  destruct (Hc w) as (He & Hs & d1 & Ht & Hm).
  destruct (c w) as [a w1]. simpl in *.
  destruct (Hk a w1) as (He' & Hs' & d2 & Ht' & Hm').
  repeat split; [congruence | lia |].
  exists (d1 ++ d2). rewrite Ht', Ht, app_assoc, marks_app, Hm, Hm'. done.
Qed.

Lemma silent_emit id ty e : mark_of id ty e = None -> silent id ty (emit e).
Proof.
  intros He w. unfold emit. cbn [snd env step trace].
  repeat split; [lia|]. exists [e]. split; [done|].
  unfold marks. cbn [omap list_omap]. by rewrite He.
Qed.

Lemma silent_log id ty lvl msg fields : silent id ty (log lvl msg fields).
Proof. by apply silent_emit. Qed.

Lemma silent_Now id ty : silent id ty Now.
Proof.
  intros w. simpl. repeat split; [lia|]. exists []. by rewrite app_nil_r.
Qed.

Lemma silent_call id ty c :
  (forall ok, mark_of id ty (EvCall c ok) = None) -> silent id ty (call c).
Proof.
  intros Hc w. unfold call. cbn [snd env step trace].
  repeat split; [lia|]. eexists [_]. split; [reflexivity|].
  unfold marks. cbn [omap list_omap]. by rewrite Hc.
Qed.

Create HintDb silent.

#[local] Hint Resolve silent_ret silent_log silent_Now : silent.

Ltac silent_step :=
  match goal with
  | |- silent _ _ (bind _ _) => apply silent_bind; [| intros ?]
  | |- silent _ _ (if ?b then _ else _) => destruct b eqn:?
  | |- silent _ _ (match ?x with _ => _ end) => destruct x eqn:?
  | |- silent _ _ _ => solve [auto with silent]
  end.

Lemma slaTypeOf_inj mt mt' : slaTypeOf mt = slaTypeOf mt' -> mt = mt'.
Proof.
  destruct mt, mt'; intros Heq; try reflexivity; vm_compute in Heq;
    discriminate.
Qed.

Lemma mark_of_other_metric id mt mt' c ok :
  mt <> mt' ->
  (c = UpdateBreach id (slaTypeOf mt') \/ c = UpdateMet id (slaTypeOf mt')) ->
  mark_of id (slaTypeOf mt) (EvCall c ok) = None.
Proof.
  intros Hne [-> | ->]; simpl;
    (destruct (String.eqb_spec (slaTypeOf mt') (slaTypeOf mt)) as [Heq|_];
     [apply slaTypeOf_inj in Heq; congruence | by rewrite andb_false_r]).
Qed.

Lemma checkMetric_silent_other mt mt' sla :
  mt <> mt' -> silent (ID sla) (slaTypeOf mt) (checkMetric mt' sla).
Proof.
  intros Hne. unfold checkMetric, sla.checkDeadline.
  repeat silent_step;
    apply silent_call; intros ok'; apply (mark_of_other_metric _ _ mt'); auto.
Qed.

Lemma finishEvaluation_silent id ty sla : silent id ty (finishEvaluation sla).
Proof.
  unfold finishEvaluation.
  repeat silent_step; apply silent_call; intros ok'; reflexivity.
Qed.

(** Closes a goal about the events and the marks of an unfolded run. *)
Ltac trace_delta :=
  repeat split; [lia|];
  eexists; rewrite <- ?app_assoc; split; [reflexivity|];
  unfold marks; simpl; rewrite ?Z.eqb_refl, ?String.eqb_refl; reflexivity.

(** One metric that is not terminal: what its check executes. *)
Lemma checkMetric_run mt sla w :
  terminalOf mt sla = false ->
  env (snd (checkMetric mt sla w)) = env w
  /\ (step w <= step (snd (checkMetric mt sla w)))%nat
  /\ exists delta : list Event,
       trace (snd (checkMetric mt sla w)) = trace w ++ delta
       /\ marks (ID sla) (slaTypeOf mt) delta
          = expected_marks (deadlineOf mt sla) (actualOf mt sla)
              (clock (env w) (step w)).
Proof.
  intros Hterm. unfold terminalOf in Hterm.
  apply orb_false_iff in Hterm as [Hb Hm].
  unfold checkMetric, expected_marks, sla.checkDeadline. rewrite Hb, Hm. simpl.
  unfold bind, log, emit, Now, call, ret. simpl.
  destruct (IsZero (deadlineOf mt sla)); simpl.
  { trace_delta. }
  destruct (actualOf mt sla) as [t|]; simpl.
  - destruct (After t (deadlineOf mt sla)); simpl;
      destruct (negb (fails _ _ _)); simpl; trace_delta.
  - destruct (After _ (deadlineOf mt sla)); simpl.
    + destruct (negb (fails _ _ _)); simpl; trace_delta.
    + trace_delta.
Qed.

(** The check of a metric returns an error only when the store fails one
    of its two updates. *)
Lemma checkMetric_ok mt sla w :
  (forall n, fails (env w) n (UpdateBreach (ID sla) (slaTypeOf mt)) = false
             /\ fails (env w) n (UpdateMet (ID sla) (slaTypeOf mt)) = false) ->
  fst (checkMetric mt sla w) = None.
Proof.
  intros Hok. unfold checkMetric, sla.checkDeadline.
  unfold bind, log, emit, Now, call, ret. simpl.
  repeat (match goal with
          | |- context [if ?b then _ else _] =>
              match b with
              | context [fails _ ?n ?c] =>
                  first [ rewrite (proj1 (Hok n)) | rewrite (proj2 (Hok n)) ]
              | _ => destruct b eqn:?
              end
          | |- context [match ?x with Some _ => _ | None => _ end] =>
              destruct x eqn:?
          end; simpl); reflexivity.
Qed.

Lemma bind_run {A B} (c : M A) (k : A -> M B) w :
  bind c k w = k (fst (c w)) (snd (c w)).
Proof. unfold bind. by destruct (c w). Qed.

Lemma afterMetric_silent id ty sla (err : option error) :
  silent id ty (match err with
                | Some e => ret (Some e)
                | None => finishEvaluation sla
                end).
Proof. destruct err; auto using finishEvaluation_silent with silent. Qed.

(** The marks of an evaluation for a metric that is not terminal and whose
    check is reached are those of its check, at some clock reading of the
    evaluation. *)
Lemma evaluateSLA_marks sla mt w :
  terminalOf mt sla = false ->
  reached mt sla w ->
  exists (n : nat) (delta : list Event),
    (step w <= n)%nat
    /\ trace (snd (sla.evaluateSLA sla w)) = trace w ++ delta
    /\ marks (ID sla) (slaTypeOf mt) delta
       = expected_marks (deadlineOf mt sla) (actualOf mt sla)
           (clock (env w) n).
Proof.
  intros Hterm Hreach. rewrite evaluateSLA_by_metric.
  rewrite bind_run.
  set (w0 := snd (log Debug "evaluating SLA" _ w)).
  assert (Hw0 : env w0 = env w /\ step w0 = step w
                /\ exists e, trace w0 = trace w ++ [e]
                             /\ marks (ID sla) (slaTypeOf mt) [e] = [])
    by (repeat split; eexists; split; reflexivity).
  destruct Hw0 as (He0 & Hs0 & e0 & Ht0 & Hm0). clearbody w0.
  rewrite bind_run. destruct mt.
  - (* first response *)
    destruct (checkMetric_run FirstResponseMetric sla w0 Hterm)
      as (He1 & Hs1 & d1 & Ht1 & Hm1).
    set (w1 := snd (checkMetric FirstResponseMetric sla w0)) in *.
    assert (Hrest : silent (ID sla) (slaTypeOf FirstResponseMetric)
              (match fst (checkMetric FirstResponseMetric sla w0) with
               | Some e => ret (Some e)
               | None =>
                   let! err := checkMetric ResolutionMetric sla in
                   match err with
                   | Some e => ret (Some e)
                   | None => finishEvaluation sla
                   end
               end)).
    { destruct (fst _); [auto with silent|].
      apply silent_bind; [by apply checkMetric_silent_other|].
      intros err. apply afterMetric_silent. }
    destruct (Hrest w1) as (_ & _ & d2 & Ht2 & Hm2).
    exists (step w0), ([e0] ++ d1 ++ d2). split; [lia|]. split.
    + rewrite Ht2, Ht1, Ht0, <- !app_assoc. reflexivity.
    + rewrite !marks_app, Hm0, Hm1, Hm2, He0, app_nil_r. reflexivity.
  - (* resolution *)
    destruct (checkMetric_silent_other ResolutionMetric FirstResponseMetric sla
                ltac:(discriminate) w0) as (He1 & Hs1 & d1 & Ht1 & Hm1).
    rewrite (checkMetric_ok FirstResponseMetric sla w0)
      by (rewrite He0; exact Hreach).
    set (w1 := snd (checkMetric FirstResponseMetric sla w0)) in *.
    rewrite bind_run.
    destruct (checkMetric_run ResolutionMetric sla w1 Hterm)
      as (He2 & Hs2 & d2 & Ht2 & Hm2).
    set (w2 := snd (checkMetric ResolutionMetric sla w1)) in *.
    destruct (afterMetric_silent (ID sla) (slaTypeOf ResolutionMetric) sla
                (fst (checkMetric ResolutionMetric sla w1)) w2)
      as (_ & _ & d3 & Ht3 & Hm3).
    exists (step w1), ([e0] ++ d1 ++ d2 ++ d3). split; [lia|]. split.
    + rewrite Ht3, Ht2, Ht1, Ht0, <- !app_assoc. reflexivity.
    + rewrite !marks_app, Hm0, Hm1, Hm2, Hm3, He1, He0, app_nil_r. reflexivity.
Qed.

Lemma stamped_stamp_met mt now r :
  stamped mt r (stamp_met (slaTypeOf mt) now r) [Met].
Proof. destruct mt; simpl; split; eauto. Qed.

Lemma stamped_stamp_breached mt now r :
  stamped mt r (stamp_breached (slaTypeOf mt) now r) [Breached].
Proof. destruct mt; simpl; split; eauto. Qed.

(** One metric that is not terminal, the store being up: what its check
    does to the row. *)
Lemma checkMetric_stamps mt sla w r :
  terminalOf mt sla = false ->
  applied_slas (db w) !! ID sla = Some r ->
  storeUp w ->
  exists r',
    applied_slas (db (snd (checkMetric mt sla w))) !! ID sla = Some r'
    /\ stamped mt r r'
         (expected_marks (deadlineOf mt sla) (actualOf mt sla)
            (clock (env w) (step w))).
Proof.
  intros Hterm Hr Hup. unfold terminalOf in Hterm.
  apply orb_false_iff in Hterm as [Hb Hm].
  unfold checkMetric, expected_marks, sla.checkDeadline. rewrite Hb, Hm. simpl.
  unfold bind, log, emit, Now, call, ret. simpl.
  destruct (IsZero (deadlineOf mt sla)); simpl.
  { exists r. split; [exact Hr | split; reflexivity]. }
  destruct (actualOf mt sla) as [t|]; simpl.
  - destruct (After t (deadlineOf mt sla)); simpl; rewrite Hup; simpl;
      rewrite lookup_alter_eq, Hr; simpl; eexists; (split; [reflexivity|]);
      [apply stamped_stamp_breached | apply stamped_stamp_met].
  - destruct (After _ (deadlineOf mt sla)); simpl.
    + rewrite Hup. simpl. rewrite lookup_alter_eq, Hr. simpl.
      eexists. split; [reflexivity|]. apply stamped_stamp_breached.
    + exists r. split; [exact Hr | split; reflexivity].
Qed.

Lemma keeps_checkMetric_other id mt a b sla mt' :
  (ID sla = id -> mt <> mt') ->
  keeps (holds id mt a b) (checkMetric mt' sla).
Proof.
  intros Hne. unfold checkMetric.
  repeat keeps_step. by apply keeps_checkDeadline.
Qed.

Lemma keeps_finishEvaluation id mt a b sla :
  keeps (holds id mt a b) (finishEvaluation sla).
Proof.
  unfold finishEvaluation.
  repeat keeps_step; apply keeps_call; intros now d Hd; exact Hd.
Qed.

Lemma keeps_afterMetric id mt a b sla (err : option error) :
  keeps (holds id mt a b)
    (match err with
     | Some e => ret (Some e)
     | None => finishEvaluation sla
     end).
Proof. destruct err; auto using keeps_finishEvaluation with keeps. Qed.

Lemma stamped_holds mt r r1 ms d id :
  stamped mt r r1 ms ->
  holds id mt (row_met_at mt r1) (row_breached_at mt r1) d ->
  exists r', applied_slas d !! id = Some r' /\ stamped mt r r' ms.
Proof.
  intros Hst (r' & Hr' & Hm & Hb). exists r'. split; [exact Hr'|].
  unfold stamped in *. rewrite Hm, Hb. exact Hst.
Qed.

Lemma stamped_from mt r r1 r2 ms :
  row_met_at mt r1 = row_met_at mt r ->
  row_breached_at mt r1 = row_breached_at mt r ->
  stamped mt r1 r2 ms -> stamped mt r r2 ms.
Proof. intros Hm Hb. unfold stamped. by rewrite Hm, Hb. Qed.

(** The row after an evaluation, for a metric that is not terminal, the
    store being up. *)
Lemma evaluateSLA_stamps sla mt w r :
  terminalOf mt sla = false ->
  applied_slas (db w) !! ID sla = Some r ->
  storeUp w ->
  exists (n : nat) (r' : AppliedSLARow),
    (step w <= n)%nat
    /\ applied_slas (db (snd (sla.evaluateSLA sla w))) !! ID sla = Some r'
    /\ stamped mt r r'
         (expected_marks (deadlineOf mt sla) (actualOf mt sla)
            (clock (env w) n)).
Proof.
  intros Hterm Hr Hup. rewrite evaluateSLA_by_metric, bind_run.
  set (w0 := snd (log Debug "evaluating SLA" _ w)).
  assert (Hw0 : env w0 = env w /\ step w0 = step w /\ db w0 = db w)
    by (repeat split).
  destruct Hw0 as (He0 & Hs0 & Hd0). clearbody w0.
  rewrite bind_run. destruct mt.
  - destruct (checkMetric_stamps FirstResponseMetric sla w0 r Hterm)
      as (r1 & Hr1 & Hst); [by rewrite Hd0 | by unfold storeUp; rewrite He0 |].
    set (w1 := snd (checkMetric FirstResponseMetric sla w0)) in *.
    rewrite He0, Hs0 in Hst.
    assert (Hrest : keeps (holds (ID sla) FirstResponseMetric
                             (row_met_at FirstResponseMetric r1)
                             (row_breached_at FirstResponseMetric r1))
              (match fst (checkMetric FirstResponseMetric sla w0) with
               | Some e => ret (Some e)
               | None =>
                   let! err := checkMetric ResolutionMetric sla in
                   match err with
                   | Some e => ret (Some e)
                   | None => finishEvaluation sla
                   end
               end)).
    { destruct (fst _); [auto with keeps|].
      apply keeps_bind; [by apply keeps_checkMetric_other|].
      intros err. apply keeps_afterMetric. }
    destruct (stamped_holds FirstResponseMetric r r1 _ _ (ID sla) Hst
                (Hrest w1 (ex_intro _ r1 (conj Hr1 (conj eq_refl eq_refl)))))
      as (r' & Hr' & Hst').
    exists (step w), r'. split; [lia|]. split; [exact Hr' | exact Hst'].
  - destruct (checkMetric_silent_other ResolutionMetric FirstResponseMetric sla
                ltac:(discriminate) w0) as (He1 & Hs1 & _).
    assert (Hk1 : holds (ID sla) ResolutionMetric
                    (row_met_at ResolutionMetric r)
                    (row_breached_at ResolutionMetric r)
                    (db (snd (checkMetric FirstResponseMetric sla w0)))).
    { apply (keeps_checkMetric_other (ID sla) ResolutionMetric _ _ sla
               FirstResponseMetric ltac:(discriminate) w0).
      exists r. rewrite Hd0. auto. }
    rewrite (checkMetric_ok FirstResponseMetric sla w0)
      by (intros n; rewrite He0; split; apply Hup).
    set (w1 := snd (checkMetric FirstResponseMetric sla w0)) in *.
    destruct Hk1 as (r1 & Hr1 & Hm1 & Hb1).
    rewrite bind_run.
    destruct (checkMetric_stamps ResolutionMetric sla w1 r1 Hterm Hr1)
      as (r2 & Hr2 & Hst); [by unfold storeUp; rewrite He1, He0 |].
    set (w2 := snd (checkMetric ResolutionMetric sla w1)) in *.
    rewrite He1, He0 in Hst.
    apply (stamped_from _ r) in Hst; [|exact Hm1|exact Hb1].
    destruct (stamped_holds ResolutionMetric r r2 _ _ (ID sla) Hst
                (keeps_afterMetric (ID sla) ResolutionMetric _ _ sla
                   (fst (checkMetric ResolutionMetric sla w1)) w2
                   (ex_intro _ r2 (conj Hr2 (conj eq_refl eq_refl)))))
      as (r' & Hr' & Hst').
    exists (step w1), r'. split; [lia|]. split; [exact Hr' | exact Hst'].
Qed.

(** C1 (as amended). When the sweep evaluates a row, for each of its two
    metrics that has no terminal timestamp yet and whose check is reached
    (the store did not fail the update of the metric checked before it):
    a zero deadline leaves the metric unchanged; otherwise an
    actual-completion timestamp at or before the deadline marks it met, one
    after the deadline marks it breached, and no actual-completion
    timestamp with the current time after the deadline marks it breached.
    This holds of the statements executed and, when the store is up, of
    the timestamps of the row. *)
Theorem evaluateSLA_marks_open_metric (sla : AppliedSLA) (mt : Metric)
  (w : World) :
  terminalOf mt sla = false ->
  reached mt sla w ->
  (exists delta : list Event,
     trace (snd (sla.evaluateSLA sla w)) = trace w ++ delta
     /\ marked_as_specified mt sla w delta)
  /\ (forall r : AppliedSLARow,
        applied_slas (db w) !! ID sla = Some r ->
        storeUp w ->
        exists r' : AppliedSLARow,
          applied_slas (db (snd (sla.evaluateSLA sla w))) !! ID sla = Some r'
          /\ stamped_as_specified mt sla w r r').
Proof.
  intros Hterm Hreach. split.
  - destruct (evaluateSLA_marks sla mt w Hterm Hreach)
      as (n & delta & Hn & Ht & Hm).
    exists delta. split; [exact Ht|].
    unfold marked_as_specified. cbv zeta. rewrite Hm. unfold expected_marks.
    repeat split.
    + intros ->. reflexivity.
    + intros -> t -> Hle. unfold After.
      destruct (Z.ltb_spec (deadlineOf mt sla) t); [lia | reflexivity].
    + intros -> t -> Hlt. unfold After.
      destruct (Z.ltb_spec (deadlineOf mt sla) t); [reflexivity | lia].
    + intros -> -> Hnow. unfold After. specialize (Hnow n Hn).
      destruct (Z.ltb_spec (deadlineOf mt sla) (clock (env w) n));
        [reflexivity | lia].
  - intros r Hr Hup.
    destruct (evaluateSLA_stamps sla mt w r Hterm Hr Hup)
      as (n & r' & Hn & Hr' & Hst).
    exists r'. split; [exact Hr'|].
    unfold stamped_as_specified. unfold expected_marks in Hst.
    split; [|split; [|split]].
    + intros Hz. by rewrite Hz in Hst.
    + intros Hz t Ht Hle. rewrite Hz, Ht in Hst. unfold After in Hst.
      destruct (Z.ltb_spec (deadlineOf mt sla) t); [lia | exact Hst].
    + intros Hz t Ht Hlt. rewrite Hz, Ht in Hst. unfold After in Hst.
      destruct (Z.ltb_spec (deadlineOf mt sla) t); [exact Hst | lia].
    + intros Hz Ha Hnow. rewrite Hz, Ha in Hst. unfold After in Hst.
      specialize (Hnow n Hn).
      destruct (Z.ltb_spec (deadlineOf mt sla) (clock (env w) n));
        [exact Hst | lia].
Qed.

Lemma evaluateSLA_marks_open_metric_witness :
  (exists delta : list Event,
     trace (snd (sla.evaluateSLA overdueSnapshot
                   (startWorld (calmEnv 100) twoOpenDB)))
     = trace (startWorld (calmEnv 100) twoOpenDB) ++ delta
     /\ marked_as_specified FirstResponseMetric overdueSnapshot
          (startWorld (calmEnv 100) twoOpenDB) delta)
  /\ (exists r' : AppliedSLARow,
        applied_slas (db (snd (sla.evaluateSLA overdueSnapshot
                                 (startWorld (calmEnv 100) twoOpenDB))))
          !! ID overdueSnapshot = Some r'
        /\ stamped_as_specified FirstResponseMetric overdueSnapshot
             (startWorld (calmEnv 100) twoOpenDB) (openRow 7) r').
Proof.
  destruct (evaluateSLA_marks_open_metric overdueSnapshot FirstResponseMetric
              (startWorld (calmEnv 100) twoOpenDB)) as [Htrace Hrow].
  - reflexivity.
  - exact I.
  - split; [exact Htrace|].
    apply (Hrow (openRow 7)); [reflexivity|]. intros n c. reflexivity.
Defined.

(** C1 (as stated, refuted). The first response of [breachedEarlyReply]
    is already recorded as breached; its first reply is before the
    deadline; the evaluation executes no [update-met] for it and its
    [met_at] stays unset. *)
Lemma every_metric_marked_fails :
  ~ every_metric_marked /\ ~ every_metric_stamped.
Proof.
  split.
  - intros Hall.
    destruct (Hall breachedEarlyReply FirstResponseMetric
                (startWorld (calmEnv 100) sweepDB))
      as (delta & Ht & _ & Hmet & _).
    specialize (Hmet eq_refl 5 eq_refl ltac:(simpl; lia)).
    vm_compute in Ht. subst delta. vm_compute in Hmet. discriminate.
  - intros Hall.
    destruct (Hall breachedEarlyReply FirstResponseMetric
                (startWorld (calmEnv 100) sweepDB) breachedRow eq_refl
                ltac:(intros n c; reflexivity))
      as (r' & Hr' & _ & Hmet & _).
    specialize (Hmet eq_refl 5 eq_refl ltac:(simpl; lia)).
    vm_compute in Hr'. injection Hr' as <-.
    destruct Hmet as [[t Hmet] _]. discriminate Hmet.
Qed.

Example breached_row_is_not_marked_met :
  let w := snd (sla.evaluatePendingSLAs (startWorld (calmEnv 100) sweepDB)) in
  sla.pendingSLAs sweepDB = [breachedEarlyReply]
  /\ marks 1 SLATypeFirstResponse (trace w) = []
  /\ row_first_response_met_at <$> applied_slas (db w) !! 1 = Some None
  /\ row_first_response_breached_at <$> applied_slas (db w) !! 1
     = Some (Some 20).
Proof. vm_compute. repeat split. Qed.

Lemma checkMetric_silent_terminal id ty mt sla :
  terminalOf mt sla = true -> silent id ty (checkMetric mt sla).
Proof.
  unfold terminalOf, checkMetric. intros Hterm.
  destruct (Valid (breachedAtOf mt sla)), (Valid (metAtOf mt sla));
    try discriminate; simpl; auto with silent.
Qed.

Lemma evaluateSLA_silent_terminal mt sla :
  terminalOf mt sla = true ->
  silent (ID sla) (slaTypeOf mt) (sla.evaluateSLA sla).
Proof.
  intros Hterm. rewrite evaluateSLA_by_metric.
  apply silent_bind; [auto with silent | intros _].
  apply silent_bind.
  { destruct mt; [by apply checkMetric_silent_terminal
                 | by apply checkMetric_silent_other]. }
  intros [e|]; [auto with silent|].
  apply silent_bind.
  { destruct mt; [by apply checkMetric_silent_other
                 | by apply checkMetric_silent_terminal]. }
  intros err. apply afterMetric_silent.
Qed.

(** C2. Once a metric of an applied SLA has a terminal timestamp ([met_at]
    or [breached_at] set), the sweep run any number of times (one
    evaluation for each [Tick] that [Run] receives) leaves both timestamps
    of that metric as they are; and an evaluation of a row whose metric is
    terminal executes no update for that metric. *)
Theorem sweep_keeps_terminal_timestamps (signals : list sla.Signal) (w : World)
  (id : Z) (r : AppliedSLARow) (mt : Metric) :
  applied_slas (db w) !! id = Some r ->
  row_terminal mt r = true ->
  (exists r', applied_slas (db (snd (sla.Run signals w))) !! id = Some r'
              /\ row_met_at mt r' = row_met_at mt r
              /\ row_breached_at mt r' = row_breached_at mt r)
  /\ (forall (sla : AppliedSLA) (w' : World),
        terminalOf mt sla = true ->
        exists delta : list Event,
          trace (snd (sla.evaluateSLA sla w')) = trace w' ++ delta
          /\ marks (ID sla) (slaTypeOf mt) delta = []).
Proof.
  intros Hr Hterm. split.
  - apply (keeps_Run id mt (row_met_at mt r) (row_breached_at mt r) signals
             Hterm w).
    exists r. auto.
  - intros sla w' Hsla.
    destruct (evaluateSLA_silent_terminal mt sla Hsla w') as (_ & _ & Hd).
    exact Hd.
Qed.

Lemma sweep_keeps_terminal_timestamps_witness :
  (exists r', applied_slas
                (db (snd (sla.Run [sla.Tick; sla.Tick; sla.Tick]
                            (startWorld (calmEnv 100) sweepDB)))) !! 1
              = Some r'
              /\ row_met_at FirstResponseMetric r'
                 = row_met_at FirstResponseMetric breachedRow
              /\ row_breached_at FirstResponseMetric r'
                 = row_breached_at FirstResponseMetric breachedRow)
  /\ (exists delta : list Event,
        trace (snd (sla.evaluateSLA breachedEarlyReply
                      (startWorld (calmEnv 100) sweepDB)))
        = trace (startWorld (calmEnv 100) sweepDB) ++ delta
        /\ marks (ID breachedEarlyReply) (slaTypeOf FirstResponseMetric) delta
           = []).
Proof.
  destruct (sweep_keeps_terminal_timestamps [sla.Tick; sla.Tick; sla.Tick]
              (startWorld (calmEnv 100) sweepDB) 1 breachedRow
              FirstResponseMetric) as [Hrow Hnoop].
  - reflexivity.
  - reflexivity.
  - split; [exact Hrow|]. apply Hnoop. reflexivity.
Defined.

(** ** Business hours and time zone of an SLA application *)

Lemma getBusinessHoursAndTimezone_value m assignedTeamID w :
  fst (sla.getBusinessHoursAndTimezone m assignedTeamID w)
  = match twoTier m assignedTeamID with
    | Err e => Err e
    | Ok c => if configured c then fetchCalendar m c else Err notConfigured
    end.
Proof.
  assert (Hfetch : forall c,
    fst ((match sla.businessHrsStore_Get m (fst c) with
          | Ok bh => ret (Ok (bh, snd c))
          | Err ErrBusinessHoursNotFound =>
              log Warn "business hours not found"
                [("team_id", VInt assignedTeamID)] ;;
              ret (Err (GoError "business hours not found"))
          | Err e =>
              log ErrorLevel "error fetching business hours for SLA"
                [("error", VError e)] ;;
              ret (Err e)
          end) w) = fetchCalendar m c).
  { intros c. unfold fetchCalendar.
    destruct (sla.businessHrsStore_Get m (fst c)) as [bh|[]]; reflexivity. }
  assert (Hdefault :
    fst ((match appDefault m with
          | Err e => ret (Err e)
          | Ok (businessHrsID, timezone) =>
              if (businessHrsID =? 0) || String.eqb timezone "" then
                ret (Err notConfigured)
              else
                match sla.businessHrsStore_Get m businessHrsID with
                | Ok bh => ret (Ok (bh, timezone))
                | Err ErrBusinessHoursNotFound =>
                    log Warn "business hours not found"
                      [("team_id", VInt assignedTeamID)] ;;
                    ret (Err (GoError "business hours not found"))
                | Err e =>
                    log ErrorLevel "error fetching business hours for SLA"
                      [("error", VError e)] ;;
                    ret (Err e)
                end
          end) w)
    = match appDefault m with
      | Err e => Err e
      | Ok c => if configured c then fetchCalendar m c else Err notConfigured
      end).
  { destruct (appDefault m) as [[id tz]|e]; [|reflexivity].
    unfold configured. cbn [fst snd].
    destruct (id =? 0); [reflexivity|]. destruct (String.eqb tz ""); [reflexivity|].
    apply (Hfetch (id, tz)). }
  unfold sla.getBusinessHoursAndTimezone, twoTier.
  destruct (assignedTeamID =? 0).
  - exact Hdefault.
  - destruct (sla.teamStore_Get m assignedTeamID) as [team|e]; [|reflexivity].
    unfold configured at 1. cbn [fst snd].
    destruct (BusinessHoursID team =? 0) eqn:Hid; [exact Hdefault|].
    destruct (String.eqb (Timezone team) "") eqn:Htz; [exact Hdefault|].
    cbn [orb negb andb]. rewrite Hid, Htz. cbn [orb].
    unfold configured. cbn [fst snd]. rewrite Hid, Htz.
    apply (Hfetch (BusinessHoursID team, Timezone team)).
Qed.

(** C3. The business hours and the time zone of an SLA application come
    from a two-tier lookup: the team's settings when a non-zero team id is
    given (and the team has both), otherwise the app-settings default; the
    calendar of the resolved id is then fetched. The lookup fails with the
    "not configured" error when, after the fallback, the business-hours id
    or the time zone is missing, and (no collaborator returning that very
    error) only then. *)
Theorem getBusinessHoursAndTimezone_two_tier (m : sla.Manager)
  (assignedTeamID : Z) (w : World) :
  fst (sla.getBusinessHoursAndTimezone m assignedTeamID w)
  = match twoTier m assignedTeamID with
    | Err e => Err e
    | Ok c => if configured c then fetchCalendar m c else Err notConfigured
    end
  /\ (foreignErrors m ->
      (fst (sla.getBusinessHoursAndTimezone m assignedTeamID w)
       = Err notConfigured
       <-> exists c, twoTier m assignedTeamID = Ok c /\ configured c = false)).
Proof.
  split; [apply getBusinessHoursAndTimezone_value|].
  intros (Hteam & Happ & Hbh).
  rewrite getBusinessHoursAndTimezone_value. split.
  - destruct (twoTier m assignedTeamID) as [c|e] eqn:Htier.
    + destruct (configured c) eqn:Hc; [|eauto].
      unfold fetchCalendar. specialize (Hbh (fst c)).
      destruct (sla.businessHrsStore_Get m (fst c)) as [bh|[]];
        try discriminate; congruence.
    + intros [= ->]. exfalso. unfold twoTier, appDefault in Htier.
      destruct (assignedTeamID =? 0).
      * specialize (Happ "app").
        destruct (sla.appSettingsStore_GetByPrefix m "app") as [j|e];
          [|congruence].
        destruct (json_Unmarshal j); discriminate.
      * specialize (Hteam assignedTeamID).
        destruct (sla.teamStore_Get m assignedTeamID) as [team|e];
          [|congruence].
        destruct (configured _); [discriminate|].
        specialize (Happ "app").
        destruct (sla.appSettingsStore_GetByPrefix m "app") as [j|e];
          [|congruence].
        destruct (json_Unmarshal j); discriminate.
  - intros (c & -> & ->). reflexivity.
Qed.

Example two_tier_lookups :
  twoTier exampleSLAManager 3 = Ok (2, "Asia/Kolkata")
  /\ twoTier exampleSLAManager 4 = Ok (1, "UTC")
  /\ twoTier exampleSLAManager 0 = Ok (1, "UTC")
  /\ twoTier exampleSLAManager 5 = Err (GoError "team not found")
  /\ fst (sla.getBusinessHoursAndTimezone exampleSLAManager 3
            (startWorld (calmEnv 100) emptyDB))
     = Ok (weekdays9to17, "Asia/Kolkata")
  /\ fst (sla.getBusinessHoursAndTimezone exampleSLAManager 0
            (startWorld (calmEnv 100) emptyDB))
     = Ok (alwaysOpen, "UTC").
Proof. repeat split; reflexivity. Qed.

Lemma getBusinessHoursAndTimezone_two_tier_witness :
  foreignErrors bareSLAManager
  /\ fst (sla.getBusinessHoursAndTimezone bareSLAManager 4
            (startWorld (calmEnv 100) emptyDB))
     = Err notConfigured.
Proof.
  assert (Hforeign : foreignErrors bareSLAManager).
  { repeat split; intros x; simpl; [|discriminate|discriminate].
    destruct (x =? 4); discriminate. }
  split; [exact Hforeign|].
  apply (proj2 (getBusinessHoursAndTimezone_two_tier bareSLAManager 4
                  (startWorld (calmEnv 100) emptyDB)) Hforeign).
  exists (0, ""). split; reflexivity.
Defined.

(** The set-SLA action on conversation 9, which is assigned to team 3, on
    a Saturday (day 5 of the time scale): the first-response deadline is
    one hour later, by the always-open app default, and not on Monday, by
    the calendar of team 3. *)
Example set_sla_ignores_the_team_calendar :
  let w := snd (conversation.ApplyAction exampleManager setSLA1 conversation9
                  systemUser (startWorld (calmEnv (5 * sla.Day)) policyDB)) in
  row_first_response_deadline_at <$> applied_slas (db w) !! 1
  = Some (5 * sla.Day + 1 * Hour)
  /\ sla.CalculateDeadline (5 * sla.Day) 60 weekdays9to17 "UTC"
     = Ok (7 * sla.Day + 10 * Hour).
Proof. vm_compute. split; reflexivity. Qed.

(** ** Deadlines *)

Example parseWholeDuration_examples :
  parseWholeDuration "2h" = Some (2 * Hour)
  /\ parseWholeDuration "1h30m" = Some (90 * Minute)
  /\ parseWholeDuration "90m" = Some (90 * Minute)
  /\ parseWholeDuration "-45s" = Some (- (45 * Second))
  /\ parseWholeDuration "0" = Some 0
  /\ parseWholeDuration "" = None
  /\ parseWholeDuration "2" = None
  /\ parseWholeDuration "h" = None
  /\ parseWholeDuration "3 h" = None.
Proof. repeat split; reflexivity. Qed.

(** The walk on a calendar with windows, day 4 of the time scale being a
    Friday: 90 open minutes from Friday 16:30 end on Monday at 10:00 (30
    minutes on Friday, 60 on Monday); zero minutes from Friday 18:30 end at
    the next opening; a calendar that never opens gives an error. *)
Example CalculateDeadline_walk :
  sla.weekday (4 * sla.Day) = 5
  /\ sla.CalculateDeadline (4 * sla.Day + 16 * Hour + 30 * Minute) 90
       weekdays9to17 "UTC"
     = Ok (7 * sla.Day + 10 * Hour)
  /\ sla.CalculateDeadline (4 * sla.Day + 18 * Hour + 30 * Minute) 0
       weekdays9to17 "UTC"
     = Ok (7 * sla.Day + 9 * Hour)
  /\ sla.CalculateDeadline (4 * sla.Day) 90 neverOpen "UTC"
     = Err (GoError "no business hours window found").
Proof. vm_compute. repeat split. Qed.

(** C5. Against an always-open calendar the deadline of a start instant
    [T] and a non-negative number of minutes [m] is exactly [T] plus [m]
    minutes, whatever the windows and the time zone of the calendar (there
    is no calendar walk); so is the deadline [CalculateDeadlines] computes
    from a policy duration of [m] minutes; and for 90 minutes it is
    [T + 90m]. *)
Theorem CalculateDeadline_always_open `{TimePkg} (T : Time) (m : Z)
  (businessHours : BusinessHours) (timeZone : string) :
  0 <= m ->
  IsAlwaysOpen businessHours = true ->
  sla.CalculateDeadline T m businessHours timeZone = Ok (T + m * Minute)
  /\ sla.CalculateDeadline T 90 businessHours timeZone = Ok (T + 90 * Minute)
  /\ (forall durationStr dur,
        durationStr <> "" ->
        ParseDuration durationStr = Some dur ->
        Minutes dur = m ->
        sla.calculateDeadline T businessHours timeZone durationStr
        = Ok (T + m * Minute)).
Proof.
  intros _ Hopen. unfold sla.calculateDeadline, sla.CalculateDeadline, Add.
  rewrite Hopen. repeat split.
  intros durationStr dur Hne Hparse <-.
  destruct (String.eqb_spec durationStr ""); [done|].
  by rewrite Hparse.
Qed.

Lemma CalculateDeadline_always_open_witness :
  sla.CalculateDeadline 1000 90 alwaysOpen "UTC" = Ok (1000 + 90 * Minute)
  /\ sla.calculateDeadline 1000 alwaysOpen "UTC" "1h30m"
     = Ok (1000 + 90 * Minute).
Proof.
  destruct (CalculateDeadline_always_open 1000 90 alwaysOpen "UTC")
    as (Hdeadline & _ & Hpolicy).
  - lia.
  - reflexivity.
  - split; [exact Hdeadline|].
    apply (Hpolicy "1h30m" (90 * Minute)); [discriminate | reflexivity..].
Defined.

(** ** A failing row does not stop the sweep *)












Example failing_rows_are_all_evaluated :
  let w := snd (sla.evaluatePendingSLAs (startWorld (failingEnv 100) twoOpenDB)) in
  evaluated (trace w) = [2; 1]
  /\ length (List.filter is_failed_call (trace w)) = 2%nat
  /\ length (List.filter is_row_error_log (trace w)) = 2%nat.
Proof. vm_compute. repeat split. Qed.

(** ** The action executor *)

Lemma append_empty_r (s : string) : s +:+ "" = s.
Proof.
  induction s as [|c s IH]; [reflexivity|].
  change (String c (s +:+ "") = String c s). by rewrite IH.
Qed.

Lemma names_suffix pre ty : names ty (pre +:+ ty).
Proof. exists pre, "". by rewrite append_empty_r. Qed.

Lemma unknown_type_eqb ty known :
  ~ In ty knownActionTypes -> In known knownActionTypes ->
  String.eqb ty known = false.
Proof.
  intros Hnot Hin. destruct (String.eqb_spec ty known) as [->|]; [|reflexivity].
  contradiction.
Qed.

(** C8. [ApplyAction] returns an error that names the action type, and
    mutates nothing (the tables are as before, and only log lines were
    written), when the value list of the action is empty and when its type
    is none of the known types. *)
Theorem ApplyAction_rejects `{TimePkg} (m : conversation.Manager)
  (action : conversation.RuleAction) (conv : Conversation) (user : User)
  (w : World) :
  conversation.Value action = []
  \/ ~ In (conversation.Type_ action) knownActionTypes ->
  exists e : error,
    fst (conversation.ApplyAction m action conv user w) = Some e
    /\ names (conversation.Type_ action) (Error e)
    /\ db (snd (conversation.ApplyAction m action conv user w)) = db w
    /\ exists delta : list Event,
         trace (snd (conversation.ApplyAction m action conv user w))
         = trace w ++ delta
         /\ forallb is_log delta = true.
Proof.
  intros Hcase. unfold conversation.ApplyAction.
  destruct (conversation.Value action) as [|value0 rest] eqn:Hvalue.
  - eexists. split; [reflexivity|]. split; [apply names_suffix|].
    split; [reflexivity|]. eexists [_]. split; reflexivity.
  - destruct Hcase as [Hempty | Hunknown]; [discriminate|].
    destruct (if UserID user =? 0 then _ else _) as [user'|e].
    + rewrite !(unknown_type_eqb _ _ Hunknown) by (simpl; tauto).
      eexists. split; [reflexivity|]. split; [apply names_suffix|].
      split; [reflexivity|]. exists []. by rewrite app_nil_r.
    + eexists. split; [reflexivity|]. split.
      * exists "could not apply ",
          (" action. could not fetch system user: " +:+ Error e).
        reflexivity.
      * split; [reflexivity|]. exists []. by rewrite app_nil_r.
Qed.

Lemma ApplyAction_rejects_witness :
  exists e : error,
    fst (conversation.ApplyAction exampleManager
           {| conversation.Type_ := "escalate"; conversation.Value := ["1"] |}
           conversation7 noUser (startWorld (calmEnv 100) sweepDB)) = Some e
    /\ names "escalate" (Error e)
    /\ db (snd (conversation.ApplyAction exampleManager
                  {| conversation.Type_ := "escalate";
                     conversation.Value := ["1"] |}
                  conversation7 noUser (startWorld (calmEnv 100) sweepDB)))
       = db (startWorld (calmEnv 100) sweepDB)
    /\ exists delta : list Event,
         trace (snd (conversation.ApplyAction exampleManager
                       {| conversation.Type_ := "escalate";
                          conversation.Value := ["1"] |}
                       conversation7 noUser (startWorld (calmEnv 100) sweepDB)))
         = trace (startWorld (calmEnv 100) sweepDB) ++ delta
         /\ forallb is_log delta = true.
Proof.
  apply (ApplyAction_rejects exampleManager
           {| conversation.Type_ := "escalate"; conversation.Value := ["1"] |}
           conversation7 noUser (startWorld (calmEnv 100) sweepDB)).
  right. simpl. intros Hin.
  repeat (destruct Hin as [Heq|Hin]; [discriminate Heq|]). exact Hin.
Defined.

(** C4. Applying the action [assign_user] with value ["42"] on behalf of
    the zero identity, when the stores answer and only the notifier may
    fail: the system user is substituted as the actor, the conversation is
    assigned to user 42, one activity entry attributed to the system user
    is recorded, exactly one notification is handed to the notifier, and
    when that send fails the failure is logged while the action still
    returns no error and the assignment stays. *)
Theorem ApplyAction_assign_user_42 `{TimePkg} (m : conversation.Manager)
  (conv c0 : Conversation) (sys agent : User) (content subject : string)
  (user : User) (w : World) :
  UserID user = 0 ->
  conversation.userStore_GetSystemUser m = Ok sys ->
  conversations (db w) !! UUID conv = Some c0 ->
  conversation.userStore_Get m 42 = Ok agent ->
  conversation.template_RenderNamedTemplate m
    conversation.TmplConversationAssigned (set_assigned_user 42 c0)
    (FullName agent) = Ok (content, subject) ->
  onlyNotifierMayFail w ->
  fst (conversation.ApplyAction m assignUser42 conv user w) = None
  /\ (exists c', conversations
                   (db (snd (conversation.ApplyAction m assignUser42 conv user w)))
                   !! UUID conv = Some c'
                 /\ AssignedUserID c' = Some 42)
  /\ activities (db (snd (conversation.ApplyAction m assignUser42 conv user w)))
     = activities (db w)
       ++ [{| ActConversation := UUID conv; ActKind := ActAssignedUserChange;
              ActValue := VInt 42; ActActor := UserID sys |}]
  /\ exists (delta : list Event) (sent : bool),
       trace (snd (conversation.ApplyAction m assignUser42 conv user w))
       = trace w ++ delta
       /\ List.filter is_notifier_send delta
          = [EvCall (NotifierSend {| UserIDs := [42]; NSubject := subject;
                                     NContent := content;
                                     Provider := ProviderEmail |}) sent]
       /\ (sent = false ->
           In (EvLog ErrorLevel "error sending assigned conversation email"
                 [("error",
                   VError (GoError ("sending notification message: "
                                    +:+ Error sendError)))]) delta).
Proof.
  intros Hzero Hsys Hconv Hagent Htmpl Hok.
  unfold conversation.ApplyAction, assignUser42.
  cbn [conversation.Value conversation.Type_].
  rewrite Hzero. cbn [Z.eqb]. rewrite Hsys.
  change (String.eqb conversation.ActionAssignUser
            conversation.ActionAssignTeam) with false.
  change (String.eqb conversation.ActionAssignUser
            conversation.ActionAssignUser) with true.
  cbv iota.
  change (fst (Atoi "42")) with 42.
  unfold conversation.UpdateConversationUserAssignee, conversation.UpdateAssignee.
  change (String.eqb conversation.AssigneeTypeUser
            conversation.AssigneeTypeUser) with true.
  cbv iota.
  unfold bind, log, emit, call, ret, conversation.BroadcastConversationUpdate,
    conversation.GetConversation, getDB. simpl.
  rewrite (Hok _ (UpdateConversationAssignedUser _ _)) by (intros ?; discriminate).
  simpl.
  unfold bind, log, emit, call, ret. simpl.
  rewrite (Hok _ (GetConversationStmt _ _)) by (intros ?; discriminate).
  simpl. rewrite lookup_alter_eq, Hconv. simpl.
  rewrite Hagent, Htmpl.
  unfold bind, log, emit, call, ret, conversation.RecordAssigneeUserChange,
    conversation.recordActivity. simpl.
  destruct (fails (env w) (S (S (step w))) (NotifierSend _)) eqn:Hsend; simpl.
  all: unfold bind, log, emit, call, ret; simpl.
  all: rewrite (Hok _ (InsertActivity _)) by (intros ?; discriminate); simpl.
  all: rewrite ?lookup_alter_eq, ?Hconv; simpl.
  all: repeat split; eauto.
  - eexists _, false. rewrite <- !app_assoc.
    split; [reflexivity|]. split; [reflexivity|]. intros _. simpl. tauto.
  - eexists _, true. rewrite <- !app_assoc.
    split; [reflexivity|]. split; [reflexivity|]. discriminate.
Qed.

Lemma ApplyAction_assign_user_42_witness :
  fst (conversation.ApplyAction exampleManager assignUser42 conversation7
         noUser (startWorld (notifierDownEnv 100) sweepDB)) = None
  /\ (exists c', conversations
                   (db (snd (conversation.ApplyAction exampleManager
                               assignUser42 conversation7 noUser
                               (startWorld (notifierDownEnv 100) sweepDB))))
                   !! UUID conversation7 = Some c'
                 /\ AssignedUserID c' = Some 42)
  /\ activities (db (snd (conversation.ApplyAction exampleManager assignUser42
                            conversation7 noUser
                            (startWorld (notifierDownEnv 100) sweepDB))))
     = activities (db (startWorld (notifierDownEnv 100) sweepDB))
       ++ [{| ActConversation := UUID conversation7;
              ActKind := ActAssignedUserChange;
              ActValue := VInt 42; ActActor := UserID systemUser |}]
  /\ exists (delta : list Event) (sent : bool),
       trace (snd (conversation.ApplyAction exampleManager assignUser42
                     conversation7 noUser
                     (startWorld (notifierDownEnv 100) sweepDB)))
       = trace (startWorld (notifierDownEnv 100) sweepDB) ++ delta
       /\ List.filter is_notifier_send delta
          = [EvCall (NotifierSend
                       {| UserIDs := [42];
                          NSubject := conversation.TmplConversationAssigned;
                          NContent := "You have been assigned 107";
                          Provider := ProviderEmail |}) sent]
       /\ (sent = false ->
           In (EvLog ErrorLevel "error sending assigned conversation email"
                 [("error",
                   VError (GoError ("sending notification message: "
                                    +:+ Error sendError)))]) delta).
Proof.
  apply (ApplyAction_assign_user_42 exampleManager conversation7 conversation7
           systemUser agent42 "You have been assigned 107"
           conversation.TmplConversationAssigned noUser
           (startWorld (notifierDownEnv 100) sweepDB)).
  - reflexivity.
  - reflexivity.
  - reflexivity.
  - reflexivity.
  - reflexivity.
  - intros n c Hc. destruct c; try reflexivity. exfalso. by eapply Hc.
Defined.

Example assign_user_with_notifier_down :
  let w := snd (conversation.ApplyAction exampleManager assignUser42
                  conversation7 noUser
                  (startWorld (notifierDownEnv 100) sweepDB)) in
  AssignedUserID <$> conversations (db w) !! "c-7" = Some (Some 42)
  /\ List.filter is_notifier_send (trace w)
     = [EvCall (NotifierSend
                  {| UserIDs := [42];
                     NSubject := conversation.TmplConversationAssigned;
                     NContent := "You have been assigned 107";
                     Provider := ProviderEmail |}) false]
  /\ map ActActor (activities (db w)) = [1].
Proof. vm_compute. repeat split. Qed.

(** ** Status changes *)

Lemma statusSet_after_update `{TimePkg} (uuid status : string) (until : Time)
  (actor : User) (c0 : Conversation) (w : World) (k : M (option error)) :
  conversations (db w) !! uuid = Some c0 ->
  fails (env w) (step w) (UpdateConversationStatusStmt uuid status until)
  = false ->
  keeps (fun d => exists c', conversations d !! uuid = Some c'
                             /\ Status c' = status
                             /\ SnoozedUntil c' = until) k ->
  (forall w1, exists delta : list Event, trace (snd (k w1)) = trace w1 ++ delta) ->
  statusSet
    (snd ((let! ok := call (UpdateConversationStatusStmt uuid status until) in
           if negb ok then
             log ErrorLevel "error updating conversation status"
               [("error", VError dbError)] ;;
             ret (Some (EnvelopeError GeneralError "Error updating status"))
           else k) w))
    uuid status until.
Proof.
  intros Hconv Hok Hkeeps Htrace. unfold bind, call. simpl. rewrite Hok. simpl.
  match goal with |- statusSet (snd (k ?x)) _ _ _ => set (w1 := x) end.
  split.
  - destruct (Htrace w1) as (delta & ->). subst w1. simpl.
    apply in_or_app. left. apply in_or_app. right. simpl. auto.
  - apply (Hkeeps w1). subst w1. simpl.
    exists (set_status status until c0).
    rewrite lookup_alter_eq, Hconv. auto.
Qed.

Lemma statusTail_keeps (uuid status : string) (until : Time) (actor : User) :
  keeps (fun d => exists c', conversations d !! uuid = Some c'
                             /\ Status c' = status
                             /\ SnoozedUntil c' = until)
    (let! err := conversation.RecordStatusChange status uuid actor in
     match err with
     | Some _ =>
         ret (Some (EnvelopeError GeneralError "Error recording status change"))
     | None =>
         conversation.BroadcastConversationUpdate uuid "status" (VString status) ;;
         ret None
     end).
Proof.
  unfold conversation.RecordStatusChange, conversation.recordActivity,
    conversation.BroadcastConversationUpdate.
  repeat keeps_step. apply keeps_call. intros now d Hd. exact Hd.
Qed.

Lemma statusTail_extends (uuid status : string) (actor : User) w1 :
  exists delta : list Event,
    trace (snd ((let! err := conversation.RecordStatusChange status uuid actor in
                 match err with
                 | Some _ =>
                     ret (Some (EnvelopeError GeneralError
                                  "Error recording status change"))
                 | None =>
                     conversation.BroadcastConversationUpdate uuid "status"
                       (VString status) ;;
                     ret None
                 end) w1))
    = trace w1 ++ delta.
Proof.
  unfold conversation.RecordStatusChange, conversation.recordActivity,
    conversation.BroadcastConversationUpdate, bind, call, emit, ret. simpl.
  destruct (negb (fails _ _ _)); simpl; eexists; rewrite <- ?app_assoc;
    reflexivity.
Qed.

(** C7. A status change to snoozed with an empty snooze duration returns a
    validation error and changes nothing; with a duration that parses to
    [d] it sets [snoozed_until] to the time of the call plus [d]; and a
    change to any other status sets [snoozed_until] to the zero time, which
    clears a pending snooze. *)
Theorem UpdateConversationStatus_snooze `{TimePkg} (m : conversation.Manager)
  (uuid : string) (statusID : Z) (status snoozeDur : string) (actor : User)
  (w : World) (effective : string) :
  effectiveStatus m statusID status = Ok effective ->
  (effective = conversation.StatusSnoozed -> snoozeDur = "" ->
   conversation.UpdateConversationStatus m uuid statusID status snoozeDur
     actor w
   = (Some (EnvelopeError InputError "Snooze duration is required"), w))
  /\ (effective = conversation.StatusSnoozed ->
      forall (d : Duration) (c0 : Conversation),
        snoozeDur <> "" ->
        ParseDuration snoozeDur = Some d ->
        conversations (db w) !! uuid = Some c0 ->
        statusUpdateAccepted w uuid conversation.StatusSnoozed
          (clock (env w) (step w) + d) ->
        statusSet
          (snd (conversation.UpdateConversationStatus m uuid statusID status
                  snoozeDur actor w))
          uuid conversation.StatusSnoozed (clock (env w) (step w) + d))
  /\ (effective <> conversation.StatusSnoozed ->
      forall c0 : Conversation,
        conversations (db w) !! uuid = Some c0 ->
        statusUpdateAccepted w uuid effective zeroTime ->
        statusSet
          (snd (conversation.UpdateConversationStatus m uuid statusID status
                  snoozeDur actor w))
          uuid effective zeroTime).
Proof.
  unfold effectiveStatus. intros Hst.
  unfold conversation.UpdateConversationStatus. rewrite Hst.
  split; [|split].
  - intros -> ->. reflexivity.
  - intros -> d c0 Hne Hparse Hconv Hok.
    change (String.eqb conversation.StatusSnoozed conversation.StatusSnoozed)
      with true.
    destruct (String.eqb_spec snoozeDur ""); [done|].
    cbn [andb]. cbv iota. rewrite Hparse.
    rewrite bind_run. unfold Now at 1 2. cbn [fst snd]. unfold Add.
    apply (statusSet_after_update uuid conversation.StatusSnoozed _ actor c0
             (tick w)).
    + exact Hconv.
    + apply Hok.
    + apply statusTail_keeps.
    + apply statusTail_extends.
  - intros Hne c0 Hconv Hok.
    destruct (String.eqb_spec effective conversation.StatusSnoozed); [done|].
    cbn [andb]. cbv iota.
    destruct (statusSet_after_update uuid effective zeroTime actor c0 w _
                Hconv (Hok _) (statusTail_keeps uuid effective zeroTime actor)
                (statusTail_extends uuid effective actor)) as [Hin Hrow].
    split; [exact Hin | exact Hrow].
Qed.

Lemma UpdateConversationStatus_snooze_witness :
  conversation.UpdateConversationStatus exampleManager "c-7" 2 "" "" systemUser
    (startWorld (calmEnv 100) sweepDB)
  = (Some (EnvelopeError InputError "Snooze duration is required"),
     startWorld (calmEnv 100) sweepDB)
  /\ statusSet
       (snd (conversation.UpdateConversationStatus exampleManager "c-7" 2 ""
               "2h" systemUser (startWorld (calmEnv 100) sweepDB)))
       "c-7" conversation.StatusSnoozed (100 + 2 * Hour)
  /\ statusSet
       (snd (conversation.UpdateConversationStatus exampleManager "c-7" 1 ""
               "" systemUser (startWorld (calmEnv 100) snoozedDB)))
       "c-7" "Open" zeroTime.
Proof.
  split; [|split].
  - apply (proj1 (UpdateConversationStatus_snooze exampleManager "c-7" 2 "" ""
                    systemUser (startWorld (calmEnv 100) sweepDB)
                    conversation.StatusSnoozed eq_refl)); reflexivity.
  - apply (proj1 (proj2 (UpdateConversationStatus_snooze exampleManager "c-7"
                           2 "" "2h" systemUser
                           (startWorld (calmEnv 100) sweepDB)
                           conversation.StatusSnoozed eq_refl))
             eq_refl (2 * Hour) conversation7).
    + discriminate.
    + reflexivity.
    + reflexivity.
    + intros n. reflexivity.
  - apply (proj2 (proj2 (UpdateConversationStatus_snooze exampleManager "c-7"
                           1 "" "" systemUser
                           (startWorld (calmEnv 100) snoozedDB)
                           "Open" eq_refl))
             ltac:(discriminate)
             (set_status conversation.StatusSnoozed 5000 conversation7)).
    + reflexivity.
    + intros n. reflexivity.
Defined.

Example snooze_two_hours :
  let w := snd (conversation.UpdateConversationStatus exampleManager "c-7" 2 ""
                  "2h" systemUser (startWorld (calmEnv 100) sweepDB)) in
  SnoozedUntil <$> conversations (db w) !! "c-7" = Some (100 + 2 * Hour)
  /\ Status <$> conversations (db w) !! "c-7" = Some "Snoozed".
Proof. vm_compute. split; reflexivity. Qed.

Example reopen_clears_snooze :
  let w := snd (conversation.UpdateConversationStatus exampleManager "c-7" 1 ""
                  "" systemUser (startWorld (calmEnv 100) snoozedDB)) in
  SnoozedUntil <$> conversations snoozedDB !! "c-7" = Some 5000
  /\ SnoozedUntil <$> conversations (db w) !! "c-7" = Some zeroTime
  /\ Status <$> conversations (db w) !! "c-7" = Some "Open".
Proof. vm_compute. repeat split; reflexivity. Qed.

(** ** The conversations list *)

(** C9. A conversations-list request whose page size is above the maximum
    (100) or below 1, or whose page is below 1, is rejected with an error
    before any database call: the world only gains the log line. A valid
    page and page size pass the validation, the query is built from the
    list types and the filters, and when it builds the transaction is
    begun. *)
Theorem GetConversations_validates_paging
  (BuildPaginatedQuery :
     string -> list Z -> conversation.PaginationOptions -> string ->
     list (string * list string) -> result (string * list Z))
  (selectRows : string -> list Z -> DB -> list Conversation)
  (m : conversation.Manager) (userID : Z) (teamIDs : list Z)
  (listTypes : list string) (order orderBy filters : string)
  (page pageSize : Z) (w : World) :
  (conversation.conversationsListMaxPageSize < pageSize \/ pageSize < 1
   \/ page < 1 ->
   exists e : error,
     conversation.makeConversationsListQuery BuildPaginatedQuery userID
       teamIDs listTypes (conversation.q_GetConversations m) order orderBy
       page pageSize filters = Err e
     /\ conversation.GetConversations BuildPaginatedQuery selectRows m userID
          teamIDs listTypes order orderBy filters page pageSize w
        = (conversation.Returns (Err (EnvelopeError GeneralError
                           (conversation.errorFetching m))),
           {| env := env w; step := step w; db := db w;
              trace := trace w
                       ++ [EvLog ErrorLevel "error making conversations query"
                             [("error", VError e)]] |}))
  /\ (1 <= pageSize <= conversation.conversationsListMaxPageSize ->
      1 <= page ->
      conversation.makeConversationsListQuery BuildPaginatedQuery userID
        teamIDs listTypes (conversation.q_GetConversations m) order orderBy
        page pageSize filters
      = buildListQuery BuildPaginatedQuery userID teamIDs
          listTypes (conversation.q_GetConversations m) (defaultOrder order)
          (defaultOrderBy orderBy) page pageSize (defaultFilters filters)
      /\ forall query qArgs,
           buildListQuery BuildPaginatedQuery userID teamIDs
             listTypes (conversation.q_GetConversations m) (defaultOrder order)
             (defaultOrderBy orderBy) page pageSize (defaultFilters filters)
           = Ok (query, qArgs) ->
           exists (ok : bool) (rest : list Event),
             trace (snd (conversation.GetConversations BuildPaginatedQuery
                           selectRows m userID teamIDs listTypes order orderBy
                           filters page pageSize w))
             = trace w ++ EvCall BeginTxx ok :: rest).
Proof.
  unfold conversation.conversationsListMaxPageSize. split.
  - intros Hbad.
    unfold conversation.GetConversations,
      conversation.makeConversationsListQuery,
      conversation.conversationsListMaxPageSize.
    destruct (Z.ltb_spec 100 pageSize); cbn [orb].
    { eexists. split; reflexivity. }
    destruct (Z.ltb_spec pageSize 1); cbn [orb].
    { eexists. split; reflexivity. }
    destruct (Z.ltb_spec page 1); [|lia].
    eexists. split; reflexivity.
  - intros Hsize Hpage.
    assert (Hmake :
      conversation.makeConversationsListQuery BuildPaginatedQuery userID
        teamIDs listTypes (conversation.q_GetConversations m) order orderBy
        page pageSize filters
      = buildListQuery BuildPaginatedQuery userID teamIDs
          listTypes (conversation.q_GetConversations m) (defaultOrder order)
          (defaultOrderBy orderBy) page pageSize (defaultFilters filters)).
    { unfold conversation.makeConversationsListQuery,
        conversation.conversationsListMaxPageSize.
      destruct (Z.ltb_spec 100 pageSize); [lia|].
      destruct (Z.ltb_spec pageSize 1); [lia|].
      destruct (Z.ltb_spec page 1); [lia|]. reflexivity. }
    split; [exact Hmake|].
    intros query qArgs Hbuild.
    unfold conversation.GetConversations. rewrite Hmake, Hbuild.
    unfold bind, call, getDB, log, emit, ret. simpl.
    destruct (negb (fails (env w) (step w) BeginTxx)); simpl.
    + destruct (negb (fails _ _ (TxSelect _ _))); simpl;
        eexists _, _; rewrite <- ?app_assoc; reflexivity.
    + eexists _, _. reflexivity.
Qed.

Lemma GetConversations_validates_paging_witness :
  (exists e : error,
     conversation.makeConversationsListQuery paginate 0 []
       [conversation.AllConversations]
       (conversation.q_GetConversations exampleManager) "" "" 1 101 ""
     = Err e
     /\ conversation.GetConversations paginate allRows exampleManager 0 []
          [conversation.AllConversations] "" "" "" 1 101
          (startWorld (calmEnv 100) sweepDB)
        = (conversation.Returns (Err (EnvelopeError GeneralError
                           (conversation.errorFetching exampleManager))),
           {| env := calmEnv 100; step := 0%nat; db := sweepDB;
              trace := [EvLog ErrorLevel "error making conversations query"
                          [("error", VError e)]] |}))
  /\ (exists (ok : bool) (rest : list Event),
        trace (snd (conversation.GetConversations paginate allRows
                      exampleManager 0 [] [conversation.AllConversations]
                      "" "" "" 2 50 (startWorld (calmEnv 100) sweepDB)))
        = EvCall BeginTxx ok :: rest).
Proof.
  split.
  - apply (proj1 (GetConversations_validates_paging paginate allRows
                    exampleManager 0 [] [conversation.AllConversations]
                    "" "" "" 1 101 (startWorld (calmEnv 100) sweepDB))).
    left. reflexivity.
  - destruct (proj2 (GetConversations_validates_paging paginate allRows
                       exampleManager 0 [] [conversation.AllConversations]
                       "" "" "" 2 50 (startWorld (calmEnv 100) sweepDB)))
      as [_ Hquery].
    + unfold conversation.conversationsListMaxPageSize. lia.
    + lia.
    + eapply Hquery. reflexivity.
Defined.

Example list_page_two :
  fst (conversation.GetConversations paginate allRows exampleManager 0 []
         [conversation.AllConversations] "" "" "" 2 50
         (startWorld (calmEnv 100) sweepDB))
  = conversation.Returns (Ok [conversation7])
  /\ conversation.makeConversationsListQuery paginate 7 [3; 4]
       [conversation.AssignedConversations;
        conversation.TeamUnassignedConversations]
       ("SELECT * FROM conversations WHERE 1=1 ", " ") "" "" 2 50 ""
     = Ok ("SELECT * FROM conversations WHERE 1=1 AND (conversations.assigned_user_id = $1 OR (conversations.assigned_team_id IN ($2,$3) AND conversations.assigned_user_id IS NULL)) ORDER BY last_message_at DESC LIMIT 50 OFFSET 50",
           [7; 3; 4]).
Proof. vm_compute. split; reflexivity. Qed.
(** * More of the code

    Properties of [internal/sla/sla.go],
    [internal/conversation/conversation.go] and [cmd/media.go] besides
    those above. *)

Lemma evaluateSLA_marks_any sla mt w :
  exists delta : list Event,
    trace (snd (sla.evaluateSLA sla w)) = trace w ++ delta
    /\ (marks (ID sla) (slaTypeOf mt) delta = []
        \/ terminalOf mt sla = false
           /\ exists n, (step w <= n)%nat
                /\ marks (ID sla) (slaTypeOf mt) delta
                   = expected_marks (deadlineOf mt sla) (actualOf mt sla)
                       (clock (env w) n)).
Proof.
  destruct (terminalOf mt sla) eqn:Hterm.
  { destruct (evaluateSLA_silent_terminal mt sla Hterm w) as (_ & _ & d & Ht & Hm).
    exists d. auto. }
  destruct mt.
  { destruct (evaluateSLA_marks sla FirstResponseMetric w Hterm I)
      as (n & d & Hn & Ht & Hm).
    exists d. split; [exact Ht|]. right. split; [reflexivity|]. eauto. }
  rewrite evaluateSLA_by_metric, bind_run.
  set (w0 := snd (log Debug "evaluating SLA" _ w)).
  assert (Hw0 : env w0 = env w /\ step w0 = step w
                /\ exists e, trace w0 = trace w ++ [e]
                             /\ marks (ID sla) (slaTypeOf ResolutionMetric) [e] = [])
    by (repeat split; eexists; split; reflexivity).
  destruct Hw0 as (He0 & Hs0 & e0 & Ht0 & Hm0). clearbody w0.
  rewrite bind_run.
  destruct (checkMetric_silent_other ResolutionMetric FirstResponseMetric sla
              ltac:(discriminate) w0) as (He1 & Hs1 & d1 & Ht1 & Hm1).
  set (w1 := snd (checkMetric FirstResponseMetric sla w0)) in *.
  destruct (fst (checkMetric FirstResponseMetric sla w0)) as [e|].
  - exists ([e0] ++ d1). split.
    + cbn [ret snd]. rewrite Ht1, Ht0, <- app_assoc. reflexivity.
    + left. rewrite marks_app, Hm0, Hm1. reflexivity.
  - rewrite bind_run.
    destruct (checkMetric_run ResolutionMetric sla w1 Hterm)
      as (He2 & Hs2 & d2 & Ht2 & Hm2).
    set (w2 := snd (checkMetric ResolutionMetric sla w1)) in *.
    destruct (afterMetric_silent (ID sla) (slaTypeOf ResolutionMetric) sla
                (fst (checkMetric ResolutionMetric sla w1)) w2)
      as (_ & _ & d3 & Ht3 & Hm3).
    exists ([e0] ++ d1 ++ d2 ++ d3). split.
    + rewrite Ht3, Ht2, Ht1, Ht0, <- !app_assoc. reflexivity.
    + right. split; [reflexivity|]. exists (step w1). split; [lia|].
      rewrite !marks_app, Hm0, Hm1, Hm2, Hm3, He1, He0, app_nil_r. reflexivity.
Qed.

(** X1. One evaluation of an applied SLA executes at most one mark
    ([update-met] or [update-breach]) for each metric, and never an
    unfounded one: a metric is marked met only if it was open, its
    deadline is set and it was completed at or before the deadline; it is
    marked breached only if it was open, its deadline is set and it was
    completed after the deadline or, not completed, a clock reading of
    the evaluation is after the deadline. *)
Theorem evaluateSLA_marks_are_justified (sla : AppliedSLA) (mt : Metric)
  (w : World) :
  exists delta : list Event,
    trace (snd (sla.evaluateSLA sla w)) = trace w ++ delta
    /\ (length (marks (ID sla) (slaTypeOf mt) delta) <= 1)%nat
    /\ mark_justified mt sla w (marks (ID sla) (slaTypeOf mt) delta).
Proof.
  destruct (evaluateSLA_marks_any sla mt w) as (d & Ht & [Hm | (Hterm & n & Hn & Hm)]);
    exists d; (split; [exact Ht|]); rewrite Hm; [simpl; auto|].
  unfold expected_marks, After.
  destruct (IsZero (deadlineOf mt sla)) eqn:Hz; [simpl; auto|].
  destruct (actualOf mt sla) as [t|] eqn:Ha.
  - destruct (Z.ltb_spec (deadlineOf mt sla) t); simpl; rewrite ?Ha;
      (split; [lia|]); repeat split; eauto.
  - destruct (Z.ltb_spec (deadlineOf mt sla) (clock (env w) n)); simpl;
      rewrite ?Ha; (split; [lia|]); repeat split; eauto.
Qed.

(** X2. An evaluation leaves a metric alone, whatever its timestamps and
    whatever the store does, when its deadline is zero, or when it has no
    actual-completion timestamp and the clock never reads after the
    deadline: the metric stays pending. *)
Theorem evaluateSLA_leaves_pending (sla : AppliedSLA) (mt : Metric) (w : World) :
  IsZero (deadlineOf mt sla) = true
  \/ (actualOf mt sla = None
      /\ forall n, (step w <= n)%nat -> clock (env w) n <= deadlineOf mt sla) ->
  exists delta : list Event,
    trace (snd (sla.evaluateSLA sla w)) = trace w ++ delta
    /\ marks (ID sla) (slaTypeOf mt) delta = [].
Proof.
  intros Hcase.
  destruct (evaluateSLA_marks_any sla mt w) as (d & Ht & [Hm | (Hterm & n & Hn & Hm)]);
    exists d; (split; [exact Ht|]); [exact Hm|].
  rewrite Hm. unfold expected_marks, After.
  destruct Hcase as [-> | [-> Hclock]]; [reflexivity|].
  destruct (IsZero _); [reflexivity|].
  specialize (Hclock n Hn).
  destruct (Z.ltb_spec (deadlineOf mt sla) (clock (env w) n)); [lia | reflexivity].
Qed.
Lemma evaluateSLA_leaves_pending_witness :
  exists delta : list Event,
    trace (snd (sla.evaluateSLA overdueSnapshot (startWorld (frozenEnv 100) twoOpenDB)))
    = trace (startWorld (frozenEnv 100) twoOpenDB) ++ delta
    /\ marks (ID overdueSnapshot) (slaTypeOf ResolutionMetric) delta = [].
Proof.
  apply (evaluateSLA_leaves_pending overdueSnapshot ResolutionMetric
           (startWorld (frozenEnv 100) twoOpenDB)).
  right. split; [reflexivity|]. intros n _. simpl. lia.
Defined.

Ltac stop_leaf :=
  eexists; rewrite <- ?app_assoc; split; [reflexivity|];
  first [ reflexivity
        | eexists _, _; split; [simpl; reflexivity | reflexivity]
        | eexists [_], _; split; [simpl; reflexivity | reflexivity]
        | eexists [_; _], _; split; [simpl; reflexivity | reflexivity]
        | eexists [_; _; _], _; split; [simpl; reflexivity | reflexivity] ].

Lemma stops_checkMetric mt sla : stops_at_failure (checkMetric mt sla).
Proof.
  intros w. unfold checkMetric, sla.checkDeadline.
  destruct (negb (Valid (breachedAtOf mt sla)) && negb (Valid (metAtOf mt sla)));
    [|exists []; rewrite app_nil_r; split; reflexivity].
  unfold bind, log, emit, Now, call, ret. simpl.
  destruct (IsZero (deadlineOf mt sla)); simpl; [stop_leaf|].
  destruct (actualOf mt sla) as [t|]; simpl.
  - destruct (After t (deadlineOf mt sla)); simpl;
      destruct (negb (fails _ _ _)); simpl; stop_leaf.
  - destruct (After _ (deadlineOf mt sla)); simpl;
      [destruct (negb (fails _ _ _)); simpl|]; stop_leaf.
Qed.

Lemma stops_seq (c1 c2 : M (option error)) :
  stops_at_failure c1 -> stops_at_failure c2 ->
  stops_at_failure (let! err := c1 in
                    match err with
                    | Some e => ret (Some e)
                    | None => c2
                    end).
Proof.
  intros H1 H2 w. rewrite bind_run.
  destruct (H1 w) as (d1 & Ht1 & Hc1).
  destruct (fst (c1 w)) as [e|].
  - exists d1. auto.
  - destruct (H2 (snd (c1 w))) as (d2 & Ht2 & Hc2).
    exists (d1 ++ d2). rewrite Ht2, Ht1, app_assoc. split; [reflexivity|].
    destruct (fst (c2 _)).
    + destruct Hc2 as (pre & c0 & -> & Hpre). exists (d1 ++ pre), c0.
      rewrite app_assoc, List.filter_app, Hc1, Hpre. auto.
    + rewrite List.filter_app, Hc1, Hc2. reflexivity.
Qed.

Lemma finishEvaluation_run sla w :
  exists delta : list Event,
    trace (snd (finishEvaluation sla w)) = trace w ++ delta
    /\ match fst (finishEvaluation sla w) with
       | None => delta = [EvCall (SetNextSLADeadline (ConversationID sla)) true;
                          EvCall (UpdateSLAStatus (ID sla)) true]
       | Some _ =>
           delta = [EvCall (SetNextSLADeadline (ConversationID sla)) false]
           \/ delta = [EvCall (SetNextSLADeadline (ConversationID sla)) true;
                       EvCall (UpdateSLAStatus (ID sla)) false]
       end.
Proof.
  unfold finishEvaluation, bind, call, ret. simpl.
  destruct (negb (fails _ _ (SetNextSLADeadline _))); simpl.
  - destruct (negb (fails _ _ (UpdateSLAStatus _))); simpl;
      eexists; rewrite <- ?app_assoc; (split; [reflexivity|]); auto.
  - eexists; split; [reflexivity|]; auto.
Qed.

Lemma stops_finishEvaluation sla : stops_at_failure (finishEvaluation sla).
Proof.
  intros w. destruct (finishEvaluation_run sla w) as (d & Ht & Hd).
  exists d. split; [exact Ht|].
  destruct (fst _); [|by subst d].
  destruct Hd as [-> | ->].
  - by exists [], (SetNextSLADeadline (ConversationID sla)).
  - by exists [EvCall (SetNextSLADeadline (ConversationID sla)) true],
         (UpdateSLAStatus (ID sla)).
Qed.

Lemma checkMetric_refreshes_nothing mt sla w :
  exists delta : list Event,
    trace (snd (checkMetric mt sla w)) = trace w ++ delta
    /\ List.filter is_status_refresh delta = [].
Proof.
  unfold checkMetric, sla.checkDeadline.
  destruct (negb (Valid (breachedAtOf mt sla)) && negb (Valid (metAtOf mt sla)));
    [|exists []; rewrite app_nil_r; repeat split; reflexivity].
  unfold bind, log, emit, Now, call, ret. simpl.
  repeat (match goal with
          | |- context [if ?b then _ else _] => destruct b
          | |- context [match ?x with Some _ => _ | None => _ end] => destruct x
          end; simpl);
    eexists; rewrite <- ?app_assoc; (split; [reflexivity|]); reflexivity.
Qed.

(** X3. [evaluateSLA] stops at its first failed statement: it returns an
    error exactly when its last event is a failed call, no call failed
    before it, and the status of the applied SLA was not refreshed; it
    returns no error exactly when no call failed, and then it ends with
    the two refresh statements, the next SLA deadline of the conversation
    first and the status of the applied SLA second, both successful. *)
Theorem evaluateSLA_stops_at_first_failure (sla : AppliedSLA) (w : World) :
  exists delta : list Event,
    trace (snd (sla.evaluateSLA sla w)) = trace w ++ delta
    /\ match fst (sla.evaluateSLA sla w) with
       | None =>
           List.filter is_failed_call delta = []
           /\ refreshes sla delta
       | Some _ =>
           exists (pre : list Event) (c0 : Call),
             delta = pre ++ [EvCall c0 false]
             /\ List.filter is_failed_call pre = []
             /\ List.filter is_status_refresh pre = []
       end.
Proof.
  rewrite evaluateSLA_by_metric, bind_run.
  set (w0 := snd (log Debug "evaluating SLA" _ w)).
  set (e0 := EvLog Debug "evaluating SLA"
               [("conversation_id", VInt (ConversationID sla));
                ("applied_sla_id", VInt (ID sla))]).
  assert (Ht0 : trace w0 = trace w ++ [e0]) by reflexivity.
  clearbody w0.
  rewrite bind_run.
  destruct (stops_checkMetric FirstResponseMetric sla w0) as (d1 & Ht1 & Hc1).
  destruct (checkMetric_refreshes_nothing FirstResponseMetric sla w0)
    as (d1' & Ht1' & Hs1).
  rewrite Ht1 in Ht1'. apply app_inv_head in Ht1'. subst d1'.
  set (w1 := snd (checkMetric FirstResponseMetric sla w0)) in *.
  destruct (fst (checkMetric FirstResponseMetric sla w0)) as [e|].
  { exists (e0 :: d1). cbn [ret fst snd]. rewrite Ht1, Ht0, <- app_assoc.
    split; [reflexivity|].
    destruct Hc1 as (pre & c0 & -> & Hpre). exists (e0 :: pre), c0.
    split; [reflexivity|]. rewrite List.filter_app in Hs1.
    apply app_eq_nil in Hs1 as [Hs1 _]. simpl. auto. }
  rewrite bind_run.
  destruct (stops_checkMetric ResolutionMetric sla w1) as (d2 & Ht2 & Hc2).
  destruct (checkMetric_refreshes_nothing ResolutionMetric sla w1)
    as (d2' & Ht2' & Hs2).
  rewrite Ht2 in Ht2'. apply app_inv_head in Ht2'. subst d2'.
  set (w2 := snd (checkMetric ResolutionMetric sla w1)) in *.
  destruct (fst (checkMetric ResolutionMetric sla w1)) as [e|].
  { exists (e0 :: d1 ++ d2). cbn [ret fst snd].
    rewrite Ht2, Ht1, Ht0, <- !app_assoc.
    split; [reflexivity|].
    destruct Hc2 as (pre & c0 & -> & Hpre). exists (e0 :: d1 ++ pre), c0.
    split; [simpl; by rewrite <- ?app_assoc|]. rewrite List.filter_app in Hs2.
    apply app_eq_nil in Hs2 as [Hs2 _]. simpl.
    by rewrite !List.filter_app, Hc1, Hpre, Hs1, Hs2. }
  destruct (finishEvaluation_run sla w2) as (d3 & Ht3 & Hd3).
  exists (e0 :: d1 ++ d2 ++ d3). rewrite Ht3, Ht2, Ht1, Ht0, <- !app_assoc.
  split; [reflexivity|].
  destruct (fst (finishEvaluation sla w2)).
  - destruct Hd3 as [-> | ->].
    + exists (e0 :: d1 ++ d2), (SetNextSLADeadline (ConversationID sla)).
      split; [simpl; by rewrite <- ?app_assoc|]. simpl.
      by rewrite !List.filter_app, Hc1, Hc2, Hs1, Hs2.
    + exists (e0 :: d1 ++ d2 ++ [EvCall (SetNextSLADeadline (ConversationID sla)) true]),
        (UpdateSLAStatus (ID sla)).
      split; [simpl; by rewrite <- ?app_assoc|]. simpl.
      by rewrite !List.filter_app, Hc1, Hc2, Hs1, Hs2.
  - subst d3. split.
    + simpl. by rewrite !List.filter_app, Hc1, Hc2.
    + exists (e0 :: d1 ++ d2). simpl. by rewrite <- ?app_assoc.
Qed.

Lemma quiet_ret P {A} (a : A) : quiet P (ret a).
Proof. intros w. exists []. by rewrite app_nil_r. Qed.

Lemma quiet_bind P {A B} (c : M A) (k : A -> M B) :
  quiet P c -> (forall a, quiet P (k a)) -> quiet P (bind c k).
Proof.
  intros Hc Hk w. rewrite bind_run.
  destruct (Hc w) as (d1 & Ht1 & Hf1).
  destruct (Hk (fst (c w)) (snd (c w))) as (d2 & Ht2 & Hf2).
  exists (d1 ++ d2). rewrite Ht2, Ht1, app_assoc, List.filter_app, Hf1, Hf2. done.
Qed.

Lemma quiet_emit P e : P e = false -> quiet P (emit e).
Proof. intros He w. exists [e]. simpl. by rewrite He. Qed.

Lemma quiet_log P lvl msg fields :
  P (EvLog lvl msg fields) = false -> quiet P (log lvl msg fields).
Proof. apply quiet_emit. Qed.

Lemma quiet_Now P : quiet P Now.
Proof. intros w. exists []. by rewrite app_nil_r. Qed.

Lemma quiet_getDB P : quiet P getDB.
Proof. intros w. exists []. by rewrite app_nil_r. Qed.

Lemma quiet_call P c :
  (forall ok, P (EvCall c ok) = false) -> quiet P (call c).
Proof. intros Hc w. eexists [_]. simpl. by rewrite Hc. Qed.

Create HintDb quiet.
#[local] Hint Resolve quiet_ret quiet_Now quiet_getDB : quiet.

Ltac quiet_step :=
  match goal with
  | |- quiet _ (bind _ _) => apply quiet_bind; [| intros ?]
  | |- quiet _ (if ?b then _ else _) => destruct b eqn:?
  | |- quiet _ (match ?x with _ => _ end) => destruct x eqn:?
  | |- quiet _ (log _ _ _) => apply quiet_log; reflexivity
  | |- quiet _ (emit _) => apply quiet_emit; reflexivity
  | |- quiet _ (call _) => apply quiet_call; intros ?; reflexivity
  | |- quiet _ _ => solve [auto with quiet]
  end.

Lemma steady_ret {A} (a : A) : steady (ret a).
Proof. by intros w. Qed.

Lemma steady_bind {A B} (c : M A) (k : A -> M B) :
  steady c -> (forall a, steady (k a)) -> steady (bind c k).
Proof. intros Hc Hk w. rewrite bind_run, Hk. apply Hc. Qed.

Lemma steady_emit e : steady (emit e).
Proof. by intros w. Qed.

Lemma steady_log lvl msg fields : steady (log lvl msg fields).
Proof. by intros w. Qed.

Lemma steady_Now : steady Now.
Proof. by intros w. Qed.

Lemma steady_getDB : steady getDB.
Proof. by intros w. Qed.

Lemma steady_call c : steady (call c).
Proof. by intros w. Qed.

Create HintDb steady.
#[local] Hint Resolve steady_ret steady_emit steady_log steady_Now steady_getDB
  steady_call : steady.

Ltac steady_step :=
  match goal with
  | |- steady (bind _ _) => apply steady_bind; [| intros ?]
  | |- steady (if ?b then _ else _) => destruct b eqn:?
  | |- steady (match ?x with _ => _ end) => destruct x eqn:?
  | |- steady _ => solve [auto with steady]
  end.

Lemma call_fst c w : fst (call c w) = negb (fails (env w) (step w) c).
Proof. reflexivity. Qed.

Lemma call_trace c w :
  trace (snd (call c w)) = trace w ++ [EvCall c (negb (fails (env w) (step w) c))].
Proof. reflexivity. Qed.

Lemma call_db_failed c w :
  fails (env w) (step w) c = true -> db (snd (call c w)) = db w.
Proof. intros Hf. unfold call. cbn [snd db]. by rewrite Hf. Qed.

Lemma keeps_Get (P : DB -> Prop) id : keeps P (sla.Get id).
Proof.
  unfold sla.Get. repeat keeps_step; apply keeps_call; intros now d Hd; exact Hd.
Qed.

Lemma keeps_getBusinessHoursAndTimezone (P : DB -> Prop) m id :
  keeps P (sla.getBusinessHoursAndTimezone m id).
Proof. unfold sla.getBusinessHoursAndTimezone. repeat keeps_step. Qed.

Lemma keeps_CalculateDeadlines `{TimePkg} (P : DB -> Prop) m start pol team :
  keeps P (sla.CalculateDeadlines m start pol team).
Proof.
  unfold sla.CalculateDeadlines.
  repeat keeps_step; auto using keeps_Get, keeps_getBusinessHoursAndTimezone.
Qed.

Lemma quiet_Get id : quiet is_insert (sla.Get id).
Proof. unfold sla.Get. repeat quiet_step. Qed.

Lemma quiet_getBusinessHoursAndTimezone P m id :
  (forall lvl msg fields, P (EvLog lvl msg fields) = false) ->
  quiet P (sla.getBusinessHoursAndTimezone m id).
Proof.
  intros HP. unfold sla.getBusinessHoursAndTimezone.
  repeat quiet_step; apply quiet_log, HP.
Qed.

Lemma quiet_CalculateDeadlines `{TimePkg} m start pol team :
  quiet is_insert (sla.CalculateDeadlines m start pol team).
Proof.
  unfold sla.CalculateDeadlines.
  repeat quiet_step; auto using quiet_Get, quiet_getBusinessHoursAndTimezone.
Qed.

Lemma steady_Get id : steady (sla.Get id).
Proof. unfold sla.Get. repeat steady_step. Qed.

Lemma steady_getBusinessHoursAndTimezone m id :
  steady (sla.getBusinessHoursAndTimezone m id).
Proof. unfold sla.getBusinessHoursAndTimezone. repeat steady_step. Qed.

Lemma steady_CalculateDeadlines `{TimePkg} m start pol team :
  steady (sla.CalculateDeadlines m start pol team).
Proof.
  unfold sla.CalculateDeadlines.
  repeat steady_step; auto using steady_Get, steady_getBusinessHoursAndTimezone.
Qed.

(** X5. [sla.ApplySLA] inserts an applied SLA only with computed
    deadlines: when [CalculateDeadlines] fails it returns that error,
    executes no insert and leaves the tables as they were; otherwise it
    executes exactly one insert, for the conversation and the policy
    given, carrying the two deadlines [CalculateDeadlines] returned; when
    that insert fails the error is "Error applying SLA" and the tables
    are as they were. *)
Theorem ApplySLA_inserts_computed_deadlines `{TimePkg} (m : sla.Manager) (start : Time)
  (conversationID assignedTeamID slaPolicyID : Z) (w : World) :
  exists delta : list Event,
    trace (snd (sla.ApplySLA m start conversationID assignedTeamID slaPolicyID w))
    = trace w ++ delta
    /\ match fst (sla.CalculateDeadlines m start slaPolicyID assignedTeamID w) with
       | Err e =>
           fst (sla.ApplySLA m start conversationID assignedTeamID slaPolicyID w)
           = Err e
           /\ List.filter is_insert delta = []
           /\ db (snd (sla.ApplySLA m start conversationID assignedTeamID
                         slaPolicyID w)) = db w
       | Ok d =>
           exists ok : bool,
             List.filter is_insert delta
             = [EvCall (ApplySLAStmt conversationID slaPolicyID
                          (FirstResponse d) (Resolution d)) ok]
             /\ (ok = false ->
                 fst (sla.ApplySLA m start conversationID assignedTeamID
                        slaPolicyID w)
                 = Err (EnvelopeError GeneralError "Error applying SLA")
                 /\ db (snd (sla.ApplySLA m start conversationID assignedTeamID
                               slaPolicyID w)) = db w)
       end.
Proof.
  unfold sla.ApplySLA. rewrite bind_run.
  destruct (quiet_CalculateDeadlines m start slaPolicyID assignedTeamID w)
    as (d1 & Ht1 & Hf1).
  pose proof (keeps_CalculateDeadlines (fun d => d = db w) m start slaPolicyID
                assignedTeamID w eq_refl) as Hdb.
  set (w1 := snd (sla.CalculateDeadlines m start slaPolicyID assignedTeamID w)) in *.
  destruct (fst (sla.CalculateDeadlines m start slaPolicyID assignedTeamID w))
    as [d|e].
  - rewrite bind_run, call_fst.
    pose proof (call_trace (ApplySLAStmt conversationID slaPolicyID
                              (FirstResponse d) (Resolution d)) w1) as Htc.
    pose proof (call_db_failed (ApplySLAStmt conversationID slaPolicyID
                                  (FirstResponse d) (Resolution d)) w1) as Hdc.
    set (w2 := snd (call _ w1)) in *.
    destruct (fails (env w1) (step w1) _) eqn:Hfail; cbn [negb].
    + eexists. cbn [bind log emit ret fst snd trace]. rewrite Htc, Ht1, <- !app_assoc.
      split; [reflexivity|]. exists false.
      rewrite !List.filter_app, Hf1. split; [reflexivity|]. intros _.
      split; [reflexivity|]. cbn [db]. rewrite Hdc by reflexivity. exact Hdb.
    + destruct (quiet_Get slaPolicyID w2) as (d2 & Ht2 & Hf2).
      eexists. rewrite Ht2, Htc, Ht1, <- !app_assoc.
      split; [reflexivity|]. exists true.
      rewrite !List.filter_app, Hf1, Hf2. split; [reflexivity | discriminate].
  - exists d1. cbn [ret fst snd]. auto.
Qed.
(** X6. [sla.ApplySLA] can return an error after the applied SLA was
    inserted: when the insert succeeds and the read of the policy that
    follows it fails, the result is the error "Error fetching SLA" while
    the insert is on the trace as succeeded and has taken effect. *)
Theorem ApplySLA_can_fail_after_the_insert `{TimePkg} (m : sla.Manager)
  (start : Time) (conversationID assignedTeamID slaPolicyID : Z) (w : World)
  (d : Deadlines) (n : nat) :
  fst (sla.CalculateDeadlines m start slaPolicyID assignedTeamID w) = Ok d ->
  step (snd (sla.CalculateDeadlines m start slaPolicyID assignedTeamID w)) = n ->
  fails (env w) n
    (ApplySLAStmt conversationID slaPolicyID (FirstResponse d) (Resolution d))
  = false ->
  fails (env w) (S n) (GetSLA slaPolicyID) = true ->
  fst (sla.ApplySLA m start conversationID assignedTeamID slaPolicyID w)
  = Err (EnvelopeError GeneralError "Error fetching SLA")
  /\ db (snd (sla.ApplySLA m start conversationID assignedTeamID slaPolicyID w))
     = perform (clock (env w) n)
         (ApplySLAStmt conversationID slaPolicyID (FirstResponse d)
            (Resolution d)) (db w)
  /\ exists delta : list Event,
       trace (snd (sla.ApplySLA m start conversationID assignedTeamID
                     slaPolicyID w)) = trace w ++ delta
       /\ List.filter is_insert delta
          = [EvCall (ApplySLAStmt conversationID slaPolicyID (FirstResponse d)
                       (Resolution d)) true].
Proof.
  intros Hd Hn Hins Hget. unfold sla.ApplySLA. rewrite bind_run.
  destruct (quiet_CalculateDeadlines m start slaPolicyID assignedTeamID w)
    as (d1 & Ht1 & Hf1).
  pose proof (keeps_CalculateDeadlines (fun d => d = db w) m start slaPolicyID
                assignedTeamID w eq_refl) as Hdb.
  pose proof (steady_CalculateDeadlines m start slaPolicyID assignedTeamID w)
    as Henv.
  set (w1 := snd (sla.CalculateDeadlines m start slaPolicyID assignedTeamID w)) in *.
  rewrite Hd.
  unfold sla.Get, bind, call, getDB, log, emit, ret. cbn [fst snd env step db trace].
  rewrite Henv, Hn, Hins. cbn [negb fst snd env step db trace].
  rewrite Hget. cbn [negb fst snd env step db trace].
  split; [reflexivity|]. split; [by rewrite Hdb|].
  eexists. rewrite Ht1, <- !app_assoc. split; [reflexivity|].
  rewrite !List.filter_app, Hf1. reflexivity.
Qed.

Lemma ApplySLA_can_fail_after_the_insert_witness :
  fst (sla.ApplySLA exampleSLAManager 1000 9 0 1
         (startWorld (failsAt 1000 2) policyDB))
  = Err (EnvelopeError GeneralError "Error fetching SLA")
  /\ applied_slas
       (db (snd (sla.ApplySLA exampleSLAManager 1000 9 0 1
                   (startWorld (failsAt 1000 2) policyDB)))) !! 1
     = Some {| row_conversation_id := 9; row_sla_policy_id := 1;
               row_first_response_deadline_at := 1000 + 1 * Hour;
               row_resolution_deadline_at := zeroTime;
               row_first_response_breached_at := None;
               row_first_response_met_at := None;
               row_resolution_breached_at := None;
               row_resolution_met_at := None |}.
Proof.
  destruct (ApplySLA_can_fail_after_the_insert exampleSLAManager 1000 9 0 1
              (startWorld (failsAt 1000 2) policyDB)
              {| FirstResponse := 1000 + 1 * Hour; Resolution := zeroTime |}
              1%nat)
    as (Hr & Hdb & _); [reflexivity..|].
  split; [exact Hr|]. rewrite Hdb. reflexivity.
Defined.

(** The deadlines [CalculateDeadlines] returns are those of the two
    durations of the policy it read, in the calendar and zone it
    resolved. *)
Lemma CalculateDeadlines_value `{TimePkg} m start pol team w d :
  fst (sla.CalculateDeadlines m start pol team w) = Ok d ->
  exists bh tz p,
    fst (sla.getBusinessHoursAndTimezone m team w) = Ok (bh, tz)
    /\ sla_policies (db w) !! pol = Some p
    /\ sla.calculateDeadline start bh tz (FirstResponseTime p)
       = Ok (FirstResponse d)
    /\ sla.calculateDeadline start bh tz (ResolutionTime p) = Ok (Resolution d).
Proof.
  unfold sla.CalculateDeadlines. rewrite bind_run.
  pose proof (keeps_getBusinessHoursAndTimezone (fun d => d = db w) m team w
                eq_refl) as Hdb.
  set (w1 := snd (sla.getBusinessHoursAndTimezone m team w)) in *.
  destruct (fst (sla.getBusinessHoursAndTimezone m team w)) as [[bh tz]|e];
    [|discriminate].
  unfold sla.Get, bind, call, getDB, log, emit, ret.
  cbn [fst snd env step db trace].
  simpl in Hdb.
  destruct (fails (env w1) (step w1) (GetSLA pol));
    cbn [negb fst snd perform env step db trace]; [discriminate|].
  rewrite Hdb.
  destruct (sla_policies (db w) !! pol) as [p|] eqn:Hp; [|discriminate].
  cbn [fst snd].
  destruct (sla.calculateDeadline start bh tz (FirstResponseTime p)) as [fr|] eqn:Hfr;
    [|discriminate].
  destruct (sla.calculateDeadline start bh tz (ResolutionTime p)) as [res|] eqn:Hres;
    [|discriminate].
  intros [= <-]. exists bh, tz, p. auto.
Qed.

(** X7. An empty duration disables a metric: when a policy leaves the
    duration of a metric empty, the deadline [CalculateDeadlines] returns
    for it is the zero time, and no evaluation of an applied SLA that
    carries this deadline ever marks the metric. *)
Theorem empty_duration_disables_the_metric `{TimePkg} (m : sla.Manager)
  (start : Time) (slaPolicyID assignedTeamID : Z) (w : World) (d : Deadlines)
  (p : SLAPolicy) (mt : Metric) :
  fst (sla.CalculateDeadlines m start slaPolicyID assignedTeamID w) = Ok d ->
  sla_policies (db w) !! slaPolicyID = Some p ->
  durationOf mt p = "" ->
  deadlineIn mt d = zeroTime
  /\ forall (sla : AppliedSLA) (w' : World),
       deadlineOf mt sla = deadlineIn mt d ->
       exists delta : list Event,
         trace (snd (sla.evaluateSLA sla w')) = trace w' ++ delta
         /\ marks (ID sla) (slaTypeOf mt) delta = [].
Proof.
  intros Hd Hp Hdur.
  destruct (CalculateDeadlines_value m start slaPolicyID assignedTeamID w d Hd)
    as (bh & tz & p' & _ & Hp' & Hfr & Hres).
  rewrite Hp in Hp'. injection Hp' as <-.
  assert (Hzero : deadlineIn mt d = zeroTime).
  { unfold sla.calculateDeadline in Hfr, Hres.
    destruct mt; simpl in *; rewrite Hdur in *; simpl in *; congruence. }
  split; [exact Hzero|]. intros sla w' Hsla.
  destruct (evaluateSLA_marks_any sla mt w')
    as (delta & Ht & [Hm | (_ & n & _ & Hm)]);
    exists delta; (split; [exact Ht|]); [exact Hm|].
  rewrite Hm, Hsla, Hzero. reflexivity.
Qed.

Lemma empty_duration_disables_the_metric_witness :
  deadlineIn ResolutionMetric
    {| FirstResponse := 1000 + 1 * Hour; Resolution := zeroTime |} = zeroTime
  /\ exists delta : list Event,
       trace (snd (sla.evaluateSLA
                     {| ID := 1; ConversationID := 9;
                        FirstResponseDeadlineAt := 1000 + 1 * Hour;
                        ResolutionDeadlineAt := zeroTime;
                        FirstResponseBreachedAt := None;
                        FirstResponseMetAt := None;
                        ResolutionBreachedAt := None; ResolutionMetAt := None;
                        ConversationFirstResponseAt := None;
                        ConversationResolvedAt := Some 5000 |}
                     (startWorld (calmEnv 100000) policyDB)))
       = trace (startWorld (calmEnv 100000) policyDB) ++ delta
       /\ marks 1 (slaTypeOf ResolutionMetric) delta = [].
Proof.
  destruct (empty_duration_disables_the_metric exampleSLAManager 1000 1 0
              (startWorld (calmEnv 1000) policyDB)
              {| FirstResponse := 1000 + 1 * Hour; Resolution := zeroTime |}
              {| Name := "Gold"; FirstResponseTime := "1h"; ResolutionTime := "" |}
              ResolutionMetric)
    as (Hz & Hsweep); [reflexivity..|].
  split; [exact Hz|].
  apply (Hsweep {| ID := 1; ConversationID := 9;
                   FirstResponseDeadlineAt := 1000 + 1 * Hour;
                   ResolutionDeadlineAt := zeroTime;
                   FirstResponseBreachedAt := None;
                   FirstResponseMetAt := None;
                   ResolutionBreachedAt := None; ResolutionMetAt := None;
                   ConversationFirstResponseAt := None;
                   ConversationResolvedAt := Some 5000 |}).
  reflexivity.
Defined.

(** X8. For a conversation with a team, [getBusinessHoursAndTimezone]
    returns the error of a failed team lookup as it is, with no fallback
    to the app settings; it does not read the app settings when the team
    has both a business-hours id and a time zone; and it discards a
    partial team configuration: a team with only one of the two resolves
    as no team does. *)
Theorem getBusinessHoursAndTimezone_team_settings (m : sla.Manager)
  (assignedTeamID : Z) (w : World) :
  assignedTeamID <> 0 ->
  (forall e, sla.teamStore_Get m assignedTeamID = Err e ->
             sla.getBusinessHoursAndTimezone m assignedTeamID w = (Err e, w))
  /\ (forall team settings,
        sla.teamStore_Get m assignedTeamID = Ok team ->
        configured (BusinessHoursID team, Timezone team) = true ->
        sla.getBusinessHoursAndTimezone (withAppSettings m settings)
          assignedTeamID w
        = sla.getBusinessHoursAndTimezone m assignedTeamID w)
  /\ (forall team,
        sla.teamStore_Get m assignedTeamID = Ok team ->
        configured (BusinessHoursID team, Timezone team) = false ->
        fst (sla.getBusinessHoursAndTimezone m assignedTeamID w)
        = fst (sla.getBusinessHoursAndTimezone m 0 w)).
Proof.
  intros Hteam. apply Z.eqb_neq in Hteam as Hnz.
  split; [|split].
  - intros e He. unfold sla.getBusinessHoursAndTimezone. by rewrite Hnz, He.
  - intros team settings Ht Hc. unfold configured in Hc. cbn [fst snd] in Hc.
    apply andb_true_iff in Hc as [Hb Hz].
    apply negb_true_iff in Hb, Hz.
    unfold sla.getBusinessHoursAndTimezone, withAppSettings.
    cbn [sla.teamStore_Get sla.appSettingsStore_GetByPrefix
         sla.businessHrsStore_Get].
    rewrite Hnz, Ht, Hb, Hz. reflexivity.
  - intros team Ht Hc.
    rewrite !getBusinessHoursAndTimezone_value. unfold twoTier.
    rewrite Hnz, Ht, Hc. reflexivity.
Qed.

Lemma getBusinessHoursAndTimezone_team_settings_witness :
  sla.getBusinessHoursAndTimezone exampleSLAManager 5
    (startWorld (calmEnv 100) emptyDB)
  = (Err (GoError "team not found"), startWorld (calmEnv 100) emptyDB)
  /\ sla.getBusinessHoursAndTimezone
       (withAppSettings exampleSLAManager (fun _ => Err (GoError "no settings")))
       3 (startWorld (calmEnv 100) emptyDB)
     = sla.getBusinessHoursAndTimezone exampleSLAManager 3
         (startWorld (calmEnv 100) emptyDB)
  /\ fst (sla.getBusinessHoursAndTimezone exampleSLAManager 4
            (startWorld (calmEnv 100) emptyDB))
     = fst (sla.getBusinessHoursAndTimezone exampleSLAManager 0
              (startWorld (calmEnv 100) emptyDB)).
Proof.
  split; [|split].
  - apply (getBusinessHoursAndTimezone_team_settings exampleSLAManager 5);
      [discriminate | reflexivity].
  - apply (proj1 (proj2 (getBusinessHoursAndTimezone_team_settings
                           exampleSLAManager 3
                           (startWorld (calmEnv 100) emptyDB)
                           ltac:(discriminate)))
             {| BusinessHoursID := 2; Timezone := "Asia/Kolkata" |});
      reflexivity.
  - apply (proj2 (proj2 (getBusinessHoursAndTimezone_team_settings
                           exampleSLAManager 4
                           (startWorld (calmEnv 100) emptyDB)
                           ltac:(discriminate)))
             {| BusinessHoursID := 0; Timezone := "" |});
      reflexivity.
Defined.

(** Closes a goal about the events of an unfolded run. *)
Ltac run_leaf :=
  eexists; rewrite <- ?app_assoc; split; [reflexivity|];
  cbn; repeat split; try reflexivity; try discriminate; auto.

(** Goes through the events a hypothesis says an event is among. *)
Ltac in_cases :=
  repeat match goal with
         | H : _ \/ _ |- _ => destruct H
         | H : False |- _ => destruct H
         | H : In _ _ |- _ => progress simpl in H
         | H : _ = _ |- _ => discriminate H
         end.

(** X9. [UpdateAssignee] broadcasts exactly what it persisted: for the
    assignee types [user] and [team], it returns no error exactly when
    its one statement succeeded, and then it has broadcast the new
    assignee once; when the statement fails nothing is broadcast and the
    tables are unchanged. Any other assignee type is an error naming it,
    and nothing is executed. *)
Theorem UpdateAssignee_broadcasts_what_it_persisted (uuid : string)
  (assigneeID : Z) (assigneeType : string) (w : World) :
  exists delta : list Event,
    trace (snd (conversation.UpdateAssignee uuid assigneeID assigneeType w))
    = trace w ++ delta
    /\ match assigneeStmt assigneeType uuid assigneeID with
       | None =>
           conversation.UpdateAssignee uuid assigneeID assigneeType w
           = (Some (GoError ("invalid assignee type: " +:+ assigneeType)), w)
       | Some (stmt, prop) =>
           match fst (conversation.UpdateAssignee uuid assigneeID assigneeType w) with
           | None =>
               delta = [EvCall stmt true; EvBroadcast uuid prop (VInt assigneeID)]
           | Some _ =>
               calls delta = [(stmt, false)]
               /\ broadcasts delta = []
               /\ db (snd (conversation.UpdateAssignee uuid assigneeID
                             assigneeType w)) = db w
           end
       end.
Proof.
  unfold conversation.UpdateAssignee, assigneeStmt.
  destruct (String.eqb assigneeType conversation.AssigneeTypeUser).
  { unfold bind, call, conversation.BroadcastConversationUpdate, log, emit, ret.
    cbn [fst snd env step db trace].
    destruct (fails (env w) (step w) _) eqn:Hf; cbn [negb fst snd env step db trace];
      run_leaf. }
  destruct (String.eqb assigneeType conversation.AssigneeTypeTeam).
  { unfold bind, call, conversation.BroadcastConversationUpdate, log, emit, ret.
    cbn [fst snd env step db trace].
    destruct (fails (env w) (step w) _) eqn:Hf; cbn [negb fst snd env step db trace];
      run_leaf. }
  exists []. rewrite app_nil_r. split; reflexivity.
Qed.

(** X10. Assigning a team never notifies anyone.
    [UpdateConversationTeamAssignee] returns no error exactly when the
    assignment and the activity entry were both written, and the
    assignment is broadcast exactly when it was persisted, also when the
    activity entry then fails. *)
Theorem UpdateConversationTeamAssignee_never_notifies (uuid : string)
  (teamID : Z) (actor : User) (w : World) :
  exists delta : list Event,
    trace (snd (conversation.UpdateConversationTeamAssignee uuid teamID actor w))
    = trace w ++ delta
    /\ sent delta = []
    /\ (fst (conversation.UpdateConversationTeamAssignee uuid teamID actor w)
        = None
        <-> calls delta
            = [(UpdateConversationAssignedTeam uuid teamID, true);
               (InsertActivity {| ActConversation := uuid;
                                  ActKind := ActAssignedTeamChange;
                                  ActValue := VInt teamID;
                                  ActActor := UserID actor |}, true)])
    /\ (In (EvCall (UpdateConversationAssignedTeam uuid teamID) true) delta
        <-> broadcasts delta = [(uuid, "assigned_team_id", VInt teamID)]).
Proof.
  unfold conversation.UpdateConversationTeamAssignee,
    conversation.RecordAssigneeTeamChange, conversation.recordActivity,
    conversation.UpdateAssignee.
  change (String.eqb conversation.AssigneeTypeTeam conversation.AssigneeTypeUser)
    with false.
  change (String.eqb conversation.AssigneeTypeTeam conversation.AssigneeTypeTeam)
    with true.
  unfold bind, call, conversation.BroadcastConversationUpdate, log, emit, ret.
  cbn [fst snd env step db trace].
  destruct (fails (env w) (step w) _); cbn [negb fst snd env step db trace].
  { run_leaf; intros Hin; in_cases. }
  destruct (fails (env w) (S (step w)) _); cbn [negb fst snd env step db trace];
    run_leaf.
Qed.

(** X11. [SendAssignedConversationEmail] hands the notifier nothing
    but the rendered template: when the agent cannot be fetched or the
    template does not render, no call is made and an error is returned;
    otherwise one notification is sent, by e-mail, to the given users,
    with the rendered subject and content, and the result is no error
    exactly when the notifier accepted it. The tables are never
    touched. *)
Theorem SendAssignedConversationEmail_sends_the_rendered_template
  (m : conversation.Manager) (userID : Z) (others : list Z)
  (conv : Conversation) (w : World) :
  exists delta : list Event,
    trace (snd (conversation.SendAssignedConversationEmail m (userID :: others)
                  conv w)) = trace w ++ delta
    /\ db (snd (conversation.SendAssignedConversationEmail m (userID :: others)
                  conv w)) = db w
    /\ match conversation.userStore_Get m userID with
       | Err _ => calls delta = []
       | Ok agent =>
           match conversation.template_RenderNamedTemplate m
                   conversation.TmplConversationAssigned conv (FullName agent) with
           | Err _ => calls delta = []
           | Ok (content, subject) =>
               exists ok : bool,
                 calls delta
                 = [(NotifierSend {| UserIDs := userID :: others;
                                     NSubject := subject; NContent := content;
                                     Provider := ProviderEmail |}, ok)]
                 /\ (fst (conversation.SendAssignedConversationEmail m
                            (userID :: others) conv w) = None <-> ok = true)
           end
       end
    /\ (calls delta = [] ->
        fst (conversation.SendAssignedConversationEmail m (userID :: others)
               conv w) <> None).
Proof.
  unfold conversation.SendAssignedConversationEmail.
  destruct (conversation.userStore_Get m userID) as [agent|e].
  - destruct (conversation.template_RenderNamedTemplate m _ conv (FullName agent))
      as [[content subject]|e].
    + unfold bind, call, log, emit, ret. cbn [fst snd env step db trace perform].
      destruct (fails (env w) (step w) _);
        cbn [negb fst snd env step db trace]; eexists; rewrite <- ?app_assoc;
        (split; [reflexivity|]); (split; [reflexivity|]);
        (split; [eexists; split; [reflexivity|]; split; congruence
                | cbn; discriminate]).
    + unfold bind, log, emit, ret. cbn [fst snd env step db trace]. run_leaf.
  - unfold bind, log, emit, ret. cbn [fst snd env step db trace]. run_leaf.
Qed.

(** X12. [UpdateConversationUserAssignee] succeeds or fails on the
    database alone: it returns no error exactly when the assignment, the
    re-read of the conversation and the activity entry all succeeded,
    whatever the notifier did. The assignment is broadcast exactly when
    it was persisted; a notification goes to the assignee only, by
    e-mail, and only after the re-read succeeded; and when the re-read
    fails the error is returned although the assignment is persisted,
    with no notification and no activity entry. *)
Theorem UpdateConversationUserAssignee_outcome (m : conversation.Manager)
  (uuid : string) (assigneeID : Z) (actor : User) (w : World) :
  exists delta : list Event,
    trace (snd (conversation.UpdateConversationUserAssignee m uuid assigneeID
                  actor w)) = trace w ++ delta
    /\ (fst (conversation.UpdateConversationUserAssignee m uuid assigneeID
               actor w) = None
        <-> dbCalls delta
            = [(UpdateConversationAssignedUser uuid assigneeID, true);
               (GetConversationStmt 0 uuid, true);
               (InsertActivity {| ActConversation := uuid;
                                  ActKind := ActAssignedUserChange;
                                  ActValue := VInt assigneeID;
                                  ActActor := UserID actor |}, true)])
    /\ (In (UpdateConversationAssignedUser uuid assigneeID, true) (calls delta)
        <-> broadcasts delta = [(uuid, "assigned_user_id", VInt assigneeID)])
    /\ (forall nm, In nm (sent delta) ->
          UserIDs nm = [assigneeID]
          /\ Provider nm = ProviderEmail
          /\ In (GetConversationStmt 0 uuid, true) (calls delta))
    /\ (In (GetConversationStmt 0 uuid, false) (calls delta) ->
        fst (conversation.UpdateConversationUserAssignee m uuid assigneeID
               actor w)
        = Some (EnvelopeError GeneralError "Error fetching conversation")
        /\ dbCalls delta
           = [(UpdateConversationAssignedUser uuid assigneeID, true);
              (GetConversationStmt 0 uuid, false)]
        /\ sent delta = []).
Proof.
  unfold conversation.UpdateConversationUserAssignee,
    conversation.RecordAssigneeUserChange, conversation.recordActivity,
    conversation.SendAssignedConversationEmail, conversation.GetConversation,
    conversation.UpdateAssignee.
  change (String.eqb conversation.AssigneeTypeUser conversation.AssigneeTypeUser)
    with true.
  unfold bind, call, getDB, conversation.BroadcastConversationUpdate, log, emit, ret.
  simpl.
  destruct (fails (env w) (step w) _); simpl.
  { run_leaf; intros; in_cases. }
  destruct (fails (env w) (S (step w)) _); simpl.
  { run_leaf; intros; in_cases. }
  match goal with
  | |- context [?t !! uuid] => destruct (t !! uuid) as [c|]
  end; simpl; [|run_leaf; intros; in_cases].
  destruct (conversation.userStore_Get m assigneeID) as [agent|e]; simpl.
  - destruct (conversation.template_RenderNamedTemplate m _ c (FullName agent))
      as [[content subject]|e]; simpl.
    + destruct (fails (env w) (S (S (step w))) _); simpl;
        destruct (fails (env w) (S (S (S (step w)))) _); simpl;
        run_leaf; intros; in_cases; subst; auto.
    + destruct (fails (env w) (S (S (step w))) _); simpl;
        run_leaf; intros; in_cases.
  - destruct (fails (env w) (S (S (step w))) _); simpl;
      run_leaf; intros; in_cases.
Qed.

(** X13. [UpdateConversationPriority]: when the priority of the given
    id cannot be fetched, the error of the store comes back as an input
    error and nothing is executed. Otherwise it returns no error exactly
    when the priority was persisted and the activity entry written, and
    it broadcasts the new priority exactly then: a failure is never
    broadcast. *)
Theorem UpdateConversationPriority_outcome (m : conversation.Manager)
  (uuid : string) (priorityID : Z) (priority : string) (actor : User)
  (w : World) :
  exists delta : list Event,
    trace (snd (conversation.UpdateConversationPriority m uuid priorityID
                  priority actor w)) = trace w ++ delta
    /\ match effectivePriority m priorityID priority with
       | Err e =>
           conversation.UpdateConversationPriority m uuid priorityID priority
             actor w
           = (Some (EnvelopeError InputError (Error e)), w)
       | Ok p =>
           (fst (conversation.UpdateConversationPriority m uuid priorityID
                   priority actor w) = None
            <-> calls delta
                = [(UpdateConversationPriorityStmt uuid p, true);
                   (InsertActivity {| ActConversation := uuid;
                                      ActKind := ActPriorityChange;
                                      ActValue := VString p;
                                      ActActor := UserID actor |}, true)])
           /\ broadcasts delta
              = match fst (conversation.UpdateConversationPriority m uuid
                             priorityID priority actor w) with
                | None => [(uuid, "priority", VString p)]
                | Some _ => []
                end
       end.
Proof.
  unfold conversation.UpdateConversationPriority, effectivePriority,
    conversation.RecordPriorityChange, conversation.recordActivity.
  destruct (if 0 <? priorityID then conversation.priorityStore_Get m priorityID
            else Ok priority) as [p|e].
  - unfold bind, call, conversation.BroadcastConversationUpdate, log, emit, ret.
    simpl.
    destruct (fails (env w) (step w) _); simpl; [run_leaf|].
    destruct (fails (env w) (S (step w)) _); simpl; run_leaf.
  - exists []. rewrite app_nil_r. split; reflexivity.
Qed.

(** X14. [UpdateConversationStatus]: when the status of the given id
    cannot be fetched, the error of the store comes back as an input
    error and nothing is executed. Otherwise it returns no error exactly
    when the status was persisted and the activity entry written, and it
    broadcasts the new status exactly then. The snooze duration is read
    only for the status Snoozed: for any other status it is ignored. *)
Theorem UpdateConversationStatus_outcome `{TimePkg} (m : conversation.Manager)
  (uuid : string) (statusID : Z) (status snoozeDur : string) (actor : User)
  (w : World) :
  exists delta : list Event,
    trace (snd (conversation.UpdateConversationStatus m uuid statusID status
                  snoozeDur actor w)) = trace w ++ delta
    /\ match effectiveStatus m statusID status with
       | Err e =>
           conversation.UpdateConversationStatus m uuid statusID status
             snoozeDur actor w
           = (Some (EnvelopeError InputError (Error e)), w)
       | Ok s =>
           (fst (conversation.UpdateConversationStatus m uuid statusID status
                   snoozeDur actor w) = None
            <-> exists until : Time,
                  calls delta
                  = [(UpdateConversationStatusStmt uuid s until, true);
                     (InsertActivity {| ActConversation := uuid;
                                        ActKind := ActStatusChange;
                                        ActValue := VString s;
                                        ActActor := UserID actor |}, true)])
           /\ broadcasts delta
              = match fst (conversation.UpdateConversationStatus m uuid
                             statusID status snoozeDur actor w) with
                | None => [(uuid, "status", VString s)]
                | Some _ => []
                end
           /\ (s <> conversation.StatusSnoozed ->
               conversation.UpdateConversationStatus m uuid statusID status
                 snoozeDur actor w
               = conversation.UpdateConversationStatus m uuid statusID status
                   "" actor w)
       end.
Proof.
  unfold conversation.UpdateConversationStatus, effectiveStatus,
    conversation.RecordStatusChange, conversation.recordActivity.
  destruct (if 0 <? statusID then conversation.statusStore_Get m statusID
            else Ok status) as [s|e];
    [|exists []; rewrite app_nil_r; split; reflexivity].
  destruct (String.eqb_spec s conversation.StatusSnoozed) as [Hs|Hs];
    cbn [andb].
  - destruct (String.eqb snoozeDur "").
    { exists []. rewrite app_nil_r. split; [reflexivity|].
      split; [split; [discriminate | intros [until Hc]; discriminate]|].
      split; [reflexivity | congruence]. }
    destruct (ParseDuration snoozeDur) as [dur|].
    + unfold bind, call, Now, conversation.BroadcastConversationUpdate, log,
        emit, ret. simpl.
      destruct (fails (env w) (S (step w)) _); simpl;
        [|destruct (fails (env w) (S (S (step w))) _); simpl];
        eexists; rewrite <- ?app_assoc; (split; [reflexivity|]); cbn;
        (split; [split; [try discriminate; eauto
                        | try (intros [until Hc]; discriminate); auto]|]);
        (split; [reflexivity | congruence]).
    + unfold bind, log, emit, ret. simpl.
      eexists; rewrite <- ?app_assoc; (split; [reflexivity|]); cbn.
      split; [split; [discriminate | intros [until Hc]; discriminate]|].
      split; [reflexivity | congruence].
  - unfold bind, call, conversation.BroadcastConversationUpdate, log, emit, ret.
    simpl.
    destruct (fails (env w) (step w) _); simpl;
      [|destruct (fails (env w) (S (step w)) _); simpl];
      eexists; rewrite <- ?app_assoc; (split; [reflexivity|]); cbn;
      (split; [split; [try discriminate; eauto
                      | try (intros [until Hc]; discriminate); auto]|]);
      (split; [reflexivity | reflexivity]).
Qed.

(** X15. A snooze duration that does not parse is rejected before
    anything is written: the result is the input error "Invalid snooze
    duration format", and the world only gains the log line; the clock is
    not read and no statement is executed. *)
Theorem UpdateConversationStatus_rejects_bad_duration `{TimePkg}
  (m : conversation.Manager) (uuid : string) (statusID : Z)
  (status snoozeDur : string) (actor : User) (w : World) :
  effectiveStatus m statusID status = Ok conversation.StatusSnoozed ->
  snoozeDur <> "" ->
  ParseDuration snoozeDur = None ->
  conversation.UpdateConversationStatus m uuid statusID status snoozeDur actor w
  = (Some (EnvelopeError InputError "Invalid snooze duration format"),
     snd (log ErrorLevel "error parsing snooze duration"
            [("error", VError parseError)] w)).
Proof.
  intros Hs Hdur Hparse. unfold conversation.UpdateConversationStatus.
  unfold effectiveStatus in Hs. rewrite Hs.
  apply String.eqb_neq in Hdur. rewrite Hdur, Hparse. reflexivity.
Qed.

Lemma UpdateConversationStatus_rejects_bad_duration_witness :
  conversation.UpdateConversationStatus exampleManager "c-7" 2 "" "2 hours"
    systemUser (startWorld (calmEnv 100) sweepDB)
  = (Some (EnvelopeError InputError "Invalid snooze duration format"),
     snd (log ErrorLevel "error parsing snooze duration"
            [("error", VError parseError)] (startWorld (calmEnv 100) sweepDB))).
Proof.
  apply (UpdateConversationStatus_rejects_bad_duration exampleManager "c-7" 2 ""
           "2 hours" systemUser (startWorld (calmEnv 100) sweepDB));
    [reflexivity | discriminate | reflexivity].
Defined.

Lemma enveloped_after_record (c : M (option error)) (msg : string)
  (k : M (option error)) :
  enveloped k ->
  enveloped (let! err := c in
             match err with
             | Some _ => ret (Some (EnvelopeError GeneralError msg))
             | None => k
             end).
Proof.
  intros Hk w e. rewrite bind_run. destruct (fst (c w)).
  - intros [= <-]. eauto.
  - apply Hk.
Qed.

Lemma enveloped_ret_None : enveloped (ret None).
Proof. intros w e. discriminate. Qed.

Lemma enveloped_broadcast uuid prop value :
  enveloped (conversation.BroadcastConversationUpdate uuid prop value ;; ret None).
Proof. intros w e. discriminate. Qed.

Lemma enveloped_after_call (c : Call) (lvl : Level) (lmsg : string)
  (fields : list (string * Any)) (msg : string) (k : M (option error)) :
  enveloped k ->
  enveloped (let! ok := call c in
             if negb ok then
               log lvl lmsg fields ;;
               ret (Some (EnvelopeError GeneralError msg))
             else k).
Proof.
  intros Hk w e. rewrite bind_run. destruct (fst (call c w)); cbn [negb].
  - apply Hk.
  - intros [= <-]. eauto.
Qed.

Lemma GetConversation_enveloped id uuid w e :
  fst (conversation.GetConversation id uuid w) = Err e ->
  exists ty msg, e = EnvelopeError ty msg.
Proof.
  unfold conversation.GetConversation, bind, call, getDB, log, emit, ret.
  cbn [fst snd]. destruct (negb _); cbn [fst snd].
  - destruct (if 0 <? id then _ else _); cbn [fst]; [discriminate|].
    intros [= <-]. eauto.
  - intros [= <-]. eauto.
Qed.

(** X16. Every error the six mutators of a conversation return
    (user assignee, team assignee, priority, status, tags, SLA) is an
    envelope error, with its type and its message: never the bare error
    of the driver, of the notifier or of [UpdateAssignee]. *)
Theorem mutators_return_envelope_errors `{TimePkg} (m : conversation.Manager)
  (uuid : string) (id : Z) (name snoozeDur : string) (tagNames : list string)
  (conversationID : Z) (actor : User) :
  enveloped (conversation.UpdateConversationUserAssignee m uuid id actor)
  /\ enveloped (conversation.UpdateConversationTeamAssignee uuid id actor)
  /\ enveloped (conversation.UpdateConversationPriority m uuid id name actor)
  /\ enveloped (conversation.UpdateConversationStatus m uuid id name snoozeDur
                  actor)
  /\ enveloped (conversation.UpsertConversationTags uuid tagNames)
  /\ enveloped (conversation.ApplySLA m uuid conversationID id actor).
Proof.
  split; [|split; [|split; [|split; [|split]]]].
  - unfold conversation.UpdateConversationUserAssignee.
    apply enveloped_after_record. intros w e. rewrite bind_run.
    destruct (fst (conversation.GetConversation 0 uuid w)) as [c|e'] eqn:Hget.
    + do 2 rewrite bind_run. revert e.
      refine (enveloped_after_record _ _ _ enveloped_ret_None _).
    + intros [= <-]. exact (GetConversation_enveloped 0 uuid w e' Hget).
  - unfold conversation.UpdateConversationTeamAssignee.
    apply enveloped_after_record, enveloped_after_record, enveloped_ret_None.
  - unfold conversation.UpdateConversationPriority.
    destruct (if 0 <? id then _ else _) as [p|e'].
    + apply enveloped_after_call, enveloped_after_record, enveloped_broadcast.
    + intros w e [= <-]. eauto.
  - unfold conversation.UpdateConversationStatus.
    destruct (if 0 <? id then _ else _) as [s|e']; [|intros w e [= <-]; eauto].
    destruct (_ && _); [intros w e [= <-]; eauto|].
    destruct (String.eqb s conversation.StatusSnoozed).
    + destruct (ParseDuration snoozeDur); [|intros w e [= <-]; eauto].
      intros w e. rewrite bind_run. revert e.
      refine (enveloped_after_call _ _ _ _ _ _
                (enveloped_after_record _ _ _ (enveloped_broadcast _ _ _)) _).
    + apply enveloped_after_call, enveloped_after_record, enveloped_broadcast.
  - unfold conversation.UpsertConversationTags. intros w e. rewrite bind_run.
    destruct (fst (call _ w)); [discriminate | intros [= <-]; eauto].
  - unfold conversation.ApplySLA. intros w e. rewrite bind_run.
    destruct (fst (conversation.slaStore_ApplySLA m conversationID 0 id w)).
    + revert e. refine (enveloped_after_record _ _ _ enveloped_ret_None _).
    + intros [= <-]. eauto.
Qed.

(** The error of a wrapped action names the action type. *)
Lemma wrapped_names (ty : string) (c : M (option error)) w e :
  fst ((let! err := c in
        match err with
        | Some e =>
            ret (Some (GoError ("could not apply " +:+ ty +:+ " action: "
                                +:+ Error e)))
        | None => ret None
        end) w) = Some e ->
  names ty (Error e) /\ exists msg, e = GoError msg.
Proof.
  rewrite bind_run. destruct (fst (c w)) as [e0|]; [|discriminate].
  intros [= <-]. split; [|eauto].
  exists "could not apply ", (" action: " +:+ Error e0). reflexivity.
Qed.

(** X17. Every error [ApplyAction] returns, on whichever path, is a
    plain error whose message names the type of the action. *)
Theorem ApplyAction_errors_name_the_action `{TimePkg}
  (m : conversation.Manager) (action : conversation.RuleAction)
  (conv : Conversation) (user : User) (w : World) (e : error) :
  fst (conversation.ApplyAction m action conv user w) = Some e ->
  names (conversation.Type_ action) (Error e) /\ exists msg, e = GoError msg.
Proof.
  unfold conversation.ApplyAction.
  destruct (conversation.Value action) as [|value0 rest].
  { rewrite bind_run. intros [= <-]. split; [|eauto]. apply names_suffix. }
  destruct (if UserID user =? 0 then _ else _) as [actor|e0].
  2:{ intros [= <-]. split; [|eauto].
      exists "could not apply ",
        (" action. could not fetch system user: " +:+ Error e0).
      reflexivity. }
  cbv zeta.
  repeat match goal with
         | |- context [if String.eqb ?a ?b then _ else _] =>
             destruct (String.eqb a b);
             [rewrite bind_run; apply wrapped_names|]
         end.
  intros [= <-]. split; [|eauto]. apply names_suffix.
Qed.

Lemma ApplyAction_errors_name_the_action_witness :
  names conversation.ActionSetStatus
    (Error (GoError "could not apply set_status action: Snooze duration is required"))
  /\ exists msg,
       GoError "could not apply set_status action: Snooze duration is required"
       = GoError msg.
Proof.
  apply (ApplyAction_errors_name_the_action exampleManager setStatusSnoozed
           conversation7 systemUser (startWorld (calmEnv 100) sweepDB)).
  reflexivity.
Defined.

(** X18. [ApplyAction] acts as the system user when no user is given:
    with a user whose id is 0 it behaves as it does for the system user
    the store returns; when the system user cannot be fetched, an action
    with a value is refused and the world is unchanged; and with a user
    whose id is not 0 the system user is never consulted. *)
Theorem ApplyAction_acts_as_the_system_user `{TimePkg}
  (m : conversation.Manager) (action : conversation.RuleAction)
  (conv : Conversation) (user : User) (w : World) :
  (UserID user = 0 ->
   forall sys : User,
     conversation.userStore_GetSystemUser m = Ok sys ->
     conversation.ApplyAction m action conv user w
     = conversation.ApplyAction m action conv sys w)
  /\ (UserID user = 0 ->
      forall e : error,
        conversation.userStore_GetSystemUser m = Err e ->
        conversation.Value action <> [] ->
        conversation.ApplyAction m action conv user w
        = (Some (GoError ("could not apply " +:+ conversation.Type_ action
                          +:+ " action. could not fetch system user: "
                          +:+ Error e)), w))
  /\ (UserID user <> 0 ->
      forall sys : result User,
        conversation.ApplyAction (withSystemUser m sys) action conv user w
        = conversation.ApplyAction m action conv user w).
Proof.
  split; [|split].
  - intros Hz sys Hsys. unfold conversation.ApplyAction.
    destruct (conversation.Value action); [reflexivity|].
    rewrite Hz, Hsys. cbn [Z.eqb].
    destruct (UserID sys =? 0); reflexivity.
  - intros Hz e He Hv. unfold conversation.ApplyAction.
    destruct (conversation.Value action); [done|].
    rewrite Hz, He. reflexivity.
  - intros Hnz sys. apply Z.eqb_neq in Hnz. unfold conversation.ApplyAction.
    destruct (conversation.Value action); [reflexivity|].
    rewrite Hnz. reflexivity.
Qed.

Lemma ApplyAction_acts_as_the_system_user_witness :
  conversation.ApplyAction exampleManager assignUser42 conversation7 noUser
    (startWorld (calmEnv 100) sweepDB)
  = conversation.ApplyAction exampleManager assignUser42 conversation7
      systemUser (startWorld (calmEnv 100) sweepDB)
  /\ conversation.ApplyAction
       (withSystemUser exampleManager (Err (GoError "no system user")))
       assignUser42 conversation7 noUser (startWorld (calmEnv 100) sweepDB)
     = (Some (GoError ("could not apply assign_user action. "
                       +:+ "could not fetch system user: no system user")),
        startWorld (calmEnv 100) sweepDB)
  /\ conversation.ApplyAction
       (withSystemUser exampleManager (Err (GoError "no system user")))
       assignUser42 conversation7 agent42 (startWorld (calmEnv 100) sweepDB)
     = conversation.ApplyAction exampleManager assignUser42 conversation7
         agent42 (startWorld (calmEnv 100) sweepDB).
Proof.
  split; [|split].
  - apply (proj1 (ApplyAction_acts_as_the_system_user exampleManager
                    assignUser42 conversation7 noUser
                    (startWorld (calmEnv 100) sweepDB)));
      reflexivity.
  - apply (proj1 (proj2 (ApplyAction_acts_as_the_system_user
                           (withSystemUser exampleManager
                              (Err (GoError "no system user")))
                           assignUser42 conversation7 noUser
                           (startWorld (calmEnv 100) sweepDB)))
             eq_refl (GoError "no system user"));
      [reflexivity | discriminate].
  - apply (proj2 (proj2 (ApplyAction_acts_as_the_system_user exampleManager
                           assignUser42 conversation7 agent42
                           (startWorld (calmEnv 100) sweepDB))));
      discriminate.
Defined.

(** X19. A rule action cannot snooze a conversation: [ApplyAction]
    passes no snooze duration, so a [set_status] action whose status is
    Snoozed always fails with "Snooze duration is required", with no
    statement executed, nothing broadcast and the tables unchanged. *)
Theorem ApplyAction_cannot_snooze `{TimePkg} (m : conversation.Manager)
  (value0 : string) (rest : list string) (conv : Conversation)
  (user actor : User) (w : World) :
  actorOf m user = Ok actor ->
  0 < fst (Atoi value0) ->
  conversation.statusStore_Get m (fst (Atoi value0))
  = Ok conversation.StatusSnoozed ->
  fst (conversation.ApplyAction m
         {| conversation.Type_ := conversation.ActionSetStatus;
            conversation.Value := value0 :: rest |} conv user w)
  = Some (GoError "could not apply set_status action: Snooze duration is required")
  /\ db (snd (conversation.ApplyAction m
                {| conversation.Type_ := conversation.ActionSetStatus;
                   conversation.Value := value0 :: rest |} conv user w)) = db w
  /\ exists delta : list Event,
       trace (snd (conversation.ApplyAction m
                     {| conversation.Type_ := conversation.ActionSetStatus;
                        conversation.Value := value0 :: rest |} conv user w))
       = trace w ++ delta
       /\ calls delta = [] /\ broadcasts delta = [].
Proof.
  intros Hactor Hid Hstatus. apply Z.ltb_lt in Hid.
  unfold conversation.ApplyAction, actorOf in *.
  cbn [conversation.Value conversation.Type_]. rewrite Hactor. cbv zeta.
  change (String.eqb conversation.ActionSetStatus conversation.ActionAssignTeam)
    with false.
  change (String.eqb conversation.ActionSetStatus conversation.ActionAssignUser)
    with false.
  change (String.eqb conversation.ActionSetStatus conversation.ActionSetPriority)
    with false.
  change (String.eqb conversation.ActionSetStatus conversation.ActionSetStatus)
    with true.
  cbv iota. unfold conversation.UpdateConversationStatus.
  rewrite Hid, Hstatus.
  change (String.eqb conversation.StatusSnoozed conversation.StatusSnoozed
          && String.eqb "" "") with true.
  cbv iota. unfold bind, log, emit, ret. cbn [fst snd db trace].
  split; [reflexivity|]. split; [reflexivity|].
  eexists. split; [reflexivity|]. split; reflexivity.
Qed.

Lemma ApplyAction_cannot_snooze_witness :
  fst (conversation.ApplyAction exampleManager setStatusSnoozed conversation7
         noUser (startWorld (calmEnv 100) sweepDB))
  = Some (GoError "could not apply set_status action: Snooze duration is required")
  /\ db (snd (conversation.ApplyAction exampleManager setStatusSnoozed
                conversation7 noUser (startWorld (calmEnv 100) sweepDB)))
     = sweepDB.
Proof.
  destruct (ApplyAction_cannot_snooze exampleManager "2" [] conversation7 noUser
              systemUser (startWorld (calmEnv 100) sweepDB))
    as (Hr & Hdb & _); [reflexivity | reflexivity | reflexivity |].
  split; [exact Hr | exact Hdb].
Defined.

(** X20. Of the values of an action, [ApplyAction] reads the first
    only: the values after it change nothing, for every action type but
    [set_tags]. *)
Theorem ApplyAction_reads_the_first_value `{TimePkg} (m : conversation.Manager)
  (ty value0 : string) (rest : list string) (conv : Conversation) (user : User)
  (w : World) :
  ty <> conversation.ActionSetTags ->
  conversation.ApplyAction m
    {| conversation.Type_ := ty; conversation.Value := value0 :: rest |}
    conv user w
  = conversation.ApplyAction m
      {| conversation.Type_ := ty; conversation.Value := [value0] |}
      conv user w.
Proof.
  intros Hty. apply String.eqb_neq in Hty.
  unfold conversation.ApplyAction. cbn [conversation.Value conversation.Type_].
  rewrite Hty. reflexivity.
Qed.

Lemma ApplyAction_reads_the_first_value_witness :
  conversation.ApplyAction exampleManager
    {| conversation.Type_ := conversation.ActionAssignUser;
       conversation.Value := ["42"; "7"; "oops"] |}
    conversation7 noUser (startWorld (calmEnv 100) sweepDB)
  = conversation.ApplyAction exampleManager assignUser42 conversation7 noUser
      (startWorld (calmEnv 100) sweepDB).
Proof.
  apply (ApplyAction_reads_the_first_value exampleManager
           conversation.ActionAssignUser "42" ["7"; "oops"] conversation7
           noUser (startWorld (calmEnv 100) sweepDB)).
  discriminate.
Defined.

Lemma starts_with_call (c : Call) {A} (k : bool -> M A) :
  (forall ok, extends (k ok)) -> starts_with c (bind (call c) k).
Proof.
  intros Hk w. rewrite bind_run.
  destruct (Hk (fst (call c w)) (snd (call c w))) as (d & Ht & _).
  exists (fst (call c w)), d. rewrite Ht, call_trace, <- app_assoc. reflexivity.
Qed.

Lemma starts_with_bind (c : Call) {A B} (comp : M A) (k : A -> M B) :
  starts_with c comp -> (forall a, extends (k a)) ->
  starts_with c (bind comp k).
Proof.
  intros Hc Hk w. rewrite bind_run.
  destruct (Hc w) as (ok & d1 & Ht1).
  destruct (Hk (fst (comp w)) (snd (comp w))) as (d2 & Ht2 & _).
  exists ok, (d1 ++ d2). rewrite Ht2, Ht1, <- app_assoc. reflexivity.
Qed.

Lemma extends_GetConversation id uuid :
  extends (conversation.GetConversation id uuid).
Proof. unfold extends, conversation.GetConversation. repeat quiet_step. Qed.

Lemma extends_SendAssignedConversationEmail m userIDs conv :
  extends (conversation.SendAssignedConversationEmail m userIDs conv).
Proof.
  unfold extends, conversation.SendAssignedConversationEmail.
  repeat quiet_step.
Qed.

Lemma extends_recordActivity a : extends (conversation.recordActivity a).
Proof. unfold extends, conversation.recordActivity. repeat quiet_step. Qed.

Lemma starts_with_UpdateAssignee uuid id ty stmt prop :
  assigneeStmt ty uuid id = Some (stmt, prop) ->
  starts_with stmt (conversation.UpdateAssignee uuid id ty).
Proof.
  unfold assigneeStmt, conversation.UpdateAssignee.
  destruct (String.eqb ty conversation.AssigneeTypeUser).
  { intros [= <- <-]. apply starts_with_call. intros ok. unfold extends.
    unfold conversation.BroadcastConversationUpdate. repeat quiet_step. }
  destruct (String.eqb ty conversation.AssigneeTypeTeam); [|discriminate].
  intros [= <- <-]. apply starts_with_call. intros ok. unfold extends.
  unfold conversation.BroadcastConversationUpdate. repeat quiet_step.
Qed.

(** An action that logs and then runs a computation that starts with a
    call: that call is its first. *)
Lemma logged_wrapped_first_call (c : Call) (msg : string)
  (fields : list (string * Any)) (ty : string) (comp : M (option error)) w :
  starts_with c comp ->
  exists (ok : bool) (delta : list Event),
    trace (snd ((log Debug msg fields ;;
                 let! err := comp in
                 match err with
                 | Some e =>
                     ret (Some (GoError ("could not apply " +:+ ty
                                         +:+ " action: " +:+ Error e)))
                 | None => ret None
                 end) w)) = trace w ++ delta
    /\ head (calls delta) = Some (c, ok).
Proof.
  intros Hc. rewrite !bind_run.
  destruct (Hc (snd (log Debug msg fields w))) as (ok & d & Ht).
  exists ok, (EvLog Debug msg fields :: EvCall c ok :: d). split; [|reflexivity].
  destruct (fst (comp _)); cbn [ret snd]; rewrite Ht; cbn [log emit snd trace];
    by rewrite <- app_assoc.
Qed.

(** X21. [ApplyAction] does not validate the id an action carries. The
    first statement of an assignment is executed with whatever
    [strconv.Atoi] gives for the value, 0 when it is not a number; and
    the first statement of a [set_priority] or [set_status] action whose
    value is not a positive number writes the empty name. *)
Theorem ApplyAction_does_not_validate_ids `{TimePkg}
  (m : conversation.Manager) (ty value0 : string) (rest : list string)
  (conv : Conversation) (user actor : User) (stmt : Call) (w : World) :
  actorOf m user = Ok actor ->
  firstStatement ty (UUID conv) (fst (Atoi value0)) = Some stmt ->
  exists (ok : bool) (delta : list Event),
    trace (snd (conversation.ApplyAction m
                  {| conversation.Type_ := ty;
                     conversation.Value := value0 :: rest |} conv user w))
    = trace w ++ delta
    /\ head (calls delta) = Some (stmt, ok).
Proof.
  intros Hactor Hstmt. unfold conversation.ApplyAction, actorOf, firstStatement in *.
  cbn [conversation.Value conversation.Type_]. rewrite Hactor. cbv zeta.
  destruct (String.eqb ty conversation.ActionAssignTeam).
  { injection Hstmt as <-. apply logged_wrapped_first_call.
    unfold conversation.UpdateConversationTeamAssignee.
    apply starts_with_bind;
      [by apply (starts_with_UpdateAssignee _ _ _ _ "assigned_team_id")|].
    intros err. unfold extends, conversation.RecordAssigneeTeamChange.
    repeat quiet_step; apply extends_recordActivity. }
  destruct (String.eqb ty conversation.ActionAssignUser).
  { injection Hstmt as <-. apply logged_wrapped_first_call.
    unfold conversation.UpdateConversationUserAssignee.
    apply starts_with_bind;
      [by apply (starts_with_UpdateAssignee _ _ _ _ "assigned_user_id")|].
    intros err. unfold extends, conversation.RecordAssigneeUserChange.
    repeat quiet_step;
      first [ apply extends_recordActivity | apply extends_GetConversation
            | apply extends_SendAssignedConversationEmail ]. }
  destruct (String.eqb ty conversation.ActionSetPriority).
  { destruct (0 <? fst (Atoi value0)) eqn:Hid; [discriminate|].
    injection Hstmt as <-. apply logged_wrapped_first_call.
    unfold conversation.UpdateConversationPriority. rewrite Hid.
    apply starts_with_call. intros ok.
    unfold extends, conversation.RecordPriorityChange,
      conversation.BroadcastConversationUpdate.
    repeat quiet_step; apply extends_recordActivity. }
  destruct (String.eqb ty conversation.ActionSetStatus); [|discriminate].
  destruct (0 <? fst (Atoi value0)) eqn:Hid; [discriminate|].
  injection Hstmt as <-. apply logged_wrapped_first_call.
  unfold conversation.UpdateConversationStatus. rewrite Hid.
  change (String.eqb "" conversation.StatusSnoozed) with false. cbv iota zeta.
  cbn [andb]. cbv iota.
  apply starts_with_call. intros ok.
  unfold extends, conversation.RecordStatusChange,
    conversation.BroadcastConversationUpdate.
  repeat quiet_step; apply extends_recordActivity.
Qed.

Lemma ApplyAction_does_not_validate_ids_witness :
  fst (Atoi "Closed") = 0
  /\ exists (ok : bool) (delta : list Event),
       trace (snd (conversation.ApplyAction exampleManager setStatusByName
                     conversation7 noUser (startWorld (calmEnv 100) sweepDB)))
       = trace (startWorld (calmEnv 100) sweepDB) ++ delta
       /\ head (calls delta)
          = Some (UpdateConversationStatusStmt "c-7" "" zeroTime, ok).
Proof.
  split; [reflexivity|].
  apply (ApplyAction_does_not_validate_ids exampleManager
           conversation.ActionSetStatus "Closed" [] conversation7 noUser
           systemUser (UpdateConversationStatusStmt "c-7" "" zeroTime)
           (startWorld (calmEnv 100) sweepDB));
    reflexivity.
Defined.

(** The conversation ends up with an empty status. *)
Example set_status_by_name_empties_the_status :
  Status <$> conversations
               (db (snd (conversation.ApplyAction exampleManager setStatusByName
                           conversation7 noUser
                           (startWorld (calmEnv 100) sweepDB)))) !! "c-7"
  = Some "".
Proof. reflexivity. Qed.

(** X22. The loop of [makeConversationsListQuery] over the list types
    succeeds exactly when every list type is one of the four known ones,
    and then it has bound, in order, the user id for each [assigned] and
    the team ids for each [team_unassigned], and added one condition for
    each list type but [all]; otherwise its error names a list type that
    is not known. *)
Theorem listConditions_binds_the_arguments (userID : Z) (teamIDs : list Z)
  (listTypes conditions : list string) (qArgs : list Z) :
  match conversation.listConditions userID teamIDs listTypes conditions qArgs with
  | Ok (conditions', qArgs') =>
      Forall (fun lt => In lt knownListTypes) listTypes
      /\ qArgs' = qArgs ++ flat_map (listTypeArgs userID teamIDs) listTypes
      /\ length conditions'
         = (length conditions + length (List.filter addsCondition listTypes))%nat
  | Err e =>
      exists lt, In lt listTypes /\ ~ In lt knownListTypes
                 /\ e = GoError ("unknown conversation type: " +:+ lt)
  end.
Proof.
  revert conditions qArgs.
  induction listTypes as [|lt rest IH]; intros conditions qArgs; simpl.
  { rewrite app_nil_r. auto. }
  unfold listTypeArgs, addsCondition.
  destruct (String.eqb_spec lt conversation.AssignedConversations) as [->|Ha].
  { specialize (IH (conditions ++ ["conversations.assigned_user_id = $"
                                   +:+ pretty (Z.of_nat (length qArgs) + 1)])
                  (qArgs ++ [userID])).
    destruct (conversation.listConditions _ _ rest _ _) as [[c' a']|e].
    - destruct IH as (Hk & -> & ->). split; [constructor; simpl; auto|].
      rewrite <- app_assoc, length_app. simpl. split; [reflexivity | unfold addsCondition; lia].
    - destruct IH as (lt & Hin & Hnk & ->). exists lt. auto. }
  destruct (String.eqb_spec lt conversation.UnassignedConversations) as [->|Hu].
  { match goal with
    | |- context [conversation.listConditions _ _ rest ?c ?a] =>
        specialize (IH c a);
        destruct (conversation.listConditions userID teamIDs rest c a)
          as [[c' a']|e]
    end.
    - destruct IH as (Hk & -> & ->). split; [constructor; simpl; auto|].
      rewrite length_app. simpl. split; [reflexivity | unfold addsCondition; lia].
    - destruct IH as (lt & Hin & Hnk & ->). exists lt. auto. }
  destruct (String.eqb_spec lt conversation.TeamUnassignedConversations)
    as [->|Ht].
  { match goal with
    | |- context [conversation.listConditions _ _ rest ?c ?a] =>
        specialize (IH c a);
        destruct (conversation.listConditions userID teamIDs rest c a)
          as [[c' a']|e]
    end.
    - destruct IH as (Hk & -> & ->). split; [constructor; simpl; auto|].
      rewrite <- app_assoc, length_app. simpl. split; [reflexivity | unfold addsCondition; lia].
    - destruct IH as (lt & Hin & Hnk & ->). exists lt. auto. }
  destruct (String.eqb_spec lt conversation.AllConversations) as [->|Hall].
  { specialize (IH conditions qArgs).
    destruct (conversation.listConditions _ _ rest _ _) as [[c' a']|e].
    - destruct IH as (Hk & -> & ->). split; [constructor; simpl; auto|].
      simpl. split; [reflexivity | unfold addsCondition; lia].
    - destruct IH as (lt & Hin & Hnk & ->). exists lt. auto. }
  exists lt. split; [auto|]. split; [|reflexivity].
  unfold knownListTypes. simpl. intuition congruence.
Qed.

Lemma GetConversations_fetchList
  (BuildPaginatedQuery :
     string -> list Z -> conversation.PaginationOptions -> string ->
     list (string * list string) -> result (string * list Z))
  (selectRows : string -> list Z -> DB -> list Conversation)
  (m : conversation.Manager) (userID : Z) (teamIDs : list Z)
  (listTypes : list string) (order orderBy filters : string)
  (page pageSize : Z) :
  conversation.GetConversations BuildPaginatedQuery selectRows m userID teamIDs
    listTypes order orderBy filters page pageSize
  = fetchList selectRows m
      (conversation.makeConversationsListQuery BuildPaginatedQuery userID
         teamIDs listTypes (conversation.q_GetConversations m) order orderBy
         page pageSize filters).
Proof. reflexivity. Qed.

(** X23. [GetConversations] never writes, and ends the transaction it
    began: when the query cannot be made no call is made; when the
    transaction cannot be begun the handler panics (the deferred rollback
    runs on a nil transaction); otherwise the calls are the begin, the
    select with the query and arguments made, and the rollback, in this
    order, and the result is the selected rows, or the one generic error
    when the select failed. *)
Theorem GetConversations_ends_its_transaction
  (BuildPaginatedQuery :
     string -> list Z -> conversation.PaginationOptions -> string ->
     list (string * list string) -> result (string * list Z))
  (selectRows : string -> list Z -> DB -> list Conversation)
  (m : conversation.Manager) (userID : Z) (teamIDs : list Z)
  (listTypes : list string) (order orderBy filters : string)
  (page pageSize : Z) (w : World) :
  exists delta : list Event,
    trace (snd (conversation.GetConversations BuildPaginatedQuery selectRows m
                  userID teamIDs listTypes order orderBy filters page pageSize w))
    = trace w ++ delta
    /\ db (snd (conversation.GetConversations BuildPaginatedQuery selectRows m
                  userID teamIDs listTypes order orderBy filters page pageSize w))
       = db w
    /\ match conversation.makeConversationsListQuery BuildPaginatedQuery userID
               teamIDs listTypes (conversation.q_GetConversations m) order
               orderBy page pageSize filters with
       | Err _ =>
           calls delta = []
           /\ fst (conversation.GetConversations BuildPaginatedQuery selectRows
                     m userID teamIDs listTypes order orderBy filters page
                     pageSize w)
              = conversation.Returns
                  (Err (EnvelopeError GeneralError (conversation.errorFetching m)))
       | Ok (query, qArgs) =>
           (calls delta = [(BeginTxx, false)]
            /\ fst (conversation.GetConversations BuildPaginatedQuery selectRows
                      m userID teamIDs listTypes order orderBy filters page
                      pageSize w) = conversation.Panics)
           \/ exists ok rolledBack : bool,
                calls delta = [(BeginTxx, true); (TxSelect query qArgs, ok);
                               (TxRollback, rolledBack)]
                /\ fst (conversation.GetConversations BuildPaginatedQuery
                          selectRows m userID teamIDs listTypes order orderBy
                          filters page pageSize w)
                   = conversation.Returns
                       (if ok then Ok (selectRows query qArgs (db w))
                        else Err (EnvelopeError GeneralError
                                    (conversation.errorFetching m)))
       end.
Proof.
  rewrite GetConversations_fetchList.
  destruct (conversation.makeConversationsListQuery _ _ _ _ _ _ _ _ _ _)
    as [[query qArgs]|e]; unfold fetchList.
  - unfold bind, call, getDB, log, emit, ret. simpl.
    destruct (fails (env w) (step w) BeginTxx); simpl.
    { eexists. split; [reflexivity|]. split; [reflexivity|]. left. split; reflexivity. }
    destruct (fails (env w) (S (step w)) (TxSelect query qArgs)); simpl;
      destruct (fails (env w) (S (S (step w))) TxRollback); simpl;
      eexists; rewrite <- ?app_assoc; (split; [reflexivity|]);
      (split; [reflexivity|]); right; eexists _, _; split; reflexivity.
  - eexists. split; [reflexivity|]. split; [reflexivity|]. split; reflexivity.
Qed.

Lemma pretty_one : pretty 1 = "1".
Proof. vm_compute. reflexivity. Qed.

Lemma valid_paging_makes_the_query
  (BuildPaginatedQuery :
     string -> list Z -> conversation.PaginationOptions -> string ->
     list (string * list string) -> result (string * list Z))
  (userID : Z) (teamIDs : list Z) (lt : string) (rest : list string)
  (baseQuery : string * string) (order orderBy filters : string)
  (page pageSize : Z) :
  1 <= pageSize <= conversation.conversationsListMaxPageSize ->
  1 <= page ->
  conversation.makeConversationsListQuery BuildPaginatedQuery userID teamIDs
    (lt :: rest) baseQuery order orderBy page pageSize filters
  = match conversation.listConditions userID teamIDs (lt :: rest) [] [] with
    | Err e => Err e
    | Ok (conditions, qArgs) =>
        BuildPaginatedQuery
          (match conditions with
           | [] => fst baseQuery +:+ snd baseQuery
           | _ => fst baseQuery +:+ "AND (" +:+ conversation.Join conditions " OR "
                  +:+ ")" +:+ snd baseQuery
           end)
          qArgs (listOptions order orderBy page pageSize) (defaultFilters filters)
          listFilterFields
    end.
Proof.
  unfold conversation.conversationsListMaxPageSize. intros Hsize Hpage.
  unfold conversation.makeConversationsListQuery,
    conversation.conversationsListMaxPageSize.
  destruct (Z.ltb_spec 100 pageSize); [lia|].
  destruct (Z.ltb_spec pageSize 1); [lia|].
  destruct (Z.ltb_spec page 1); [lia|]. reflexivity.
Qed.

(** X24. With a valid page and page size, the four fixed lists always
    reach the query builder, each with its condition and its argument:
    none for all conversations, the user id as [$1] for the assigned
    ones, the two [IS NULL] tests for the unassigned ones, and the team
    id as [$1] for those unassigned in a team. *)
Theorem fixed_lists_build_their_condition
  (BuildPaginatedQuery :
     string -> list Z -> conversation.PaginationOptions -> string ->
     list (string * list string) -> result (string * list Z))
  (selectRows : string -> list Z -> DB -> list Conversation)
  (m : conversation.Manager) (userID teamID : Z)
  (order orderBy filters : string) (page pageSize : Z) :
  1 <= pageSize <= conversation.conversationsListMaxPageSize ->
  1 <= page ->
  conversation.GetAllConversationsList BuildPaginatedQuery selectRows m order
    orderBy filters page pageSize
  = fetchList selectRows m
      (BuildPaginatedQuery
         (fst (conversation.q_GetConversations m)
          +:+ snd (conversation.q_GetConversations m))
         [] (listOptions order orderBy page pageSize) (defaultFilters filters)
         listFilterFields)
  /\ conversation.GetAssignedConversationsList BuildPaginatedQuery selectRows m
       userID order orderBy filters page pageSize
     = fetchList selectRows m
         (BuildPaginatedQuery
            (fst (conversation.q_GetConversations m)
             +:+ "AND (conversations.assigned_user_id = $1)"
             +:+ snd (conversation.q_GetConversations m))
            [userID] (listOptions order orderBy page pageSize)
            (defaultFilters filters) listFilterFields)
  /\ conversation.GetUnassignedConversationsList BuildPaginatedQuery selectRows
       m order orderBy filters page pageSize
     = fetchList selectRows m
         (BuildPaginatedQuery
            (fst (conversation.q_GetConversations m)
             +:+ "AND (conversations.assigned_user_id IS NULL AND conversations.assigned_team_id IS NULL)"
             +:+ snd (conversation.q_GetConversations m))
            [] (listOptions order orderBy page pageSize)
            (defaultFilters filters) listFilterFields)
  /\ conversation.GetTeamUnassignedConversationsList BuildPaginatedQuery
       selectRows m teamID order orderBy filters page pageSize
     = fetchList selectRows m
         (BuildPaginatedQuery
            (fst (conversation.q_GetConversations m)
             +:+ "AND ((conversations.assigned_team_id IN ($1) AND conversations.assigned_user_id IS NULL))"
             +:+ snd (conversation.q_GetConversations m))
            [teamID] (listOptions order orderBy page pageSize)
            (defaultFilters filters) listFilterFields).
Proof.
  intros Hsize Hpage.
  unfold conversation.GetAllConversationsList,
    conversation.GetAssignedConversationsList,
    conversation.GetUnassignedConversationsList,
    conversation.GetTeamUnassignedConversationsList.
  rewrite !GetConversations_fetchList.
  rewrite !(valid_paging_makes_the_query _ _ _ _ _ _ _ _ _ _ _ Hsize Hpage).
  cbn [conversation.listConditions].
  change (String.eqb conversation.AllConversations
            conversation.AssignedConversations) with false.
  change (String.eqb conversation.AllConversations
            conversation.UnassignedConversations) with false.
  change (String.eqb conversation.AllConversations
            conversation.TeamUnassignedConversations) with false.
  change (String.eqb conversation.AllConversations
            conversation.AllConversations) with true.
  change (String.eqb conversation.AssignedConversations
            conversation.AssignedConversations) with true.
  change (String.eqb conversation.UnassignedConversations
            conversation.AssignedConversations) with false.
  change (String.eqb conversation.UnassignedConversations
            conversation.UnassignedConversations) with true.
  change (String.eqb conversation.TeamUnassignedConversations
            conversation.AssignedConversations) with false.
  change (String.eqb conversation.TeamUnassignedConversations
            conversation.UnassignedConversations) with false.
  change (String.eqb conversation.TeamUnassignedConversations
            conversation.TeamUnassignedConversations) with true.
  cbv iota. cbn [length app imap Z.of_nat Z.add conversation.Join].
  change (Z.of_nat 0 + Z.of_nat 0 + 1) with 1. change (Z.of_nat 0 + 1) with 1.
  rewrite pretty_one.
  repeat split; reflexivity.
Qed.

Lemma fixed_lists_build_their_condition_witness :
  fst (conversation.GetTeamUnassignedConversationsList paginate allRows
         exampleManager 3 "" "" "" 1 50 (startWorld (calmEnv 100) sweepDB))
  = conversation.Returns (Ok [conversation7])
  /\ List.filter (fun c => match fst c with TxSelect _ _ => true | _ => false end)
       (calls (trace (snd (conversation.GetTeamUnassignedConversationsList
                             paginate allRows exampleManager 3 "" "" "" 1 50
                             (startWorld (calmEnv 100) sweepDB)))))
     = [(TxSelect "SELECT * FROM conversations WHERE 1=1 AND ((conversations.assigned_team_id IN ($1) AND conversations.assigned_user_id IS NULL)) ORDER BY last_message_at DESC LIMIT 50 OFFSET 0" [3], true)].
Proof.
  destruct (fixed_lists_build_their_condition paginate allRows exampleManager 0 3
              "" "" "" 1 50) as (_ & _ & _ & Hteam).
  - unfold conversation.conversationsListMaxPageSize. lia.
  - lia.
  - rewrite Hteam. vm_compute. split; reflexivity.
Defined.

(** With no team id, the team list has an empty [IN ()]. *)
Example view_list_without_teams :
  conversation.listConditions 7 [] [conversation.TeamUnassignedConversations]
    [] []
  = Ok (["(conversations.assigned_team_id IN () AND conversations.assigned_user_id IS NULL)"],
        []).
Proof. reflexivity. Qed.

Lemma prefix_append (p u : string) : String.prefix p (p +:+ u) = true.
Proof.
  induction p as [|c p IH]; simpl; [by destruct u|].
  destruct (ascii_dec c c); [exact IH | congruence].
Qed.

Lemma substring_whole (u : string) : String.substring 0 (String.length u) u = u.
Proof. induction u as [|c u IH]; simpl; [reflexivity | by rewrite IH]. Qed.

Lemma substring_append (p u : string) :
  String.substring (String.length p)
    (String.length (p +:+ u) - String.length p) (p +:+ u) = u.
Proof.
  induction p as [|c p IH]; simpl.
  - rewrite Nat.sub_0_r. apply substring_whole.
  - exact IH.
Qed.

Lemma TrimPrefix_prefixed (p u : string) : cmd.TrimPrefix (p +:+ u) p = u.
Proof.
  unfold cmd.TrimPrefix, cmd.HasPrefix.
  by rewrite prefix_append, substring_append.
Qed.

(** X25. [handleServeMedia] hands a file out (serves it or redirects to
    it) only when the media was found and access was granted by the check
    that applies to it: the access to the conversation of the message for
    a media of model [messages], the access to the model otherwise. It
    logs nothing then. *)
Theorem handleServeMedia_delivers_only_when_allowed
  (filepath_Join : string -> string -> string) (app : cmd.App) (user : User)
  (uuid : string) (w : World) :
  delivers (fst (cmd.handleServeMedia filepath_Join app user uuid w)) = true ->
  snd (cmd.handleServeMedia filepath_Join app user uuid w) = w
  /\ exists media : cmd.Media,
       cmd.media_GetByUUID app (cmd.TrimPrefix uuid cmd.thumbPrefix) = Ok media
       /\ if String.eqb (cmd.Model media) "messages" then
            exists conversation : Conversation,
              cmd.conversation_GetConversationByMessageID app
                (cmd.ModelID media) = Ok conversation
              /\ cmd.authz_EnforceConversationAccess app user conversation
                 = Ok true
          else
            cmd.authz_EnforceMediaAccess app user (cmd.Model media) = Ok true.
Proof.
  unfold cmd.handleServeMedia.
  destruct (cmd.media_GetByUUID app _) as [media|e] eqn:Hmedia; [|discriminate].
  destruct (cmd.authz_EnforceMediaAccess app user (cmd.Model media))
    as [allowed|e] eqn:Haccess; [|discriminate].
  destruct (String.eqb (cmd.Model media) "messages") eqn:Hmodel.
  - destruct (cmd.conversation_GetConversationByMessageID app _) as [c|e]
      eqn:Hconv; [|discriminate].
    destruct (cmd.authz_EnforceConversationAccess app user c) as [[|]|e]
      eqn:Hallowed; try discriminate.
    intros _. split.
    + cbn [negb]. cbv zeta.
      destruct (String.eqb _ "fs"); [reflexivity|].
      destruct (String.eqb _ "s3"); reflexivity.
    + exists media. split; [reflexivity|]. rewrite Hmodel. exists c. auto.
  - destruct allowed; [|discriminate]. intros _. split.
    + cbn [negb]. cbv zeta.
      destruct (String.eqb _ "fs"); [reflexivity|].
      destruct (String.eqb _ "s3"); reflexivity.
    + exists media. split; [reflexivity|]. rewrite Hmodel. exact Haccess.
Qed.

Lemma handleServeMedia_delivers_only_when_allowed_witness :
  fst (cmd.handleServeMedia joinSlash exampleApp agent42 "m-1"
         (startWorld (calmEnv 100) emptyDB))
  = cmd.ServeFile "/uploads/m-1"
  /\ exists media : cmd.Media,
       cmd.media_GetByUUID exampleApp (cmd.TrimPrefix "m-1" cmd.thumbPrefix)
       = Ok media
       /\ if String.eqb (cmd.Model media) "messages" then
            exists conversation : Conversation,
              cmd.conversation_GetConversationByMessageID exampleApp
                (cmd.ModelID media) = Ok conversation
              /\ cmd.authz_EnforceConversationAccess exampleApp agent42
                   conversation = Ok true
          else
            cmd.authz_EnforceMediaAccess exampleApp agent42 (cmd.Model media)
            = Ok true.
Proof.
  split; [reflexivity|].
  apply (handleServeMedia_delivers_only_when_allowed joinSlash exampleApp
           agent42 "m-1" (startWorld (calmEnv 100) emptyDB)).
  reflexivity.
Defined.

(** X26. For the media of a message the verdict of the media-access
    check is not used: as long as that check returns no error, what it
    answers changes nothing, and the access to the conversation alone
    decides. *)
Theorem handleServeMedia_conversation_access_decides
  (filepath_Join : string -> string -> string) (app : cmd.App) (user : User)
  (uuid : string) (w : World) (media : cmd.Media)
  (enforce : User -> string -> result bool) :
  cmd.media_GetByUUID app (cmd.TrimPrefix uuid cmd.thumbPrefix) = Ok media ->
  cmd.Model media = "messages" ->
  (exists b, cmd.authz_EnforceMediaAccess app user "messages" = Ok b) ->
  (exists b, enforce user "messages" = Ok b) ->
  cmd.handleServeMedia filepath_Join (withMediaAccess app enforce) user uuid w
  = cmd.handleServeMedia filepath_Join app user uuid w.
Proof.
  intros Hmedia Hmodel [b Hb] [b' Hb'].
  unfold cmd.handleServeMedia, withMediaAccess.
  cbn [cmd.media_GetByUUID cmd.media_GetURL cmd.authz_EnforceMediaAccess
       cmd.authz_EnforceConversationAccess
       cmd.conversation_GetConversationByMessageID cmd.ko_String].
  rewrite Hmedia, Hmodel, Hb, Hb'. reflexivity.
Qed.

Lemma handleServeMedia_conversation_access_decides_witness :
  cmd.authz_EnforceMediaAccess exampleApp agent42 "messages" = Ok false
  /\ cmd.handleServeMedia joinSlash
       (withMediaAccess exampleApp (fun _ _ => Ok true)) agent42 "m-1"
       (startWorld (calmEnv 100) emptyDB)
     = cmd.handleServeMedia joinSlash exampleApp agent42 "m-1"
         (startWorld (calmEnv 100) emptyDB)
  /\ fst (cmd.handleServeMedia joinSlash exampleApp agent42 "m-1"
            (startWorld (calmEnv 100) emptyDB))
     = cmd.ServeFile "/uploads/m-1".
Proof.
  split; [reflexivity|]. split; [|reflexivity].
  apply (handleServeMedia_conversation_access_decides joinSlash exampleApp
           agent42 "m-1" (startWorld (calmEnv 100) emptyDB)
           {| cmd.Model := "messages"; cmd.ModelID := 11 |});
    [reflexivity | reflexivity | by exists false | by exists true].
Defined.

(** X27. A thumbnail is authorised as the media it belongs to: for a
    uuid that does not itself start with [thumb_], a request for
    [thumb_] followed by the uuid is answered as the request for the uuid
    is, and when the file is handed out it is the thumbnail's own. *)
Theorem handleServeMedia_authorises_a_thumbnail_as_its_media
  (filepath_Join : string -> string -> string) (app : cmd.App) (user : User)
  (uuid : string) (w : World) :
  cmd.TrimPrefix uuid cmd.thumbPrefix = uuid ->
  cmd.handleServeMedia filepath_Join app user (cmd.thumbPrefix +:+ uuid) w
  = (retarget filepath_Join app (cmd.thumbPrefix +:+ uuid)
       (fst (cmd.handleServeMedia filepath_Join app user uuid w)),
     snd (cmd.handleServeMedia filepath_Join app user uuid w)).
Proof.
  intros Hplain. unfold cmd.handleServeMedia.
  rewrite TrimPrefix_prefixed, Hplain.
  destruct (cmd.media_GetByUUID app uuid) as [media|e]; [|reflexivity].
  destruct (cmd.authz_EnforceMediaAccess app user (cmd.Model media))
    as [allowed|e]; [|reflexivity].
  destruct (if String.eqb (cmd.Model media) "messages" then _ else _)
    as [[|]|e]; try reflexivity.
  cbn [negb]. cbv zeta.
  destruct (String.eqb _ "fs"); [reflexivity|].
  destruct (String.eqb _ "s3"); reflexivity.
Qed.

Lemma handleServeMedia_authorises_a_thumbnail_as_its_media_witness :
  fst (cmd.handleServeMedia joinSlash exampleApp agent42 "thumb_m-1"
         (startWorld (calmEnv 100) emptyDB))
  = cmd.ServeFile "/uploads/thumb_m-1"
  /\ fst (cmd.handleServeMedia joinSlash exampleApp systemUser "thumb_m-1"
            (startWorld (calmEnv 100) emptyDB))
     = cmd.SendErrorEnvelope cmd.StatusUnauthorized "Permission denied"
         PermissionError.
Proof.
  split.
  - exact (f_equal fst
             (handleServeMedia_authorises_a_thumbnail_as_its_media joinSlash
                exampleApp agent42 "m-1" (startWorld (calmEnv 100) emptyDB)
                eq_refl)).
  - exact (f_equal fst
             (handleServeMedia_authorises_a_thumbnail_as_its_media joinSlash
                exampleApp systemUser "m-1" (startWorld (calmEnv 100) emptyDB)
                eq_refl)).
Defined.

Lemma thumbName_differs (uuid : string) : cmd.thumbPrefix +:+ uuid <> uuid.
Proof.
  intros Heq. apply (f_equal String.length) in Heq.
  change (S (S (S (S (S (S (String.length uuid)))))) = String.length uuid) in Heq.
  lia.
Qed.

Section Uploads.

Variable File : Type.
Variable Sprintf_tooLarge : cmd.float64 -> string.
Variables stringutil_SanitizeFilename filepath_Ext strings_ToLower
  : string -> string.
Variable image_Exts : list string.
Variable image_CreateThumb : Z -> File -> result File.
Variable image_GetDimensions : File -> result (Z * Z).

(** X28. [handleMediaUpload] reaches the media store only for a file that
    passed the checks: whenever it uploads, inserts or deletes anything,
    the form was parsed, it holds a file that opened, the size of the
    file is not above the maximum and its extension is allowed. *)
Theorem handleMediaUpload_validates_before_storing (app : cmd.Uploader File)
  (form : result (cmd.Form File)) (uuid : string) :
  existsb touchesStore
    (snd (cmd.handleMediaUpload Sprintf_tooLarge stringutil_SanitizeFilename
            filepath_Ext strings_ToLower image_Exts image_CreateThumb
            image_GetDimensions app form uuid)) = true ->
  exists (form' : cmd.Form File) (fileHeader : cmd.FileHeader File)
         (others : list (cmd.FileHeader File)) (file : File),
    form = Ok form'
    /\ cmd.File_files form' = Some (fileHeader :: others)
    /\ cmd.Open fileHeader = Ok file
    /\ accepted app stringutil_SanitizeFilename filepath_Ext strings_ToLower
         fileHeader = true.
Proof.
  unfold cmd.handleMediaUpload.
  destruct form as [form'|e]; [|discriminate].
  destruct (cmd.File_files form') as [[|fileHeader others]|] eqn:Hfiles;
    try discriminate.
  destruct (cmd.Open fileHeader) as [file|e] eqn:Hopen; [|discriminate].
  cbv zeta. intros Hops.
  exists form', fileHeader, others, file.
  split; [reflexivity|]. split; [exact Hfiles|]. split; [exact Hopen|].
  revert Hops. unfold accepted, extensionOf.
  destruct (PrimFloat.ltb _ _); [discriminate|].
  destruct (cmd.Contains _ "*"); [reflexivity|].
  destruct (cmd.Contains _ _); [reflexivity | discriminate].
Qed.

(** Goes through the operations a hypothesis says an operation is
    among. *)
Ltac op_cases :=
  repeat match goal with
         | H : _ \/ _ |- _ => destruct H
         | H : False |- _ => destruct H
         | H : In _ (_ :: _) |- _ => cbn [In] in H
         | H : In _ [] |- _ => destruct H
         | H : _ = _ |- _ => discriminate H
         | H : cmd.OpUpload _ _ _ = cmd.OpUpload _ _ _ |- _ =>
             injection H; clear H; intros; subst
         | H : cmd.thumbPrefix +:+ ?u = ?u |- _ =>
             destruct (thumbName_differs u H)
         | H : ?u = cmd.thumbPrefix +:+ ?u |- _ =>
             destruct (thumbName_differs u (eq_sym H))
         end.

(** X29. [handleMediaUpload] leaves no orphan in the media store: when
    it answers with the inserted media nothing was deleted, and the file
    was uploaded and inserted; when it answers with anything else, a file
    it uploaded was deleted under its uuid, and a thumbnail it uploaded
    was deleted under the name the store gave it. *)
Theorem handleMediaUpload_leaves_no_orphan (app : cmd.Uploader File)
  (form : result (cmd.Form File)) (uuid : string) :
  match fst (cmd.handleMediaUpload Sprintf_tooLarge stringutil_SanitizeFilename
               filepath_Ext strings_ToLower image_Exts image_CreateThumb
               image_GetDimensions app form uuid) with
  | cmd.SendEnvelope _ =>
      deleted (snd (cmd.handleMediaUpload Sprintf_tooLarge
                      stringutil_SanitizeFilename filepath_Ext strings_ToLower
                      image_Exts image_CreateThumb image_GetDimensions app form
                      uuid)) = []
      /\ exists fileName contentType disposition size meta stored,
           In (cmd.OpUpload uuid contentType (Ok stored))
              (snd (cmd.handleMediaUpload Sprintf_tooLarge
                      stringutil_SanitizeFilename filepath_Ext strings_ToLower
                      image_Exts image_CreateThumb image_GetDimensions app form
                      uuid))
           /\ In (cmd.OpInsert fileName contentType "" "" disposition uuid 0
                    size meta true)
                (snd (cmd.handleMediaUpload Sprintf_tooLarge
                        stringutil_SanitizeFilename filepath_Ext
                        strings_ToLower image_Exts image_CreateThumb
                        image_GetDimensions app form uuid))
  | _ =>
      (forall contentType stored,
         In (cmd.OpUpload uuid contentType (Ok stored))
            (snd (cmd.handleMediaUpload Sprintf_tooLarge
                    stringutil_SanitizeFilename filepath_Ext strings_ToLower
                    image_Exts image_CreateThumb image_GetDimensions app form
                    uuid)) ->
         In uuid
            (deleted (snd (cmd.handleMediaUpload Sprintf_tooLarge
                             stringutil_SanitizeFilename filepath_Ext
                             strings_ToLower image_Exts image_CreateThumb
                             image_GetDimensions app form uuid))))
      /\ (forall contentType stored,
            In (cmd.OpUpload (cmd.thumbPrefix +:+ uuid) contentType (Ok stored))
               (snd (cmd.handleMediaUpload Sprintf_tooLarge
                       stringutil_SanitizeFilename filepath_Ext strings_ToLower
                       image_Exts image_CreateThumb image_GetDimensions app
                       form uuid)) ->
            In stored
               (deleted (snd (cmd.handleMediaUpload Sprintf_tooLarge
                                stringutil_SanitizeFilename filepath_Ext
                                strings_ToLower image_Exts image_CreateThumb
                                image_GetDimensions app form uuid))))
  end.
Proof.
  unfold cmd.handleMediaUpload.
  destruct form as [form'|e]; [|cbn [fst snd List.app]; split; intros; op_cases].
  destruct (cmd.File_files form') as [[|fileHeader others]|];
    try (cbn [fst snd List.app]; split; intros; op_cases).
  destruct (cmd.Open fileHeader) as [file|e]; [|cbn [fst snd List.app]; split; intros; op_cases].
  cbv zeta.
  destruct (PrimFloat.ltb _ _); [cbn [fst snd List.app]; split; intros; op_cases|].
  destruct (_ && _); [cbn [fst snd List.app]; split; intros; op_cases|].
  unfold cmd.storeMedia. cbv zeta.
  destruct (cmd.Contains image_Exts _).
  - destruct (image_CreateThumb _ file) as [thumbFile|e];
      [|cbn [fst snd List.app]; split; intros; op_cases].
    destruct (cmd.media_Upload app (cmd.thumbPrefix +:+ uuid) _ thumbFile)
      as [thumb|e]; [|cbn [fst snd List.app]; split; intros; op_cases].
    destruct (image_GetDimensions file) as [[width height]|e];
      [|cbn; split; intros; op_cases; auto].
    destruct (cmd.media_Upload app uuid _ file) as [stored|e];
      [|cbn; split; intros; op_cases; auto].
    destruct (cmd.media_Insert app _ _ _ _ _ _ _ _ _) as [media|e];
      [|cbn; split; intros; op_cases; auto].
    cbn. split; [reflexivity|]. eexists _, _, _, _, _, _. split; eauto 10.
  - destruct (image_GetDimensions file) as [[width height]|e];
      [|cbn; split; intros; op_cases; auto].
    destruct (cmd.media_Upload app uuid _ file) as [stored|e];
      [|cbn; split; intros; op_cases; auto].
    destruct (cmd.media_Insert app _ _ _ _ _ _ _ _ _) as [media|e];
      [|cbn; split; intros; op_cases; auto].
    cbn. split; [reflexivity|]. eexists _, _, _, _, _, _. split; eauto 10.
Qed.

(** X30. [handleMediaUpload] asks for the dimensions of every file, image
    or not: an accepted file that is not an image and whose dimensions
    cannot be read is refused with "Error uploading file", nothing having
    been uploaded, and the two names that were never stored are
    deleted. *)
Theorem handleMediaUpload_needs_the_dimensions_of_every_file
  (app : cmd.Uploader File) (form : cmd.Form File)
  (fileHeader : cmd.FileHeader File) (others : list (cmd.FileHeader File))
  (file : File) (uuid : string) (e : error) :
  cmd.File_files form = Some (fileHeader :: others) ->
  cmd.Open fileHeader = Ok file ->
  accepted app stringutil_SanitizeFilename filepath_Ext strings_ToLower
    fileHeader = true ->
  cmd.Contains image_Exts
    (extensionOf stringutil_SanitizeFilename filepath_Ext strings_ToLower
       fileHeader) = false ->
  image_GetDimensions file = Err e ->
  cmd.handleMediaUpload Sprintf_tooLarge stringutil_SanitizeFilename
    filepath_Ext strings_ToLower image_Exts image_CreateThumb
    image_GetDimensions app (Ok form) uuid
  = (cmd.SendErrorEnvelope cmd.StatusInternalServerError "Error uploading file"
       GeneralError,
     [cmd.OpLog "error getting image dimensions"; cmd.OpDelete uuid;
      cmd.OpDelete (cmd.thumbPrefix +:+ uuid); cmd.OpClose]).
Proof.
  intros Hfiles Hopen Hok Himage Hdim.
  unfold accepted, extensionOf in *.
  apply andb_true_iff in Hok as [Hsize Hext].
  apply negb_true_iff in Hsize.
  unfold cmd.handleMediaUpload. rewrite Hfiles, Hopen. cbv zeta.
  rewrite Hsize.
  assert (Hallowed :
    negb (cmd.Contains (cmd.constant_AllowedUploadFileExtensions app) "*")
    && negb (cmd.Contains (cmd.constant_AllowedUploadFileExtensions app)
               (cmd.TrimPrefix
                  (strings_ToLower
                     (filepath_Ext
                        (stringutil_SanitizeFilename (cmd.Filename fileHeader))))
                  ".")) = false).
  { destruct (cmd.Contains _ "*"); [reflexivity|].
    cbn [orb] in Hext. rewrite Hext. reflexivity. }
  rewrite Hallowed. unfold cmd.storeMedia. cbv zeta.
  rewrite Himage, Hdim. reflexivity.
Qed.

End Uploads.

Lemma handleMediaUpload_validates_before_storing_witness :
  exists (form' : cmd.Form string) (fileHeader : cmd.FileHeader string)
         (others : list (cmd.FileHeader string)) (file : string),
    exampleForm "scan.png" 2048 "PNG..." = Ok form'
    /\ cmd.File_files form' = Some (fileHeader :: others)
    /\ cmd.Open fileHeader = Ok file
    /\ accepted (exampleUploader true) (fun s => s) exampleExt (fun s => s)
         fileHeader = true.
Proof.
  apply (handleMediaUpload_validates_before_storing string exampleSprintf
           (fun s => s) exampleExt (fun s => s) ["png"; "jpg"]
           exampleCreateThumb exampleGetDimensions (exampleUploader true)
           (exampleForm "scan.png" 2048 "PNG...") "u-1").
  vm_compute. reflexivity.
Defined.

Lemma handleMediaUpload_needs_the_dimensions_of_every_file_witness :
  exampleUpload true "report.pdf" 2048 "%PDF-1.7" "u-1"
  = (cmd.SendErrorEnvelope cmd.StatusInternalServerError "Error uploading file"
       GeneralError,
     [cmd.OpLog "error getting image dimensions"; cmd.OpDelete "u-1";
      cmd.OpDelete "thumb_u-1"; cmd.OpClose]).
Proof.
  apply (handleMediaUpload_needs_the_dimensions_of_every_file string
           exampleSprintf (fun s => s) exampleExt (fun s => s) ["png"; "jpg"]
           exampleCreateThumb exampleGetDimensions (exampleUploader true)
           {| cmd.File_files :=
                Some [{| cmd.Filename := "report.pdf";
                         cmd.Header_ContentType := "application/octet-stream";
                         cmd.Size := 2048; cmd.Open := Ok "%PDF-1.7" |}];
              cmd.Value_inline := None |}
           {| cmd.Filename := "report.pdf";
              cmd.Header_ContentType := "application/octet-stream";
              cmd.Size := 2048; cmd.Open := Ok "%PDF-1.7" |}
           [] "%PDF-1.7" "u-1" (GoError "image: unknown format"));
    vm_compute; reflexivity.
Defined.

(** An image is stored with its thumbnail; when the insert fails both are
    deleted, the thumbnail under the name the store gave it; a file of
    10 MB passes the size check and one byte more does not. *)
Example upload_examples :
  exampleUpload true "scan.png" 2048 "PNG..." "u-1"
  = (cmd.SendEnvelope {| cmd.Model := ""; cmd.ModelID := 0 |},
     [cmd.OpUpload "thumb_u-1" "application/octet-stream" (Ok "thumb_u-1.jpg");
      cmd.OpUpload "u-1" "application/octet-stream" (Ok "u-1");
      cmd.OpInsert "scan.png" "application/octet-stream" "" ""
        cmd.DispositionAttachment "u-1" 0 2048 (640, 480) true;
      cmd.OpClose])
  /\ deleted (snd (exampleUpload false "scan.png" 2048 "PNG..." "u-1"))
     = ["u-1"; "thumb_u-1.jpg"]
  /\ fst (exampleUpload true "scan.png" (10 * 1024 * 1024 + 1) "PNG..." "u-1")
     = cmd.SendErrorEnvelope cmd.StatusRequestEntityTooLarge
         "File size is too large. Please upload file lesser than 10.000000 MB"
         GeneralError
  /\ existsb touchesStore
       (snd (exampleUpload true "scan.png" (10 * 1024 * 1024) "PNG..." "u-1"))
     = true
  /\ fst (exampleUpload true "notes.txt" 2048 "hello" "u-1")
     = cmd.SendErrorEnvelope cmd.StatusBadRequest "Unsupported file type"
         InputError.
Proof. vm_compute. repeat split. Qed.


(** * The set-SLA path: the team id 0 and the app-settings default *)

Lemma appDefaultDeadlines_withTeamStore `{TimePkg} sm teams start p :
  appDefaultDeadlines (withTeamStore sm teams) start p
  = appDefaultDeadlines sm start p.
Proof. reflexivity. Qed.

Lemma getBusinessHoursAndTimezone_team0 `{TimePkg} m w :
  fst (sla.getBusinessHoursAndTimezone m 0 w)
  = match appDefault m with
    | Err e => Err e
    | Ok c => if configured c then fetchCalendar m c else Err notConfigured
    end.
Proof. apply getBusinessHoursAndTimezone_value. Qed.

(** With the team id 0 the deadlines [CalculateDeadlines] returns are
    those of the app-settings default. *)
Lemma CalculateDeadlines_team0_value `{TimePkg} m start pol w d :
  fst (sla.CalculateDeadlines m start pol 0 w) = Ok d ->
  exists p, sla_policies (db w) !! pol = Some p
            /\ appDefaultDeadlines m start p = Ok d.
Proof.
  intros Hd.
  destruct (CalculateDeadlines_value m start pol 0 w d Hd)
    as (bh & tz & p & Hbh & Hp & Hfr & Hres).
  exists p. split; [exact Hp|].
  rewrite getBusinessHoursAndTimezone_team0 in Hbh.
  unfold appDefaultDeadlines.
  destruct (appDefault m) as [c|e]; [|discriminate].
  destruct (configured c); [|discriminate].
  rewrite Hbh, Hfr, Hres. by destruct d.
Qed.

Lemma CalculateDeadlines_team0_succeeds `{TimePkg} m start pol w p d :
  storeUp w ->
  sla_policies (db w) !! pol = Some p ->
  appDefaultDeadlines m start p = Ok d ->
  fst (sla.CalculateDeadlines m start pol 0 w) = Ok d.
Proof.
  intros Hup Hp Hd. unfold sla.CalculateDeadlines. rewrite bind_run.
  pose proof (keeps_getBusinessHoursAndTimezone (fun d => d = db w) m 0 w
                eq_refl) as Hdb.
  pose proof (steady_getBusinessHoursAndTimezone m 0 w) as Henv.
  pose proof (getBusinessHoursAndTimezone_team0 m w) as Hbh.
  set (w1 := snd (sla.getBusinessHoursAndTimezone m 0 w)) in *.
  rewrite Hbh. unfold appDefaultDeadlines in Hd.
  destruct (appDefault m) as [c|e]; [|discriminate].
  destruct (configured c); [|discriminate].
  destruct (fetchCalendar m c) as [[bh tz]|e]; [|discriminate].
  unfold sla.Get, bind, call, getDB, log, emit, ret.
  cbn [fst snd env step db trace]. simpl in Hdb.
  rewrite Henv, Hup. cbn [negb fst snd perform env step db trace].
  rewrite Hdb, Hp. cbn [fst snd].
  destruct (sla.calculateDeadline start bh tz (FirstResponseTime p)) as [fr|];
    [|discriminate].
  destruct (sla.calculateDeadline start bh tz (ResolutionTime p)) as [res|];
    [|discriminate].
  exact Hd.
Qed.

(** Whatever [sla.ApplySLA] inserts for the team id 0 carries the
    deadlines of the app-settings default. *)
Lemma sla_ApplySLA_team0_inserts `{TimePkg} m start conversationID pol w :
  exists delta : list Event,
    trace (snd (sla.ApplySLA m start conversationID 0 pol w)) = trace w ++ delta
    /\ forall e, In e (List.filter is_insert delta) ->
                 carriesAppDefault m start (db w) conversationID pol e.
Proof.
  unfold sla.ApplySLA. rewrite bind_run.
  destruct (quiet_CalculateDeadlines m start pol 0 w) as (d1 & Ht1 & Hf1).
  pose proof (CalculateDeadlines_team0_value m start pol w) as Hval.
  set (w1 := snd (sla.CalculateDeadlines m start pol 0 w)) in *.
  destruct (fst (sla.CalculateDeadlines m start pol 0 w)) as [d|e].
  - destruct (Hval d eq_refl) as (p & Hp & Hd).
    rewrite bind_run, call_fst.
    pose proof (call_trace (ApplySLAStmt conversationID pol
                              (FirstResponse d) (Resolution d)) w1) as Htc.
    set (w2 := snd (call _ w1)) in *.
    destruct (fails (env w1) (step w1) _) eqn:Hfail; cbn [negb].
    + eexists. cbn [bind log emit ret fst snd trace].
      rewrite Htc, Ht1, <- !app_assoc. split; [reflexivity|].
      rewrite !List.filter_app, Hf1. intros e [<-|[]]. by exists p, d, false.
    + destruct (quiet_Get pol w2) as (d2 & Ht2 & Hf2).
      eexists. rewrite Ht2, Htc, Ht1, <- !app_assoc. split; [reflexivity|].
      rewrite !List.filter_app, Hf1, Hf2. intros e [<-|[]]. by exists p, d, true.
  - exists d1. cbn [ret fst snd]. split; [exact Ht1|]. rewrite Hf1. intros ev [].
Qed.

(** With the store up, a policy in the tables and deadlines in the
    app-settings default, [sla.ApplySLA] for the team id 0 inserts once,
    with these deadlines, and returns the policy. *)
Lemma sla_ApplySLA_team0_applies `{TimePkg} m start conversationID pol w p d :
  storeUp w ->
  sla_policies (db w) !! pol = Some p ->
  appDefaultDeadlines m start p = Ok d ->
  fst (sla.ApplySLA m start conversationID 0 pol w) = Ok p
  /\ env (snd (sla.ApplySLA m start conversationID 0 pol w)) = env w
  /\ exists delta : list Event,
       trace (snd (sla.ApplySLA m start conversationID 0 pol w))
       = trace w ++ delta
       /\ List.filter is_insert delta
          = [EvCall (ApplySLAStmt conversationID pol (FirstResponse d)
                       (Resolution d)) true].
Proof.
  intros Hup Hp Hd. unfold sla.ApplySLA. rewrite bind_run.
  destruct (quiet_CalculateDeadlines m start pol 0 w) as (d1 & Ht1 & Hf1).
  pose proof (keeps_CalculateDeadlines (fun d => d = db w) m start pol 0 w
                eq_refl) as Hdb.
  pose proof (steady_CalculateDeadlines m start pol 0 w) as Henv.
  pose proof (CalculateDeadlines_team0_succeeds m start pol w p d Hup Hp Hd)
    as Hcalc.
  set (w1 := snd (sla.CalculateDeadlines m start pol 0 w)) in *.
  rewrite Hcalc.
  unfold sla.Get, bind, call, getDB, log, emit, ret.
  cbn [fst snd env step db trace].
  rewrite Henv, !Hup. cbn [negb fst snd env step db trace].
  simpl in Hdb. rewrite Hdb.
  rewrite !Hup. cbn [negb].
  match goal with
  | |- context [sla_policies ?x !! pol] =>
      change (sla_policies x !! pol) with (sla_policies (db w) !! pol)
  end.
  rewrite Hp. cbn [fst snd env trace].
  split; [reflexivity|]. split; [reflexivity|].
  eexists. rewrite Ht1, <- !app_assoc. split; [reflexivity|].
  rewrite !List.filter_app, Hf1. reflexivity.
Qed.

(** What [recordApplied] adds to the trace is no insert of an applied
    SLA. *)
Lemma quiet_recordApplied uuid actor r : quiet is_insert (recordApplied uuid actor r).
Proof.
  intros w. destruct r as [policy|e]; [|by exists []; rewrite app_nil_r].
  unfold recordApplied, conversation.RecordSLASet, conversation.recordActivity,
    bind, call, ret.
  cbn [fst snd]. destruct (fails _ _ _); cbn [negb fst snd trace]; by eexists.
Qed.

Lemma recordApplied_records uuid actor p w :
  storeUp w ->
  fst (recordApplied uuid actor (Ok p) w) = None
  /\ trace (snd (recordApplied uuid actor (Ok p) w))
     = trace w ++ [EvCall (InsertActivity (slaSetActivity uuid p actor)) true].
Proof.
  intros Hup.
  unfold recordApplied, conversation.RecordSLASet, conversation.recordActivity,
    bind, call, ret, slaSetActivity.
  cbn [fst snd]. rewrite Hup. by cbn [negb fst snd trace].
Qed.

Lemma conversation_ApplySLA_run cm store uuid conversationID policyID actor w :
  conversation.ApplySLA (withSLAStore cm store) uuid conversationID policyID
    actor w
  = recordApplied uuid actor (fst (store conversationID 0 policyID w))
      (snd (store conversationID 0 policyID w)).
Proof.
  unfold conversation.ApplySLA, recordApplied. cbn [withSLAStore conversation.slaStore_ApplySLA].
  rewrite bind_run. reflexivity.
Qed.

(** C10. Every SLA application that goes through the conversation
    manager's [ApplySLA], the set-SLA action of [ApplyAction] included,
    passes the team id 0 to the SLA engine, and the deadlines are those of
    the app-settings default. [ApplySLA] runs the SLA store on the
    conversation, the team id 0 and the policy, and then records the
    result. With the engine as the store, whatever its team store holds:
    every applied SLA the run inserts is for the conversation and the
    policy and carries the deadlines computed from the start time in the
    business hours and the time zone of the app-settings default; and when
    the store is up, the policy exists and the app-settings default gives
    deadlines, the run returns no error, inserts exactly one applied SLA,
    successfully and with these deadlines, and records the activity. The
    set-SLA action is one log line followed by [ApplySLA] on the
    conversation with the first value as the policy, its error wrapped.
    The whole run is the same for every team store, and the business
    hours and time zone the engine resolves for the team id 0 are the
    app-settings default. *)
Theorem conversation_ApplySLA_uses_app_default `{TimePkg}
  (cm : conversation.Manager) (sm : sla.Manager) (start : M Time)
  (store : Z -> Z -> Z -> M (result SLAPolicy)) (teams : Z -> result Team)
  (conv : Conversation) (policyID : Z) (values : list string) (actor : User)
  (w : World) :
  conversation.ApplySLA (withSLAStore cm store) (UUID conv) (ConvID conv)
    policyID actor w
  = recordApplied (UUID conv) actor (fst (store (ConvID conv) 0 policyID w))
      (snd (store (ConvID conv) 0 policyID w))
  /\ (exists delta : list Event,
        trace (snd (conversation.ApplySLA
                      (withSLAStore cm (slaStoreOf (withTeamStore sm teams) start))
                      (UUID conv) (ConvID conv) policyID actor w))
        = trace (snd (start w)) ++ delta
        /\ forall e, In e (List.filter is_insert delta) ->
             carriesAppDefault sm (fst (start w)) (db (snd (start w)))
               (ConvID conv) policyID e)
  /\ (forall (p : SLAPolicy) (d : Deadlines),
        storeUp (snd (start w)) ->
        sla_policies (db (snd (start w))) !! policyID = Some p ->
        appDefaultDeadlines sm (fst (start w)) p = Ok d ->
        fst (conversation.ApplySLA
               (withSLAStore cm (slaStoreOf (withTeamStore sm teams) start))
               (UUID conv) (ConvID conv) policyID actor w) = None
        /\ exists delta : list Event,
             trace (snd (conversation.ApplySLA
                           (withSLAStore cm
                              (slaStoreOf (withTeamStore sm teams) start))
                           (UUID conv) (ConvID conv) policyID actor w))
             = trace (snd (start w)) ++ delta
             /\ List.filter is_insert delta
                = [EvCall (ApplySLAStmt (ConvID conv) policyID
                             (FirstResponse d) (Resolution d)) true]
             /\ In (EvCall (InsertActivity
                              (slaSetActivity (UUID conv) p actor)) true) delta)
  /\ (forall (value0 : string) (rest : list string) (user : User),
        values = value0 :: rest ->
        actorOf cm actor = Ok user ->
        snd (conversation.ApplyAction (withSLAStore cm store)
               {| conversation.Type_ := conversation.ActionSetSLA;
                  conversation.Value := values |} conv actor w)
        = snd (conversation.ApplySLA (withSLAStore cm store) (UUID conv)
                 (ConvID conv) (fst (Atoi value0)) user
                 (snd (logSetSLA value0 conv w)))
        /\ fst (conversation.ApplyAction (withSLAStore cm store)
                  {| conversation.Type_ := conversation.ActionSetSLA;
                     conversation.Value := values |} conv actor w)
           = match fst (conversation.ApplySLA (withSLAStore cm store)
                          (UUID conv) (ConvID conv) (fst (Atoi value0)) user
                          (snd (logSetSLA value0 conv w))) with
             | Some e =>
                 Some (GoError ("could not apply " +:+ conversation.ActionSetSLA
                                +:+ " action: " +:+ Error e))
             | None => None
             end)
  /\ conversation.ApplySLA (withSLAStore cm (slaStoreOf sm start))
       (UUID conv) (ConvID conv) policyID actor w
     = conversation.ApplySLA
         (withSLAStore cm (slaStoreOf (withTeamStore sm teams) start))
         (UUID conv) (ConvID conv) policyID actor w
  /\ conversation.ApplyAction (withSLAStore cm (slaStoreOf sm start))
       {| conversation.Type_ := conversation.ActionSetSLA;
          conversation.Value := values |} conv actor w
     = conversation.ApplyAction
         (withSLAStore cm (slaStoreOf (withTeamStore sm teams) start))
         {| conversation.Type_ := conversation.ActionSetSLA;
            conversation.Value := values |} conv actor w
  /\ fst (sla.getBusinessHoursAndTimezone sm 0 w)
     = match appDefault sm with
       | Err e => Err e
       | Ok c => if configured c then fetchCalendar sm c else Err notConfigured
       end.
Proof.
  split; [apply conversation_ApplySLA_run|].
  split; [|split; [|split; [|split; [reflexivity|split]]]].
  - rewrite conversation_ApplySLA_run. unfold slaStoreOf. rewrite bind_run.
    destruct (sla_ApplySLA_team0_inserts (withTeamStore sm teams) (fst (start w))
                (ConvID conv) policyID (snd (start w))) as (d1 & Ht1 & Hin).
    destruct (quiet_recordApplied (UUID conv) actor
                (fst (sla.ApplySLA (withTeamStore sm teams) (fst (start w))
                        (ConvID conv) 0 policyID (snd (start w))))
                (snd (sla.ApplySLA (withTeamStore sm teams) (fst (start w))
                        (ConvID conv) 0 policyID (snd (start w)))))
      as (d2 & Ht2 & Hf2).
    exists (d1 ++ d2). rewrite Ht2, Ht1, <- app_assoc. split; [reflexivity|].
    rewrite List.filter_app, Hf2, app_nil_r. exact Hin.
  - intros p d Hup Hp Hd. rewrite conversation_ApplySLA_run.
    unfold slaStoreOf. rewrite bind_run.
    destruct (sla_ApplySLA_team0_applies (withTeamStore sm teams) (fst (start w))
                (ConvID conv) policyID (snd (start w)) p d Hup Hp Hd)
      as (Hr & Henv & d1 & Ht1 & Hf1).
    rewrite Hr.
    destruct (recordApplied_records (UUID conv) actor p
                (snd (sla.ApplySLA (withTeamStore sm teams) (fst (start w))
                        (ConvID conv) 0 policyID (snd (start w)))))
      as (Hnone & Ht2).
    { intros n c. rewrite Henv. apply Hup. }
    split; [exact Hnone|].
    eexists. rewrite Ht2, Ht1, <- app_assoc. split; [reflexivity|].
    rewrite List.filter_app, Hf1. split; [reflexivity|].
    apply in_or_app. right. by left.
  - intros value0 rest user -> Huser. unfold actorOf in Huser.
    unfold conversation.ApplyAction.
    cbn [conversation.Value conversation.Type_ withSLAStore
         conversation.userStore_GetSystemUser].
    rewrite Huser.
    change (String.eqb conversation.ActionSetSLA conversation.ActionAssignTeam)
      with false.
    change (String.eqb conversation.ActionSetSLA conversation.ActionAssignUser)
      with false.
    change (String.eqb conversation.ActionSetSLA conversation.ActionSetPriority)
      with false.
    change (String.eqb conversation.ActionSetSLA conversation.ActionSetStatus)
      with false.
    change (String.eqb conversation.ActionSetSLA
              conversation.ActionSendPrivateNote) with false.
    change (String.eqb conversation.ActionSetSLA conversation.ActionReply)
      with false.
    change (String.eqb conversation.ActionSetSLA conversation.ActionSetSLA)
      with true.
    cbv iota. unfold logSetSLA.
    rewrite !bind_run.
    destruct (fst (conversation.ApplySLA _ _ _ _ _ _)); split; reflexivity.
  - unfold conversation.ApplyAction. cbn [conversation.Value conversation.Type_].
    destruct values as [|value0 rest]; [reflexivity|].
    cbn [conversation.userStore_GetSystemUser withSLAStore].
    destruct (if UserID actor =? 0 then _ else _) as [user|e]; reflexivity.
  - apply getBusinessHoursAndTimezone_value.
Qed.

Lemma conversation_ApplySLA_uses_app_default_witness :
  fst (conversation.ApplySLA
         (withSLAStore exampleManager
            (slaStoreOf (withTeamStore exampleSLAManager weekdayTeams) Now))
         (UUID conversation9) (ConvID conversation9) 1 agent42
         (startWorld (calmEnv (5 * sla.Day)) policyDB)) = None
  /\ List.filter is_insert
       (trace (snd (conversation.ApplySLA
                      (withSLAStore exampleManager
                         (slaStoreOf (withTeamStore exampleSLAManager weekdayTeams)
                            Now))
                      (UUID conversation9) (ConvID conversation9) 1 agent42
                      (startWorld (calmEnv (5 * sla.Day)) policyDB))))
     = [EvCall (ApplySLAStmt 9 1 (5 * sla.Day + 1 * Hour) zeroTime) true]
  /\ sla.CalculateDeadline (5 * sla.Day) 60 weekdays9to17 "UTC"
     = Ok (7 * sla.Day + 10 * Hour).
Proof.
  destruct (conversation_ApplySLA_uses_app_default exampleManager
              exampleSLAManager Now (fun _ _ _ => ret (Err ErrNoRows))
              weekdayTeams conversation9 1 ["1"] agent42
              (startWorld (calmEnv (5 * sla.Day)) policyDB))
    as (_ & _ & Happlies & _).
  destruct (Happlies {| Name := "Gold"; FirstResponseTime := "1h";
                        ResolutionTime := "" |}
              {| FirstResponse := 5 * sla.Day + 1 * Hour;
                 Resolution := zeroTime |})
    as (Hnone & delta & Htrace & Hins & _).
  - intros n c. reflexivity.
  - reflexivity.
  - reflexivity.
  - split; [exact Hnone|]. split; [|reflexivity].
    rewrite Htrace. exact Hins.
Defined.
